(** * Taiwan stock price fluctuation calculator

  A shallow embedding of [taiwan_stock_calculator.py] and the properties of
  its two functions, [create_price_table] and [get_price_range].

  Python's [float] is IEEE 754 binary64.  It is modelled by the Standard
  Library's [spec_float] at precision 53 and maximal exponent 1024: every
  arithmetic operation below is the correctly rounded (nearest, ties to
  even) operation on doubles, computed over [Z]. *)

From Stdlib Require Import ZArith List Bool Lia String.
From Stdlib Require Import Floats.SpecFloat.
Import ListNotations.

Local Open Scope Z_scope.

(** ** Binary64 arithmetic as Python performs it *)

Module F64.

Definition prec : Z := 53.
Definition emax : Z := 1024.

Definition float := spec_float.

Definition add : float -> float -> float := SFadd prec emax.
Definition sub : float -> float -> float := SFsub prec emax.
Definition mul : float -> float -> float := SFmul prec emax.
Definition div : float -> float -> float := SFdiv prec emax.

Definition ltb : float -> float -> bool := SFltb.
Definition leb : float -> float -> bool := SFleb.
Definition eqb : float -> float -> bool := SFeqb.

(** [x > y] and [x >= y] are the mirrored comparisons, as in IEEE 754:
    both are false when an operand is NaN. *)
Definition gtb (x y : float) : bool := ltb y x.
Definition geb (x y : float) : bool := leb y x.

Definition is_nan (x : float) : bool :=
  match x with S754_nan => true | _ => false end.

Definition is_finite (x : float) : bool :=
  match x with S754_zero _ | S754_finite _ _ _ => true | _ => false end.

Definition valid (x : float) : bool := valid_binary prec emax x.

(** The double nearest to the integer [n] (Python's [float(n)] when it does
    not overflow, and the value an integer literal takes in mixed
    arithmetic). *)
Definition of_Z (n : Z) : float := binary_normalize prec emax n 0 false.

(** The double nearest to the decimal [n / d]: the value of a Python
    literal such as [0.01] = [dec 1 100].  Both [n] and [d] are below
    [2^53] wherever this is used, so the division of the two exact doubles
    is the correctly rounded quotient. *)
Definition dec (n d : Z) : float := div (of_Z n) (of_Z d).

Definition inf : float := S754_infinity false.
Definition nan : float := S754_nan.

(** [float.is_integer]: finite and equal to its floor. *)
Definition is_integer (x : float) : bool :=
  match x with
  | S754_zero _ => true
  | S754_finite _ m e =>
      if 0 <=? e then true else Z.pos m mod 2 ^ (- e) =? 0
  | _ => false
  end.

(** C's [fmod]: the exact remainder of the truncated division, with the
    sign of the dividend. *)
Definition fmod (x y : float) : float :=
  match x, y with
  | S754_nan, _ | _, S754_nan => S754_nan
  | S754_infinity _, _ => S754_nan
  | _, S754_zero _ => S754_nan
  | _, S754_infinity _ => x
  | S754_zero _, _ => x
  | S754_finite sx mx ex, S754_finite _ my ey =>
      let ez := Z.min ex ey in
      let X := Z.pos mx * 2 ^ (ex - ez) in
      let Y := Z.pos my * 2 ^ (ey - ez) in
      binary_normalize prec emax (cond_Zopp sx (X mod Y)) ez sx
  end.

Definition zero_with_sign_of (y : float) : float :=
  match y with
  | S754_zero s | S754_infinity s | S754_finite s _ _ => S754_zero s
  | S754_nan => S754_zero false
  end.

(** Python's [x % y] on floats ([float_rem] of CPython): [None] stands for
    [ZeroDivisionError]. *)
Definition rem (x y : float) : option float :=
  if eqb y (S754_zero false) then None
  else
    let m := fmod x y in
    if negb (eqb m (S754_zero false)) && negb (is_nan m) then
      if xorb (ltb y (S754_zero false)) (ltb m (S754_zero false))
      then Some (add m y) else Some m
    else if is_nan m then Some m
    else Some (zero_with_sign_of y).

(** Python's two-argument [max] and [min]: the first argument is kept
    unless the second is strictly greater (smaller). *)
Definition max (a b : float) : float := if gtb b a then b else a.
Definition min (a b : float) : float := if ltb b a then b else a.

(** The integer nearest to [n / d], ties to even ([d] positive). *)
Definition div_half_even (n d : Z) : Z :=
  let q := n / d in
  let r := n mod d in
  match 2 * r ?= d with
  | Lt => q
  | Gt => q + 1
  | Eq => if Z.even q then q else q + 1
  end.

(** The integer nearest to [|x| * 100], ties to even, for a finite [x]
    of mantissa [m] and exponent [e]. *)
Definition hundredths (m : positive) (e : Z) : Z :=
  if 0 <=? e then Z.pos m * 2 ^ e * 100
  else div_half_even (Z.pos m * 100) (2 ^ (- e)).

(** Python's [round(x, 2)] on a float: the exact value of [x] is rounded
    to two decimals, ties to even, and the decimal obtained is converted
    back to the nearest double; NaN and the infinities round to
    themselves and the sign of a zero result is the sign of [x]. *)
Definition round2 (x : float) : float :=
  match x with
  | S754_finite s m e =>
      match hundredths m e with
      | Z.pos n => div (S754_finite s n 0) (of_Z 100)
      | _ => S754_zero s
      end
  | _ => x
  end.

End F64.

(** ** The price table *)

(** A row of the table: the Python tuple [(start, end, fluctuation)]. *)
Record band : Type := Band {
  start : F64.float;
  end_ : F64.float;
  fluctuation : F64.float
}.

(** [create_price_table()]: the literal list of seven tuples.  The integer
    entries ([10], [50], ...) are exact as doubles; the decimal entries are
    the doubles nearest to the literals. *)
Definition create_price_table : list band :=
  [ Band (F64.dec 1 100) (F64.of_Z 10) (F64.dec 1 100);
    Band (F64.of_Z 10) (F64.of_Z 50) (F64.dec 5 100);
    Band (F64.of_Z 50) (F64.of_Z 100) (F64.dec 1 10);
    Band (F64.of_Z 100) (F64.of_Z 150) (F64.dec 5 10);
    Band (F64.of_Z 150) (F64.of_Z 500) (F64.dec 5 10);
    Band (F64.of_Z 500) (F64.of_Z 1000) (F64.of_Z 1);
    Band (F64.of_Z 1000) F64.inf (F64.of_Z 5) ].

(** ** Failures *)

(** The tick rules of [get_price_range], one per [elif] branch. *)
Inductive tick_rule : Type :=
  | TwoDecimals      (* below 10: at most two decimal places *)
  | MultipleOf005    (* 10-50: multiple of 0.05 *)
  | MultipleOf01     (* 50-100: multiple of 0.1 *)
  | MultipleOf05     (* 100-500: multiple of 0.5 *)
  | WholeNumber      (* 500-1000: integer *)
  | MultipleOf5.     (* from 1000: integer multiple of 5 *)

(** What the message of an [InvalidPriceError] says. *)
Inductive invalid_price : Type :=
  | NotANumber
  | NotPositive
  | BelowMinimum
  | ExceedsMaximum
  | TickViolation (r : tick_rule).

(** The exceptions a call can end with.  Only [InvalidPriceError] is raised
    by the function itself; the others are Python's own and are not caught. *)
Inductive exn : Type :=
  | InvalidPriceError (k : invalid_price)
  | OverflowError
  | IndexError
  | ZeroDivisionError.

Inductive outcome : Type :=
  | Return (down_price up_price : F64.float)
  | Raise (e : exn).

(** ** Python values and helpers *)

(** The values a caller passes as [price]. *)
Inductive py_value : Type :=
  | PyFloat (x : F64.float)
  | PyInt (n : Z)
  | PyStr (s : string).

Inductive conversion : Type :=
  | Converted (x : F64.float)
  | ConvValueError
  | ConvOverflowError.

(** [ranges[i]] on a Python list: a negative index counts from the end and
    an index out of range raises [IndexError] ([None]). *)
Definition py_getitem {A : Type} (l : list A) (i : Z) : option A :=
  let n := Z.of_nat (List.length l) in
  let j := if i <? 0 then i + n else i in
  if (0 <=? j) && (j <? n) then nth_error l (Z.to_nat j) else None.

(** [bisect.bisect_right(a, x)]:
    [while lo < hi: mid = (lo + hi) // 2;
       if x < a[mid]: hi = mid else: lo = mid + 1].
    The loop runs at most [hi - lo] times, which bounds the fuel. *)
Fixpoint bisect_loop (fuel : nat) (a : list F64.float) (x : F64.float)
    (lo hi : nat) : nat :=
  match fuel with
  | O => lo
  | S fuel' =>
      if (lo <? hi)%nat then
        let mid := ((lo + hi) / 2)%nat in
        if F64.ltb x (nth mid a F64.nan)
        then bisect_loop fuel' a x lo mid
        else bisect_loop fuel' a x (S mid) hi
      else lo
  end.

Definition bisect_right (a : list F64.float) (x : F64.float) : nat :=
  bisect_loop (List.length a) a x 0 (List.length a).

(** ** The calculator *)

Section Calculator.

(** Python's [float(s)] on a string; [None] is [ValueError]. *)
Variable float_of_str : string -> option F64.float.

(** [float(price)]. *)
Definition py_float (v : py_value) : conversion :=
  match v with
  | PyFloat x => Converted x
  | PyInt n =>
      let x := F64.of_Z n in
      if F64.is_finite x then Converted x else ConvOverflowError
  | PyStr s =>
      match float_of_str s with
      | Some x => Converted x
      | None => ConvValueError
      end
  end.

(** [price % 5 == 0 and price.is_integer()]; [None] is
    [ZeroDivisionError]. *)
Definition multiple_of_5 (price : F64.float) : option bool :=
  match F64.rem price (F64.of_Z 5) with
  | Some r => Some (F64.eqb r (F64.of_Z 0) && F64.is_integer price)
  | None => None
  end.

(** The [if]/[elif] chain of tick rules: the rule violated, if any. *)
Definition tick_check (start price : F64.float) : option (option tick_rule) :=
  let scaled_is_integer k := F64.is_integer (F64.mul price (F64.of_Z k)) in
  if F64.leb start price && F64.ltb price (F64.of_Z 10)
     && negb (scaled_is_integer 100)
  then Some (Some TwoDecimals)
  else if F64.leb (F64.of_Z 10) price && F64.ltb price (F64.of_Z 50)
          && negb (scaled_is_integer 20)
  then Some (Some MultipleOf005)
  else if F64.leb (F64.of_Z 50) price && F64.ltb price (F64.of_Z 100)
          && negb (scaled_is_integer 10)
  then Some (Some MultipleOf01)
  else if F64.leb (F64.of_Z 100) price && F64.ltb price (F64.of_Z 500)
          && negb (scaled_is_integer 2)
  then Some (Some MultipleOf05)
  else if F64.leb (F64.of_Z 500) price && F64.ltb price (F64.of_Z 1000)
          && negb (F64.is_integer price)
  then Some (Some WholeNumber)
  else if F64.geb price (F64.of_Z 1000)
  then match multiple_of_5 price with
       | Some ok => Some (if ok then None else Some MultipleOf5)
       | None => None
       end
  else Some None.

(** The downward fluctuation: the previous band's at the start of a band
    that is not the first, the matched band's otherwise; [None] is
    [IndexError]. *)
Definition down_fluctuation_of (ranges : list band) (index : Z)
    (price : F64.float) (b : band) : option F64.float :=
  if F64.eqb price (start b) && (0 <? index)
  then option_map fluctuation (py_getitem ranges (index - 1))
  else Some (fluctuation b).

(** The bounds once the price has passed validation. *)
Definition bounds (price down_fluctuation fluctuation : F64.float) : outcome :=
  let down_price := F64.max (F64.sub price down_fluctuation) (F64.dec 1 100) in
  let up_price := F64.add price fluctuation in
  let down_price := F64.min down_price price in
  Return (F64.round2 down_price) (F64.round2 up_price).

(** [get_price_range] after [price = float(price)]. *)
Definition get_price_range_float (price : F64.float) (ranges : list band)
    : outcome :=
  if F64.leb price (F64.of_Z 0) then Raise (InvalidPriceError NotPositive)
  else if F64.ltb price (F64.dec 1 100)
  then Raise (InvalidPriceError BelowMinimum)
  else if F64.gtb price (F64.of_Z 1000000)
  then Raise (InvalidPriceError ExceedsMaximum)
  else
    let index := Z.of_nat (bisect_right (map start ranges) price) - 1 in
    match py_getitem ranges index with
    | None => Raise IndexError
    | Some b =>
        match tick_check (start b) price with
        | None => Raise ZeroDivisionError
        | Some (Some r) => Raise (InvalidPriceError (TickViolation r))
        | Some None =>
            match down_fluctuation_of ranges index price b with
            | None => Raise IndexError
            | Some d => bounds price d (fluctuation b)
            end
        end
    end.

Definition get_price_range (price : py_value) (ranges : list band) : outcome :=
  match py_float price with
  | ConvValueError => Raise (InvalidPriceError NotANumber)
  | ConvOverflowError => Raise OverflowError
  | Converted x => get_price_range_float x ranges
  end.

End Calculator.


(** ** Band lookup *)

(** [band.start <= price < band.end]. *)
Definition contains (b : band) (price : F64.float) : bool :=
  F64.leb (start b) price && F64.ltb price (end_ b).

(** [index = bisect.bisect_right([r[0] for r in ranges], price) - 1]. *)
Definition lookup_index (ranges : list band) (price : F64.float) : Z :=
  Z.of_nat (bisect_right (map start ranges) price) - 1.

(** ** The table as a shared object

    [ranges] is a Python list passed by reference.  The same function is
    written here as a computation over that list, statement by statement,
    so that what a call does to the caller's table is visible. *)

Module Shared.

Definition M (A : Type) : Type := list band -> (A + exn) * list band.

Definition ret {A : Type} (a : A) : M A := fun s => (inl a, s).

Definition raise {A : Type} (e : exn) : M A := fun s => (inr e, s).

Definition bind {A B : Type} (m : M A) (k : A -> M B) : M B :=
  fun s =>
    match m s with
    | (inl a, s') => k a s'
    | (inr e, s') => (inr e, s')
    end.

Notation "x <- m ;; k" := (bind m (fun x => k))
  (at level 61, m at next level, right associativity).

(** [[r[0] for r in ranges]]: a fresh list of the starts. *)
Definition read_starts : M (list F64.float) := fun s => (inl (map start s), s).

(** [ranges[i]]. *)
Definition getitem (i : Z) : M band :=
  fun s =>
    match py_getitem s i with
    | Some b => (inl b, s)
    | None => (inr IndexError, s)
    end.

(** [get_price_range] on the shared list, one step per statement of the
    source. *)
Definition get_price_range_m (float_of_str : string -> option F64.float)
    (price : py_value) : M (F64.float * F64.float) :=
  match py_float float_of_str price with
  | ConvValueError => raise (InvalidPriceError NotANumber)
  | ConvOverflowError => raise OverflowError
  | Converted price =>
      if F64.leb price (F64.of_Z 0)
      then raise (InvalidPriceError NotPositive)
      else if F64.ltb price (F64.dec 1 100)
      then raise (InvalidPriceError BelowMinimum)
      else if F64.gtb price (F64.of_Z 1000000)
      then raise (InvalidPriceError ExceedsMaximum)
      else
        starts <- read_starts ;;
        let index := Z.of_nat (bisect_right starts price) - 1 in
        b <- getitem index ;;
        match tick_check (start b) price with
        | None => raise ZeroDivisionError
        | Some (Some r) => raise (InvalidPriceError (TickViolation r))
        | Some None =>
            down_fluctuation <-
              (if F64.eqb price (start b) && (0 <? index)
               then prev <- getitem (index - 1) ;; ret (fluctuation prev)
               else ret (fluctuation b)) ;;
            let down_price :=
              F64.max (F64.sub price down_fluctuation) (F64.dec 1 100) in
            let up_price := F64.add price (fluctuation b) in
            let down_price := F64.min down_price price in
            ret (F64.round2 down_price, F64.round2 up_price)
        end
  end.

(** The outcome of the pure function, as a value or an exception. *)
Definition of_outcome (o : outcome) : (F64.float * F64.float) + exn :=
  match o with
  | Return lo hi => inl (lo, hi)
  | Raise e => inr e
  end.

(** Two calls in a row on the same table object. *)
Definition call_twice (float_of_str : string -> option F64.float)
    (price : py_value) (ranges : list band) :=
  let '(r1, ranges1) := get_price_range_m float_of_str price ranges in
  let '(r2, ranges2) := get_price_range_m float_of_str price ranges1 in
  (r1, r2, ranges2).

End Shared.

(** ** The order on doubles

    [SFcompare] orders the doubles that are not NaN lexicographically on
    (sign class, exponent, mantissa).  [key] makes that explicit, which
    turns every comparison into linear arithmetic on integers. *)

Module Order.

Definition key (x : F64.float) : Z * Z * Z :=
  match x with
  | S754_infinity true => (-2, 0, 0)
  | S754_finite true m e => (-1, - e, - Z.pos m)
  | S754_zero _ => (0, 0, 0)
  | S754_nan => (0, 0, 0)
  | S754_finite false m e => (1, e, Z.pos m)
  | S754_infinity false => (2, 0, 0)
  end.

Definition lex_lt (p q : Z * Z * Z) : Prop :=
  let '(a, b, c) := p in
  let '(a', b', c') := q in
  a < a' \/ (a = a' /\ (b < b' \/ (b = b' /\ c < c'))).

Definition lex_le (p q : Z * Z * Z) : Prop :=
  let '(a, b, c) := p in
  let '(a', b', c') := q in
  a < a' \/ (a = a' /\ (b < b' \/ (b = b' /\ c <= c'))).

Definition lex_eq (p q : Z * Z * Z) : Prop :=
  let '(a, b, c) := p in
  let '(a', b', c') := q in
  a = a' /\ b = b' /\ c = c'.

Definition number (x : F64.float) : Prop := F64.is_nan x = false.

End Order.

(** ** Shape of a table *)

(** Consecutive rows: each starts above the previous start and exactly where
    the previous one ends. *)
Fixpoint chained (l : list band) : Prop :=
  match l with
  | b :: ((b' :: _) as tl) =>
      F64.ltb (start b) (start b') = true /\ end_ b = start b' /\ chained tl
  | _ => True
  end.

(** ** Prices in cents *)

(** The literal [n / 100] passed as a float to the standard table. *)
Definition outcome_of_cents (n : Z) : outcome :=
  get_price_range (fun _ => None) (PyFloat (F64.dec n 100)) create_price_table.

Definition rejected (o : outcome) : bool :=
  match o with
  | Raise (InvalidPriceError (TickViolation _)) => true
  | _ => false
  end.

(** ** Values of doubles

    What the rounding lemmas are stated with: the position of an exact
    value between two integers, and the value of a normal double as an
    integer number of units of [2 ^ -1074]. *)

(** Where a value sits between two consecutive integers, as a fraction
    [a / b] with [0 <= a < b]. *)
Definition loc_frac (a b : Z) : location :=
  if a =? 0 then loc_Exact else loc_Inexact (2 * a ?= b).

(** A positive normal double and its value, counted in units of
    [2 ^ -1074]. *)
Definition normal (x : F64.float) (v : Z) : Prop :=
  exists m e,
    x = S754_finite false m e
    /\ 2 ^ 52 <= Z.pos m < 2 ^ 53
    /\ -1074 <= e <= 971
    /\ v = Z.pos m * 2 ^ (e + 1074).

(** The value of a positive finite double in units of [2 ^ -1074]. *)
Definition value_of (x : F64.float) : Z :=
  match x with
  | S754_finite false m e => Z.pos m * 2 ^ (e + 1074)
  | _ => 0
  end.

Definition is_normal (x : F64.float) : bool :=
  match x with
  | S754_finite false m e =>
      (2 ^ 52 <=? Z.pos m) && (Z.pos m <? 2 ^ 53)
      && (-1074 <=? e) && (e <=? 971)
  | _ => false
  end.

(** ** A table with a zero fluctuation *)



(** ** Tables in general *)

(** A list of doubles in non-decreasing order, none of them NaN: what
    [bisect.bisect_right] expects of its first argument. *)
Definition ascending (a : list F64.float) : Prop :=
  forall i j, (i <= j < List.length a)%nat ->
    F64.leb (nth i a F64.nan) (nth j a F64.nan) = true.

(** ** Prices on and off the tick grid *)

(** Equality of doubles as data (not [==]): NaN equals NaN and the two
    zeros differ. *)
Definition same_float (x y : F64.float) : bool :=
  match x, y with
  | S754_zero s, S754_zero t => Bool.eqb s t
  | S754_infinity s, S754_infinity t => Bool.eqb s t
  | S754_nan, S754_nan => true
  | S754_finite s m e, S754_finite t n f =>
      Bool.eqb s t && Pos.eqb m n && Z.eqb e f
  | _, _ => false
  end.

(** The call returned exactly the pair [(lo, hi)]. *)
Definition returned (o : outcome) (lo hi : F64.float) : bool :=
  match o with
  | Return l h => same_float l lo && same_float h hi
  | Raise _ => false
  end.

(** The call returned. *)
Definition is_return (o : outcome) : bool :=
  match o with
  | Return _ _ => true
  | Raise _ => false
  end.

(** The call raised the tick violation [r]. *)
Definition raised_tick (o : outcome) (r : tick_rule) : bool :=
  match o, r with
  | Raise (InvalidPriceError (TickViolation TwoDecimals)), TwoDecimals
  | Raise (InvalidPriceError (TickViolation MultipleOf005)), MultipleOf005
  | Raise (InvalidPriceError (TickViolation MultipleOf01)), MultipleOf01
  | Raise (InvalidPriceError (TickViolation MultipleOf05)), MultipleOf05
  | Raise (InvalidPriceError (TickViolation WholeNumber)), WholeNumber
  | Raise (InvalidPriceError (TickViolation MultipleOf5)), MultipleOf5 => true
  | _, _ => false
  end.

(** [f] holds at [start], [start + 1], ..., [n] values in all. *)
Fixpoint all_from (f : Z -> bool) (start : Z) (n : nat) : bool :=
  match n with
  | O => true
  | S n' => f start && all_from f (start + 1) n'
  end.

(** The price [n / den] on the standard table, and the bounds one tick
    [1 / den] away from it; at the start of a range the lower bound is
    [low] instead. *)
Definition on_grid (den first : Z) (low : F64.float) (n : Z) : bool :=
  returned
    (get_price_range (fun _ => None) (PyFloat (F64.dec n den))
       create_price_table)
    (if n =? first then low else F64.dec (n - 1) den)
    (F64.dec (n + 1) den).

(** A price of [n] cents is either refused for its decimals or gets the
    bounds one cent away, the lower one not below 0.01. *)
Definition cent_checked (n : Z) : bool :=
  let o := outcome_of_cents n in
  raised_tick o TwoDecimals
  || returned o (F64.dec (Z.max (n - 1) 1) 100) (F64.dec (n + 1) 100).

(** [n / den] is a price of one of the four tick grids from 10 to 1000:
    twentieths from 10, tenths from 50, halves from 100, units from 500. *)
Definition on_a_grid (den n : Z) : bool :=
  ((den =? 20) && (200 <=? n) && (n <=? 999))
  || ((den =? 10) && (500 <=? n) && (n <=? 999))
  || ((den =? 2) && (200 <=? n) && (n <=? 999))
  || ((den =? 1) && (500 <=? n) && (n <=? 999)).

(** * Properties *)

Arguments F64.of_Z : simpl never.
Arguments F64.dec : simpl never.

Module OrderFacts.
Import Order.

Ltac split_floats :=
  repeat match goal with
         | x : F64.float |- _ => destruct x as [[]|[]| |[] ? ?]
         | x : spec_float |- _ => destruct x as [[]|[]| |[] ? ?]
         end.

Ltac decide_compare :=
  cbn;
  repeat match goal with
         | |- context [Z.compare ?a ?b] =>
             destruct (Z.compare_spec a b); cbn
         | |- context [Pos.compare_cont Eq ?a ?b] =>
             change (Pos.compare_cont Eq a b) with (Pos.compare a b);
             destruct (Pos.compare_spec a b); cbn
         end;
  intuition (try discriminate; try congruence; try lia).

Lemma ltb_iff (a b : F64.float) :
  F64.ltb a b = true <-> number a /\ number b /\ lex_lt (key a) (key b).
Proof.
  unfold F64.ltb, SFltb, SFcompare, number, F64.is_nan, lex_lt, key.
  split_floats; decide_compare.
Qed.

Lemma leb_iff (a b : F64.float) :
  F64.leb a b = true <-> number a /\ number b /\ lex_le (key a) (key b).
Proof.
  unfold F64.leb, SFleb, SFcompare, number, F64.is_nan, lex_le, key.
  split_floats; decide_compare.
Qed.

Lemma eqb_iff (a b : F64.float) :
  F64.eqb a b = true <-> number a /\ number b /\ lex_eq (key a) (key b).
Proof.
  unfold F64.eqb, SFeqb, SFcompare, number, F64.is_nan, lex_eq, key.
  split_floats; decide_compare.
Qed.

Lemma ltb_false_iff (a b : F64.float) :
  number a -> number b ->
  (F64.ltb a b = false <-> lex_le (key b) (key a)).
Proof.
  unfold F64.ltb, SFltb, SFcompare, number, F64.is_nan, lex_le, key.
  split_floats; decide_compare.
Qed.

Lemma leb_false_iff (a b : F64.float) :
  number a -> number b ->
  (F64.leb a b = false <-> lex_lt (key b) (key a)).
Proof.
  unfold F64.leb, SFleb, SFcompare, number, F64.is_nan, lex_lt, key.
  split_floats; decide_compare.
Qed.

Lemma eqb_false_iff (a b : F64.float) :
  number a -> number b ->
  (F64.eqb a b = false <-> ~ lex_eq (key a) (key b)).
Proof.
  unfold F64.eqb, SFeqb, SFcompare, number, F64.is_nan, lex_eq, key.
  split_floats; decide_compare.
Qed.

(** Every comparison with NaN is false. *)
Lemma nan_compare (x : F64.float) :
  F64.is_nan x = true ->
  forall y,
    F64.ltb x y = false /\ F64.ltb y x = false /\
    F64.leb x y = false /\ F64.leb y x = false /\
    F64.eqb x y = false /\ F64.eqb y x = false.
Proof.
  destruct x; simpl; try discriminate.
  intros _ y. destruct y; repeat split; reflexivity.
Qed.

Ltac number_tac :=
  first [ assumption | vm_compute; reflexivity ].

Ltac order_true :=
  repeat match goal with
         | H : F64.gtb _ _ = true |- _ => unfold F64.gtb in H
         | H : F64.geb _ _ = true |- _ => unfold F64.geb in H
         | H : F64.ltb _ _ = true |- _ =>
             apply ltb_iff in H; destruct H as (? & ? & H)
         | H : F64.leb _ _ = true |- _ =>
             apply leb_iff in H; destruct H as (? & ? & H)
         | H : F64.eqb _ _ = true |- _ =>
             apply eqb_iff in H; destruct H as (? & ? & H)
         end.

Ltac order_false :=
  repeat match goal with
         | H : F64.gtb _ _ = false |- _ => unfold F64.gtb in H
         | H : F64.geb _ _ = false |- _ => unfold F64.geb in H
         | H : F64.ltb ?a ?b = false |- _ =>
             let Ha := fresh in
             let Hb := fresh in
             assert (Ha : number a) by number_tac;
             assert (Hb : number b) by number_tac;
             apply (proj1 (ltb_false_iff a b Ha Hb)) in H
         | H : F64.leb ?a ?b = false |- _ =>
             let Ha := fresh in
             let Hb := fresh in
             assert (Ha : number a) by number_tac;
             assert (Hb : number b) by number_tac;
             apply (proj1 (leb_false_iff a b Ha Hb)) in H
         | H : F64.eqb ?a ?b = false |- _ =>
             let Ha := fresh in
             let Hb := fresh in
             assert (Ha : number a) by number_tac;
             assert (Hb : number b) by number_tac;
             apply (proj1 (eqb_false_iff a b Ha Hb)) in H
         end.

Ltac order_goal :=
  unfold F64.gtb, F64.geb;
  lazymatch goal with
  | |- F64.ltb ?a ?b = true =>
      apply (proj2 (ltb_iff a b)); split; [number_tac | split; [number_tac|]]
  | |- F64.leb ?a ?b = true =>
      apply (proj2 (leb_iff a b)); split; [number_tac | split; [number_tac|]]
  | |- F64.eqb ?a ?b = true =>
      apply (proj2 (eqb_iff a b)); split; [number_tac | split; [number_tac|]]
  | |- F64.ltb ?a ?b = false =>
      let Ha := fresh in
      let Hb := fresh in
      assert (Ha : number a) by number_tac;
      assert (Hb : number b) by number_tac;
      apply (proj2 (ltb_false_iff a b Ha Hb))
  | |- F64.leb ?a ?b = false =>
      let Ha := fresh in
      let Hb := fresh in
      assert (Ha : number a) by number_tac;
      assert (Hb : number b) by number_tac;
      apply (proj2 (leb_false_iff a b Ha Hb))
  | |- F64.eqb ?a ?b = false =>
      let Ha := fresh in
      let Hb := fresh in
      assert (Ha : number a) by number_tac;
      assert (Hb : number b) by number_tac;
      apply (proj2 (eqb_false_iff a b Ha Hb))
  | |- _ => idtac
  end.

(** Evaluates the key of every literal and names the key of every
    variable. *)
Ltac eval_keys :=
  repeat match goal with
         | H : context [key ?c] |- _ =>
             tryif is_var c then fail
             else (let k := eval vm_compute in (key c) in
                   change (key c) with k in *)
         | |- context [key ?c] =>
             tryif is_var c then fail
             else (let k := eval vm_compute in (key c) in
                   change (key c) with k in *)
         end;
  repeat match goal with
         | x : F64.float |- _ =>
             match goal with
             | H : context [key x] |- _ =>
                 let a := fresh "ka" in
                 let b := fresh "kb" in
                 let c := fresh "kc" in
                 destruct (key x) as [[a b] c]
             | |- context [key x] =>
                 let a := fresh "ka" in
                 let b := fresh "kb" in
                 let c := fresh "kc" in
                 destruct (key x) as [[a b] c]
             end
         end.

Ltac float_order :=
  order_true; order_false; order_goal; eval_keys;
  unfold lex_lt, lex_le, lex_eq in *;
  lia.

End OrderFacts.

(** ** The table *)

Section Table.
Import Order OrderFacts.

(** C6: [create_price_table] returns exactly the seven rows
    (0.01, 10, 0.01), (10, 50, 0.05), (50, 100, 0.1), (100, 150, 0.5),
    (150, 500, 0.5), (500, 1000, 1.0), (1000, +inf, 5.0), each number being
    the double of that literal, in ascending order of start, every row
    ending where the next begins. *)
Theorem create_price_table_rows :
  map (fun b => (start b, end_ b, fluctuation b)) create_price_table =
    [ (F64.dec 1 100, F64.of_Z 10, F64.dec 1 100);
      (F64.of_Z 10, F64.of_Z 50, F64.dec 5 100);
      (F64.of_Z 50, F64.of_Z 100, F64.dec 1 10);
      (F64.of_Z 100, F64.of_Z 150, F64.dec 5 10);
      (F64.of_Z 150, F64.of_Z 500, F64.dec 5 10);
      (F64.of_Z 500, F64.of_Z 1000, F64.of_Z 1);
      (F64.of_Z 1000, S754_infinity false, F64.of_Z 5) ]
  /\ List.length create_price_table = 7%nat
  /\ chained create_price_table
  /\ Forall (fun b => F64.valid (start b) && F64.valid (end_ b)
                      && F64.valid (fluctuation b)
                      && F64.ltb (F64.of_Z 0) (fluctuation b) = true)
       create_price_table.
Proof.
  split; [reflexivity|].
  split; [reflexivity|].
  split.
  - unfold create_price_table; cbn [chained start end_].
    repeat split; vm_compute; reflexivity.
  - unfold create_price_table.
    repeat constructor; vm_compute; reflexivity.
Qed.

End Table.

(** ** Concrete scenarios *)

Section Scenarios.
Variable float_of_str : string -> option F64.float.

(** C1: with the standard table, price 5.00 returns (4.99, 5.01), price
    100.00 returns (99.90, 100.50) and price 1000.00 returns
    (999.00, 1005.00). *)
Theorem scenarios_5_100_1000 :
  get_price_range float_of_str (PyFloat (F64.of_Z 5)) create_price_table
    = Return (F64.dec 499 100) (F64.dec 501 100)
  /\ get_price_range float_of_str (PyFloat (F64.of_Z 100)) create_price_table
    = Return (F64.dec 999 10) (F64.dec 1005 10)
  /\ get_price_range float_of_str (PyFloat (F64.of_Z 1000)) create_price_table
    = Return (F64.of_Z 999) (F64.of_Z 1005).
Proof.
  repeat split; vm_compute; reflexivity.
Qed.

(** The same prices passed as Python integers. *)
Lemma scenarios_as_int :
  get_price_range float_of_str (PyInt 5) create_price_table
    = Return (F64.dec 499 100) (F64.dec 501 100)
  /\ get_price_range float_of_str (PyInt 100) create_price_table
    = Return (F64.dec 999 10) (F64.dec 1005 10)
  /\ get_price_range float_of_str (PyInt 1000) create_price_table
    = Return (F64.of_Z 999) (F64.of_Z 1005).
Proof.
  repeat split; vm_compute; reflexivity.
Qed.

End Scenarios.

(** ** Band lookup *)

Section Lookup.
Import Order OrderFacts.

(** The seven comparisons the binary search can make on the standard
    table, as a decision tree. *)
Lemma bisect_right_table (x : F64.float) :
  bisect_right (map start create_price_table) x =
    if F64.ltb x (F64.of_Z 100) then
      if F64.ltb x (F64.of_Z 10) then
        if F64.ltb x (F64.dec 1 100) then 0%nat else 1%nat
      else if F64.ltb x (F64.of_Z 50) then 2%nat else 3%nat
    else
      if F64.ltb x (F64.of_Z 500) then
        if F64.ltb x (F64.of_Z 150) then 4%nat else 5%nat
      else if F64.ltb x (F64.of_Z 1000) then 6%nat else 7%nat.
Proof.
  unfold bisect_right, create_price_table. cbn.
  repeat match goal with
         | |- context [F64.ltb x ?c] => destruct (F64.ltb x c)
         end; reflexivity.
Qed.

Ltac split_on_comparisons x :=
  repeat match goal with
         | |- context [F64.ltb x ?c] => destruct (F64.ltb x c) eqn:?
         end.

(** C4: for every price in [0.01, 1000000] the lookup lands on a row of
    the table, that row is the rightmost one whose start is at most the
    price, it satisfies start <= price < end, and no other row of the table
    does. *)
Theorem band_lookup_unique (x : F64.float) :
  F64.leb (F64.dec 1 100) x = true ->
  F64.leb x (F64.of_Z 1000000) = true ->
  exists (i : nat) (b : band),
    lookup_index create_price_table x = Z.of_nat i
    /\ py_getitem create_price_table (lookup_index create_price_table x)
       = Some b
    /\ nth_error create_price_table i = Some b
    /\ contains b x = true
    /\ (forall b', In b' create_price_table -> contains b' x = true -> b' = b)
    /\ (forall j b', nth_error create_price_table j = Some b' ->
          (F64.leb (start b') x = true <-> (j <= i)%nat)).
Proof.
  intros Hlo Hhi. unfold lookup_index. rewrite bisect_right_table.
  split_on_comparisons x.
  1: exfalso; float_order.
  all: match goal with
       | |- context [Z.of_nat (S ?n) - 1] => exists n
       end.
  all: eexists; split; [reflexivity|].
  all: split; [vm_compute; reflexivity|].
  all: split; [reflexivity|].
  all: unfold contains; cbn [start end_ fluctuation].
  all: split; [apply andb_true_intro; split; float_order|].
  all: split.
  all: try (intros b' Hin Hc; unfold create_price_table in Hin;
            cbn [In] in Hin;
            repeat (destruct Hin as [<- | Hin];
                    [ cbn [start end_] in Hc; apply andb_prop in Hc;
                      destruct Hc;
                      first [ reflexivity | exfalso; float_order ] | ]);
            contradiction).
  all: intros j b' Hj; unfold create_price_table in Hj;
    do 7 (destruct j as [|j];
          [ cbn [nth_error] in Hj; injection Hj as <-; cbn [start];
            split; intro;
            first [ lia | float_order | exfalso; float_order | exfalso; lia ]
          | ]);
    cbn [nth_error] in Hj; destruct j; discriminate.
Qed.

(** The search stops within its fuel: more fuel does not change the
    index. *)
Lemma bisect_loop_fuel (a : list F64.float) (x : F64.float) :
  forall fuel lo hi extra,
    (hi - lo <= fuel)%nat ->
    bisect_loop (fuel + extra) a x lo hi = bisect_loop fuel a x lo hi.
Proof.
  induction fuel as [|fuel IH]; intros lo hi extra Hle.
  - cbn [Nat.add bisect_loop].
    destruct extra as [|extra]; [reflexivity|].
    cbn [bisect_loop].
    destruct (Nat.ltb_spec lo hi); [lia | reflexivity].
  - cbn [Nat.add bisect_loop].
    destruct (Nat.ltb_spec lo hi) as [Hlt|]; [|reflexivity].
    assert (Hmid : (lo <= (lo + hi) / 2 < hi)%nat).
    { split.
      - apply Nat.div_le_lower_bound; lia.
      - apply Nat.Div0.div_lt_upper_bound; lia. }
    destruct (F64.ltb x (nth ((lo + hi) / 2) a F64.nan)); apply IH; lia.
Qed.

End Lookup.

Lemma band_lookup_unique_witness :
  exists (i : nat) (b : band),
    lookup_index create_price_table (F64.of_Z 5) = Z.of_nat i
    /\ py_getitem create_price_table
         (lookup_index create_price_table (F64.of_Z 5)) = Some b
    /\ nth_error create_price_table i = Some b
    /\ contains b (F64.of_Z 5) = true
    /\ (forall b', In b' create_price_table ->
          contains b' (F64.of_Z 5) = true -> b' = b)
    /\ (forall j b', nth_error create_price_table j = Some b' ->
          (F64.leb (start b') (F64.of_Z 5) = true <-> (j <= i)%nat)).
Proof.
  apply (band_lookup_unique (F64.of_Z 5)); vm_compute; reflexivity.
Defined.

(** ** Validation *)

Section Validation.
Import Order OrderFacts.
Variable float_of_str : string -> option F64.float.

(** Once [float(price)] has ended without [OverflowError], the checks run
    in the order numeric, positive, minimum, maximum, and the first that
    fails decides the failure, whatever the table: an input that is not a
    number is reported as such; a price at most 0 as not positive; a price
    p with 0 < p < 0.01 as below the minimum; a price above 1000000 as
    exceeding the maximum. *)
Lemma validation_order (price : py_value) (ranges : list band) :
  (py_float float_of_str price = ConvValueError ->
   get_price_range float_of_str price ranges
     = Raise (InvalidPriceError NotANumber))
  /\ (forall x, py_float float_of_str price = Converted x ->
        (F64.leb x (F64.of_Z 0) = true ->
         get_price_range float_of_str price ranges
           = Raise (InvalidPriceError NotPositive))
        /\ (F64.ltb (F64.of_Z 0) x = true ->
            F64.ltb x (F64.dec 1 100) = true ->
            get_price_range float_of_str price ranges
              = Raise (InvalidPriceError BelowMinimum))
        /\ (F64.gtb x (F64.of_Z 1000000) = true ->
            get_price_range float_of_str price ranges
              = Raise (InvalidPriceError ExceedsMaximum))).
Proof.
  unfold get_price_range. split.
  - intros ->. reflexivity.
  - intros x ->. unfold get_price_range_float. repeat split.
    + intros ->. reflexivity.
    + intros Hpos Hmin.
      replace (F64.leb x (F64.of_Z 0)) with false
        by (symmetry; float_order).
      rewrite Hmin. reflexivity.
    + intros Hmax.
      replace (F64.leb x (F64.of_Z 0)) with false
        by (symmetry; float_order).
      replace (F64.ltb x (F64.dec 1 100)) with false
        by (symmetry; float_order).
      rewrite Hmax. reflexivity.
Qed.

(** A price that converts to a float that is a number and is not
    strictly positive is rejected as not positive, whatever the table. *)
Lemma not_positive_rejected (price : py_value) (x : F64.float)
    (ranges : list band) :
  py_float float_of_str price = Converted x ->
  F64.is_nan x = false ->
  F64.gtb x (F64.of_Z 0) = false ->
  get_price_range float_of_str price ranges
    = Raise (InvalidPriceError NotPositive).
Proof.
  intros Hconv Hnum Hnot.
  unfold get_price_range. rewrite Hconv. unfold get_price_range_float.
  replace (F64.leb x (F64.of_Z 0)) with true; [reflexivity|].
  symmetry. change (F64.is_nan x = false) with (number x) in Hnum.
  float_order.
Qed.

(** C5: the int [10 ^ 400] is a numeric price above 1000000, and the call
    does not fail with the "exceeds maximum" [InvalidPriceError]:
    [float(price)] raises [OverflowError], which the [except ValueError]
    clause does not catch, so the call ends in [OverflowError] on any
    table, before the check [price > 1000000] is reached. *)
Theorem huge_price_not_exceeds_maximum (ranges : list band) :
  1000000 < 10 ^ 400
  /\ py_float float_of_str (PyInt (10 ^ 400)) = ConvOverflowError
  /\ get_price_range float_of_str (PyInt (10 ^ 400)) ranges
     = Raise OverflowError.
Proof.
  assert (H : py_float float_of_str (PyInt (10 ^ 400)) = ConvOverflowError)
    by (vm_compute; reflexivity).
  split; [reflexivity|]. split; [exact H|].
  unfold get_price_range. rewrite H. reflexivity.
Qed.

(** C8: NaN is not strictly positive, and it is not rejected as not
    positive: [price <= 0] is false for it, it reaches the band lookup,
    which selects the last row, and the call returns (nan, nan).  The int
    [- 10 ^ 400] is not positive either, and the call ends in
    [OverflowError]. *)
Theorem not_positive_not_rejected :
  F64.gtb F64.nan (F64.of_Z 0) = false
  /\ F64.leb F64.nan (F64.of_Z 0) = false
  /\ lookup_index create_price_table F64.nan = 6
  /\ get_price_range float_of_str (PyFloat F64.nan) create_price_table
     = Return F64.nan F64.nan
  /\ - 10 ^ 400 <= 0
  /\ get_price_range float_of_str (PyInt (- 10 ^ 400)) create_price_table
     = Raise OverflowError.
Proof.
  repeat split; try (vm_compute; reflexivity).
  vm_compute. discriminate.
Qed.

End Validation.

(** The order of the checks on 0.005, 2000000 and a string that is not a
    number. *)
Lemma validation_order_examples :
  get_price_range (fun _ => None) (PyFloat (F64.dec 5 1000)) create_price_table
    = Raise (InvalidPriceError BelowMinimum)
  /\ get_price_range (fun _ => None) (PyInt 2000000) create_price_table
    = Raise (InvalidPriceError ExceedsMaximum)
  /\ get_price_range (fun _ => None) (PyStr "abc") create_price_table
    = Raise (InvalidPriceError NotANumber).
Proof.
  split; [|split].
  - destruct (validation_order (fun _ => None) (PyFloat (F64.dec 5 1000))
                create_price_table) as [_ H].
    destruct (H _ eq_refl) as (_ & Hmin & _).
    apply Hmin; reflexivity.
  - destruct (validation_order (fun _ => None) (PyInt 2000000)
                create_price_table) as [_ H].
    destruct (H _ eq_refl) as (_ & _ & Hmax).
    apply Hmax; reflexivity.
  - destruct (validation_order (fun _ => None) (PyStr "abc")
                create_price_table) as [H _].
    apply H; reflexivity.
Defined.

(** The int -3 is rejected as not positive. *)
Lemma not_positive_rejected_example :
  get_price_range (fun _ => None) (PyInt (-3)) create_price_table
    = Raise (InvalidPriceError NotPositive).
Proof.
  apply (not_positive_rejected (fun _ => None) (PyInt (-3)) (F64.of_Z (-3)));
    reflexivity.
Defined.

(** ** The table is only read *)

Section SharedTable.
Variable float_of_str : string -> option F64.float.

(** The computation over the shared list ends as the function on values
    does and leaves the list as it found it. *)
Lemma shared_get_price_range (price : py_value) (ranges : list band) :
  Shared.get_price_range_m float_of_str price ranges
    = (Shared.of_outcome (get_price_range float_of_str price ranges), ranges).
Proof.
  unfold Shared.get_price_range_m, get_price_range.
  destruct (py_float float_of_str price) as [x| |]; try reflexivity.
  unfold get_price_range_float.
  destruct (F64.leb x (F64.of_Z 0)); [reflexivity|].
  destruct (F64.ltb x (F64.dec 1 100)); [reflexivity|].
  destruct (F64.gtb x (F64.of_Z 1000000)); [reflexivity|].
  unfold Shared.bind at 1. unfold Shared.read_starts.
  unfold Shared.bind at 1. unfold Shared.getitem at 1.
  destruct (py_getitem ranges
              (Z.of_nat (bisect_right (map start ranges) x) - 1))
    as [b|]; [|reflexivity].
  destruct (tick_check (start b) x) as [[r|]|]; try reflexivity.
  unfold down_fluctuation_of, Shared.bind, Shared.getitem, Shared.ret, bounds.
  destruct (F64.eqb x (start b)
            && (0 <? Z.of_nat (bisect_right (map start ranges) x) - 1));
    [|reflexivity].
  destruct (py_getitem ranges
              (Z.of_nat (bisect_right (map start ranges) x) - 1 - 1));
    reflexivity.
Qed.

(** C9: two calls with the same price on the same table end the same way
    (the same pair, or the same exception) and the table after them is the
    table before them. *)
Theorem calls_repeatable (price : py_value) (ranges : list band) :
  Shared.call_twice float_of_str price ranges
    = (Shared.of_outcome (get_price_range float_of_str price ranges),
       Shared.of_outcome (get_price_range float_of_str price ranges),
       ranges).
Proof.
  unfold Shared.call_twice.
  rewrite !shared_get_price_range. reflexivity.
Qed.

End SharedTable.

(** ** Tick rules on doubles *)

Section Ticks.
Variable float_of_str : string -> option F64.float.

(** C3: the price 0.07 has two decimal places, and is rejected by the rule
    of its range: [0.07 * 100] is 7.000000000000001 on doubles. *)
Theorem seven_cents_rejected :
  F64.mul (F64.dec 7 100) (F64.of_Z 100)
    = S754_finite false 7881299347898369 (-50)
  /\ F64.is_integer (F64.mul (F64.dec 7 100) (F64.of_Z 100)) = false
  /\ get_price_range float_of_str (PyFloat (F64.dec 7 100)) create_price_table
     = Raise (InvalidPriceError (TickViolation TwoDecimals)).
Proof.
  repeat split; vm_compute; reflexivity.
Qed.

(** The part of the rule that holds at 10.03: not a multiple of 0.05. *)
Lemma ten_03_rejected :
  get_price_range float_of_str (PyFloat (F64.dec 1003 100)) create_price_table
    = Raise (InvalidPriceError (TickViolation MultipleOf005)).
Proof. vm_compute. reflexivity. Qed.

(** Of the 999 prices 0.01, 0.02, ..., 9.99, 135 are rejected. *)
Lemma rejected_cents_count :
  List.length
    (filter (fun n => rejected (outcome_of_cents (Z.of_nat n))) (seq 1 999))
    = 135%nat.
Proof. vm_compute. reflexivity. Qed.

(** C10: NaN passes every check, since each comparison with it is false,
    and the bounds returned are NaN, which is not at least 0.01; the
    minimum price 0.01 returns (0.01, 0.02). *)
Theorem nan_not_rejected :
  get_price_range float_of_str (PyFloat F64.nan) create_price_table
    = Return F64.nan F64.nan
  /\ F64.geb F64.nan (F64.dec 1 100) = false
  /\ get_price_range float_of_str (PyFloat (F64.dec 1 100)) create_price_table
     = Return (F64.dec 1 100) (F64.dec 2 100).
Proof.
  repeat split; vm_compute; reflexivity.
Qed.

End Ticks.

(** ** Bounds *)

Section Bounds.
Variable float_of_str : string -> option F64.float.

(** What a successful call went through: every check passed, a row was
    found, and the bounds were computed from it. *)
Lemma get_price_range_float_returns (x : F64.float) (ranges : list band)
    (lo hi : F64.float) :
  get_price_range_float x ranges = Return lo hi ->
  exists b d,
    F64.leb x (F64.of_Z 0) = false
    /\ F64.ltb x (F64.dec 1 100) = false
    /\ F64.gtb x (F64.of_Z 1000000) = false
    /\ py_getitem ranges (lookup_index ranges x) = Some b
    /\ tick_check (start b) x = Some None
    /\ down_fluctuation_of ranges (lookup_index ranges x) x b = Some d
    /\ lo = F64.round2 (F64.min (F64.max (F64.sub x d) (F64.dec 1 100)) x)
    /\ hi = F64.round2 (F64.add x (fluctuation b)).
Proof.
  unfold get_price_range_float. fold (lookup_index ranges x).
  destruct (F64.leb x (F64.of_Z 0)) eqn:Hpos; [discriminate|].
  destruct (F64.ltb x (F64.dec 1 100)) eqn:Hmin; [discriminate|].
  destruct (F64.gtb x (F64.of_Z 1000000)) eqn:Hmax; [discriminate|].
  destruct (py_getitem ranges (lookup_index ranges x)) as [b|] eqn:Hb;
    [|discriminate].
  destruct (tick_check (start b) x) as [[r|]|] eqn:Htick; try discriminate.
  destruct (down_fluctuation_of ranges (lookup_index ranges x) x b)
    as [d|] eqn:Hd; [|discriminate].
  unfold bounds. intros [= <- <-].
  exists b, d. repeat split; assumption.
Qed.

(** C2: on any table, a call that returns has used, upward, the fluctuation
    of the row it matched and, downward, the fluctuation of the row before
    it when the price equals the start of the matched row and that row is
    not the first, the matched row's own otherwise; price 10.00 on the
    standard table returns (9.99, 10.05). *)
Theorem boundary_uses_previous_band :
  (forall (x : F64.float) (ranges : list band) (lo hi : F64.float),
      get_price_range float_of_str (PyFloat x) ranges = Return lo hi ->
      exists b d,
        py_getitem ranges (lookup_index ranges x) = Some b
        /\ lo = F64.round2
                  (F64.min (F64.max (F64.sub x d) (F64.dec 1 100)) x)
        /\ hi = F64.round2 (F64.add x (fluctuation b))
        /\ (F64.eqb x (start b) = true -> 0 < lookup_index ranges x ->
            exists prev,
              py_getitem ranges (lookup_index ranges x - 1) = Some prev
              /\ d = fluctuation prev)
        /\ (F64.eqb x (start b) = false \/ lookup_index ranges x <= 0 ->
            d = fluctuation b))
  /\ get_price_range float_of_str (PyFloat (F64.of_Z 10)) create_price_table
     = Return (F64.dec 999 100) (F64.dec 1005 100).
Proof.
  split; [|vm_compute; reflexivity].
  intros x ranges lo hi H. cbn [get_price_range py_float] in H.
  apply get_price_range_float_returns in H.
  destruct H as (b & d & _ & _ & _ & Hb & _ & Hd & -> & ->).
  exists b, d. repeat split; try assumption.
  - intros Heq Hidx. unfold down_fluctuation_of in Hd.
    rewrite Heq in Hd. apply Z.ltb_lt in Hidx. rewrite Hidx in Hd.
    cbn [andb] in Hd.
    destruct (py_getitem ranges (lookup_index ranges x - 1)) as [prev|];
      [|discriminate].
    injection Hd as <-. exists prev. split; reflexivity.
  - intros Hor. unfold down_fluctuation_of in Hd.
    destruct Hor as [Hne|Hidx].
    + rewrite Hne in Hd. cbn [andb] in Hd. congruence.
    + apply Z.ltb_ge in Hidx. rewrite Hidx, andb_false_r in Hd. congruence.
Qed.

(** The six starts of the standard table that are not its first. *)
Lemma boundaries_of_standard_table :
  map (fun n => get_price_range float_of_str (PyInt n) create_price_table)
      [10; 50; 100; 150; 500; 1000]
  = [ Return (F64.dec 999 100) (F64.dec 1005 100);
      Return (F64.dec 4995 100) (F64.dec 501 10);
      Return (F64.dec 999 10) (F64.dec 1005 10);
      Return (F64.dec 1495 10) (F64.dec 1505 10);
      Return (F64.dec 4995 10) (F64.of_Z 501);
      Return (F64.of_Z 999) (F64.of_Z 1005) ].
Proof. vm_compute. reflexivity. Qed.

End Bounds.

Lemma boundary_uses_previous_band_witness :
  exists b d,
    py_getitem create_price_table
      (lookup_index create_price_table (F64.of_Z 10)) = Some b
    /\ F64.dec 999 100
       = F64.round2
           (F64.min (F64.max (F64.sub (F64.of_Z 10) d) (F64.dec 1 100))
              (F64.of_Z 10))
    /\ F64.dec 1005 100 = F64.round2 (F64.add (F64.of_Z 10) (fluctuation b))
    /\ (F64.eqb (F64.of_Z 10) (start b) = true ->
        0 < lookup_index create_price_table (F64.of_Z 10) ->
        exists prev,
          py_getitem create_price_table
            (lookup_index create_price_table (F64.of_Z 10) - 1) = Some prev
          /\ d = fluctuation prev)
    /\ (F64.eqb (F64.of_Z 10) (start b) = false
        \/ lookup_index create_price_table (F64.of_Z 10) <= 0 ->
        d = fluctuation b).
Proof.
  apply (proj1 (boundary_uses_previous_band (fun _ => None))
           (F64.of_Z 10) create_price_table).
  vm_compute. reflexivity.
Defined.

(** ** Rounding on binary64

    [binary_round_aux], and with it addition, subtraction and division,
    returns within the normal range a double within half a unit in the
    last place of the exact result. *)

Module Rounding.

(** The number of binary digits of a positive number brackets it between
    two powers of two. *)
Lemma digits2_pos_bounds (p : positive) :
  2 ^ (Z.pos (digits2_pos p) - 1) <= Z.pos p < 2 ^ Z.pos (digits2_pos p).
Proof.
  induction p as [p IH|p IH|]; cbn [digits2_pos].
  - rewrite Pos2Z.inj_succ.
    replace (Z.succ (Z.pos (digits2_pos p)) - 1)
      with (Z.succ (Z.pos (digits2_pos p) - 1)) by lia.
    rewrite !Z.pow_succ_r by lia. lia.
  - rewrite Pos2Z.inj_succ.
    replace (Z.succ (Z.pos (digits2_pos p)) - 1)
      with (Z.succ (Z.pos (digits2_pos p) - 1)) by lia.
    rewrite !Z.pow_succ_r by lia. lia.
  - cbn. lia.
Qed.

Lemma pow2_lt_mono (a b : Z) : 0 <= a -> a < b -> 2 ^ a < 2 ^ b.
Proof. intros. apply Z.pow_lt_mono_r; lia. Qed.

Lemma pow2_le_mono (a b : Z) : 0 <= a -> a <= b -> 2 ^ a <= 2 ^ b.
Proof. intros. apply Z.pow_le_mono_r; lia. Qed.

(** Conversely the bracket determines the number of digits. *)
Lemma Zdigits2_unique (n d : Z) :
  0 < d -> 2 ^ (d - 1) <= n < 2 ^ d -> Zdigits2 n = d.
Proof.
  intros Hd [Hlo Hhi].
  assert (0 < n) by (pose proof (Z.pow_pos_nonneg 2 (d - 1)); lia).
  destruct n as [|p|p]; try lia.
  cbn [Zdigits2]. pose proof (digits2_pos_bounds p) as [Hl Hh].
  set (k := Z.pos (digits2_pos p)) in *.
  assert (0 < k) by (unfold k; lia).
  destruct (Z.lt_trichotomy k d) as [Hlt|[Heq|Hgt]]; [|assumption|].
  - pose proof (pow2_le_mono k (d - 1)). lia.
  - pose proof (pow2_le_mono d (k - 1)). lia.
Qed.

Lemma Zdigits2_bounds (n : Z) :
  0 < n -> 2 ^ (Zdigits2 n - 1) <= n < 2 ^ Zdigits2 n /\ 0 < Zdigits2 n.
Proof.
  destruct n as [|p|p]; try lia. intros _. cbn [Zdigits2].
  split; [apply digits2_pos_bounds | lia].
Qed.

(** [iter_pos] is plain iteration. *)
Lemma iter_pos_nat {A : Type} (f : A -> A) (p : positive) (x : A) :
  iter_pos f p x = Nat.iter (Pos.to_nat p) f x.
Proof.
  revert x. induction p as [p IH|p IH|]; intros x; cbn [iter_pos].
  - rewrite !IH, Pos2Nat.inj_xI.
    replace (S (2 * Pos.to_nat p)) with (Pos.to_nat p + (Pos.to_nat p + 1))%nat
      by lia.
    rewrite !Nat.iter_add. reflexivity.
  - rewrite !IH, Pos2Nat.inj_xO.
    replace (2 * Pos.to_nat p)%nat with (Pos.to_nat p + Pos.to_nat p)%nat
      by lia.
    rewrite Nat.iter_add. reflexivity.
  - reflexivity.
Qed.

Lemma shr_1_frac (mrs : shr_record) (a b : Z) :
  0 <= shr_m mrs -> 0 <= a < b ->
  loc_of_shr_record mrs = loc_frac a b ->
  exists a',
    0 <= a' < 2 * b
    /\ loc_of_shr_record (shr_1 mrs) = loc_frac a' (2 * b)
    /\ 0 <= shr_m (shr_1 mrs)
    /\ shr_m (shr_1 mrs) * (2 * b) + a' = shr_m mrs * b + a.
Proof.
  destruct mrs as [m r s]. cbn [shr_m]. intros Hm Hab Hloc.
  assert (Hs : orb r s = negb (a =? 0)).
  { unfold loc_frac in Hloc. destruct (Z.eqb_spec a 0); destruct r, s;
      cbn in Hloc |- *; congruence. }
  unfold shr_1. rewrite Hs.
  destruct m as [|[p|p|]|p]; try lia; cbn [shr_m loc_of_shr_record].
  - exists a. unfold loc_frac.
    destruct (Z.eqb_spec a 0); cbn [negb]; repeat split; try lia.
    replace (2 * a ?= 2 * b) with Lt; [reflexivity|].
    symmetry. apply Z.compare_lt_iff. lia.
  - exists (b + a). unfold loc_frac.
    destruct (Z.eqb_spec a 0); cbn [negb].
    + subst a. destruct (Z.eqb_spec (b + 0) 0); [lia|].
      repeat split; try lia.
      replace (2 * (b + 0) ?= 2 * b) with Eq; [reflexivity|].
      symmetry. apply Z.compare_eq_iff. lia.
    + destruct (Z.eqb_spec (b + a) 0); [lia|].
      repeat split; try lia.
      replace (2 * (b + a) ?= 2 * b) with Gt; [reflexivity|].
      symmetry. apply Z.compare_gt_iff. lia.
  - exists a. unfold loc_frac.
    destruct (Z.eqb_spec a 0); cbn [negb]; repeat split; try lia.
    replace (2 * a ?= 2 * b) with Lt; [reflexivity|].
    symmetry. apply Z.compare_lt_iff. lia.
  - exists (b + a). unfold loc_frac.
    destruct (Z.eqb_spec a 0); cbn [negb].
    + subst a. destruct (Z.eqb_spec (b + 0) 0); [lia|].
      repeat split; try lia.
      replace (2 * (b + 0) ?= 2 * b) with Eq; [reflexivity|].
      symmetry. apply Z.compare_eq_iff. lia.
    + destruct (Z.eqb_spec (b + a) 0); [lia|].
      repeat split; try lia.
      replace (2 * (b + a) ?= 2 * b) with Gt; [reflexivity|].
      symmetry. apply Z.compare_gt_iff. lia.
Qed.


Lemma shr_iter_frac (n : nat) (mrs : shr_record) (a b : Z) :
  0 <= shr_m mrs -> 0 <= a < b ->
  loc_of_shr_record mrs = loc_frac a b ->
  exists a',
    0 <= a' < 2 ^ Z.of_nat n * b
    /\ loc_of_shr_record (Nat.iter n shr_1 mrs)
       = loc_frac a' (2 ^ Z.of_nat n * b)
    /\ 0 <= shr_m (Nat.iter n shr_1 mrs)
    /\ shr_m (Nat.iter n shr_1 mrs) * (2 ^ Z.of_nat n * b) + a'
       = shr_m mrs * b + a.
Proof.
  intros Hm Hab Hloc. induction n as [|n IH].
  - exists a. cbn [Nat.iter Z.of_nat]. rewrite Z.pow_0_r, Z.mul_1_l.
    repeat split; try assumption; lia.
  - destruct IH as (a1 & Ha1 & Hl1 & Hm1 & He1).
    destruct (shr_1_frac _ _ _ Hm1 Ha1 Hl1) as (a2 & Ha2 & Hl2 & Hm2 & He2).
    exists a2. rewrite Nat.iter_succ.
    rewrite Nat2Z.inj_succ, Z.pow_succ_r by lia.
    replace (2 * 2 ^ Z.of_nat n * b) with (2 * (2 ^ Z.of_nat n * b)) by lia.
    repeat split; try assumption; lia.
Qed.

(** Shifting right by [n] bits keeps track of the fraction dropped. *)
Lemma shr_frac (m e n a b : Z) :
  0 <= m -> 0 <= n -> 0 <= a < b ->
  exists mrs a',
    shr (shr_record_of_loc m (loc_frac a b)) e n = (mrs, e + n)
    /\ 0 <= a' < 2 ^ n * b
    /\ loc_of_shr_record mrs = loc_frac a' (2 ^ n * b)
    /\ 0 <= shr_m mrs
    /\ shr_m mrs * (2 ^ n * b) + a' = m * b + a.
Proof.
  intros Hm Hn Hab.
  assert (Hrec : loc_of_shr_record (shr_record_of_loc m (loc_frac a b))
                 = loc_frac a b /\
                 shr_m (shr_record_of_loc m (loc_frac a b)) = m).
  { destruct (loc_frac a b) as [|[]]; split; reflexivity. }
  destruct Hrec as [Hloc Hsm].
  destruct n as [|p|p]; [| |lia].
  - exists (shr_record_of_loc m (loc_frac a b)), a.
    cbn [shr]. rewrite Z.add_0_r, Z.pow_0_r, Z.mul_1_l, Hsm.
    repeat split; try assumption; lia.
  - cbn [shr]. rewrite iter_pos_nat.
    destruct (shr_iter_frac (Pos.to_nat p) _ a b
                ltac:(rewrite Hsm; exact Hm) Hab Hloc)
      as (a' & Ha' & Hl' & Hm' & He').
    rewrite positive_nat_Z, Hsm in *.
    eexists _, a'. repeat split; try eassumption; lia.
Qed.

(** Rounding to nearest picks a neighbour at most half a unit away. *)
Lemma round_nearest_even_frac (q a b : Z) :
  0 <= a < b ->
  let m := round_nearest_even q (loc_frac a b) in
  q <= m <= q + 1 /\ 2 * Z.abs (m * b - (q * b + a)) <= b.
Proof.
  intros Hab. unfold loc_frac, round_nearest_even.
  destruct (Z.eqb_spec a 0).
  - subst a. cbn. split; [lia|]. replace (q * b - (q * b + 0)) with 0 by lia.
    cbn. lia.
  - destruct (Z.compare_spec (2 * a) b); cbn zeta.
    + destruct (Z.even q); split; try lia.
    + split; lia.
    + split; lia.
Qed.


Lemma fexp_normal (k : Z) : -1021 <= k -> fexp 53 1024 k = k - 53.
Proof. unfold fexp, emin. lia. Qed.

(** The quotient kept by a shift that leaves 53 digits. *)
Lemma shifted_mantissa_bounds (mx q n a a' b : Z) :
  0 <= n -> 0 <= a < b -> 0 <= a' < 2 ^ n * b ->
  2 ^ (52 + n) <= mx < 2 ^ (53 + n) ->
  q * (2 ^ n * b) + a' = mx * b + a ->
  2 ^ 52 <= q < 2 ^ 53.
Proof.
  intros Hn Hab Ha' Hmx Heq.
  rewrite !Z.pow_add_r in Hmx by lia.
  set (B := 2 ^ n * b) in *.
  assert (HB : 0 < B) by (unfold B; pose proof (Z.pow_pos_nonneg 2 n); nia).
  assert (H1 : 2 ^ 52 * B <= mx * b) by (unfold B; nia).
  assert (H2 : mx * b + b <= 2 ^ 53 * B) by (unfold B; nia).
  split.
  - assert (2 ^ 52 * B < (q + 1) * B) by lia.
    assert (2 ^ 52 < q + 1) by (apply Z.mul_lt_mono_pos_r with B; lia).
    lia.
  - assert (q * B < 2 ^ 53 * B) by lia.
    apply Z.mul_lt_mono_pos_r with B; lia.
Qed.

(** [binary_round_aux] on a value with at least 53 digits, within the
    normal range: the result is a normal double within half a unit in the
    last place of the value [(mx + a / b) * 2 ^ ex]. *)
Lemma binary_round_aux_normal (sx : bool) (mx ex a b : Z) :
  0 < mx -> 0 <= a < b ->
  53 <= Zdigits2 mx -> -1074 <= ex -> Zdigits2 mx + ex <= 1023 ->
  exists m e,
    binary_round_aux 53 1024 sx mx ex (loc_frac a b) = S754_finite sx m e
    /\ 2 ^ 52 <= Z.pos m < 2 ^ 53
    /\ ex <= e <= 971
    /\ Zdigits2 mx + ex - 53 <= e <= Zdigits2 mx + ex - 52
    /\ 2 ^ 53 * Z.abs (Z.pos m * 2 ^ (e - ex) * b - (mx * b + a))
       <= Z.pos m * 2 ^ (e - ex) * b.
Proof.
  intros Hmx Hab Hd Hex Htop.
  pose proof (Zdigits2_bounds mx Hmx) as [Hbr _].
  set (d := Zdigits2 mx) in *.
  set (n := d - 53).
  unfold binary_round_aux, shr_fexp. fold d.
  rewrite fexp_normal by lia.
  replace (d + ex - 53 - ex) with n by (unfold n; lia).
  destruct (shr_frac mx ex n a b ltac:(lia) ltac:(unfold n; lia) Hab)
    as (mrs & a' & Hshr & Ha' & Hloc & Hq & Heq).
  rewrite Hshr, Hloc.
  set (q := shr_m mrs) in *.
  set (B := 2 ^ n * b) in *.
  assert (Hqb : 2 ^ 52 <= q < 2 ^ 53).
  { apply (shifted_mantissa_bounds mx q n a a' b); try assumption.
    - unfold n; lia.
    - replace (52 + n) with (d - 1) by (unfold n; lia).
      replace (53 + n) with d by (unfold n; lia). exact Hbr. }
  pose proof (round_nearest_even_frac q a' B Ha') as [Hm1 Herr].
  set (m1 := round_nearest_even q (loc_frac a' B)) in *.
  assert (HB : 0 < B) by lia.
  assert (Hcase : m1 = q \/ m1 = q + 1) by lia.
  assert (Hrel : 2 ^ 53 * Z.abs (m1 * B - (mx * b + a)) <= m1 * B).
  { rewrite <- Heq.
    assert (2 ^ 52 * B <= q * B) by (apply Z.mul_le_mono_nonneg_r; lia).
    destruct Hcase as [-> | ->]; lia. }
  destruct (Z.eq_dec m1 (2 ^ 53)) as [Htop1|Hlow].
  - (* the rounding carried into a 54th digit *)
    rewrite Htop1 in *.
    change (Zdigits2 (2 ^ 53)) with 54.
    rewrite fexp_normal by lia.
    replace (54 + (ex + n) - 53 - (ex + n)) with 1 by lia.
    cbn [shr shr_record_of_loc iter_pos]. 
    change (shr_1 {| shr_m := 2 ^ 53; shr_r := false; shr_s := false |})
      with {| shr_m := 2 ^ 52; shr_r := false; shr_s := false |}.
    cbn [shr_m]. change (2 ^ 52) with (Z.pos 4503599627370496) at 1.
    cbn iota.
    replace (ex + n + 1 <=? 1024 - 53) with true
      by (symmetry; apply Z.leb_le; unfold n; lia).
    exists 4503599627370496%positive, (ex + n + 1).
    split; [reflexivity|].
    split; [cbn; lia|].
    split; [unfold n; lia|].
    split; [unfold n; lia|].
    replace (ex + n + 1 - ex) with (n + 1) by lia.
    rewrite Z.pow_add_r by (unfold n; lia).
    replace (Z.pos 4503599627370496 * (2 ^ n * 2 ^ 1) * b)
      with (2 ^ 53 * B)
      by (unfold B; change (2 ^ 1) with 2;
          change (2 ^ 53) with 9007199254740992; lia).
    exact Hrel.
  - assert (Hm1b : 2 ^ 52 <= m1 < 2 ^ 53) by lia.
    rewrite (Zdigits2_unique m1 53) by (cbn; lia).
    rewrite fexp_normal by lia.
    replace (53 + (ex + n) - 53 - (ex + n)) with 0 by lia.
    cbn [shr shr_record_of_loc shr_m].
    destruct m1 as [|pm|pm]; try (cbn in Hm1b; lia).
    replace (ex + n <=? 1024 - 53) with true
      by (symmetry; apply Z.leb_le; unfold n; lia).
    exists pm, (ex + n).
    split; [reflexivity|].
    split; [exact Hm1b|].
    split; [unfold n; lia|].
    split; [unfold n; lia|].
    replace (ex + n - ex) with n by lia.
    replace (Z.pos pm * 2 ^ n * b) with (Z.pos pm * B) by (unfold B; lia).
    exact Hrel.
Qed.


Lemma pos_iter_xO (p k : positive) :
  Z.pos (Pos.iter xO p k) = Z.pos p * 2 ^ Z.pos k.
Proof.
  induction k as [|k IH] using Pos.peano_ind.
  - cbn [Pos.iter]. rewrite Pos2Z.inj_xO. change (2 ^ 1) with 2. lia.
  - rewrite Pos.iter_succ, Pos2Z.inj_xO, IH, Pos2Z.inj_succ.
    rewrite Z.pow_succ_r by lia. lia.
Qed.

Lemma shl_align_fst (mx : positive) (ex ez : Z) :
  ez <= ex ->
  shl_align mx ex ez
    = (Z.to_pos (Z.pos mx * 2 ^ (ex - ez)), ez).
Proof.
  intros Hle. unfold shl_align.
  destruct (ez - ex) as [|d|d] eqn:Hd; try lia.
  - replace (ex - ez) with 0 by lia. replace ez with ex by lia.
    rewrite Z.pow_0_r, Z.mul_1_r. reflexivity.
  - replace (ex - ez) with (Z.pos d) by lia.
    rewrite <- pos_iter_xO. reflexivity.
Qed.

Lemma shl_align_keep (mx : positive) (ex ez : Z) :
  ex <= ez -> shl_align mx ex ez = (mx, ex).
Proof.
  intros Hle. unfold shl_align.
  destruct (ez - ex) as [|d|d] eqn:Hd; try lia; reflexivity.
Qed.

Lemma pow2_pos (k : Z) : 0 <= k -> 0 < 2 ^ k.
Proof. intros. apply Z.pow_pos_nonneg; lia. Qed.

Lemma pow2_lt_inv (a b : Z) : 0 <= b -> 2 ^ a < 2 ^ b -> a < b.
Proof. intros Hb H. apply (Z.pow_lt_mono_r_iff 2); try lia. Qed.

(** Scaling both sides of a relative error bound. *)
Lemma scale_error (A T P : Z) :
  0 < P ->
  2 ^ 53 * Z.abs (A - T) <= A ->
  2 ^ 53 * Z.abs (A * P - T * P) <= A * P.
Proof.
  intros HP H.
  replace (A * P - T * P) with ((A - T) * P) by lia.
  rewrite Z.abs_mul, (Z.abs_eq P) by lia.
  replace (2 ^ 53 * (Z.abs (A - T) * P)) with (2 ^ 53 * Z.abs (A - T) * P)
    by lia.
  apply Z.mul_le_mono_nonneg_r; lia.
Qed.

(** [binary_round] on a value within the normal range. *)
Lemma binary_round_normal (sx : bool) (p : positive) (ez : Z) :
  -1074 <= ez ->
  2 ^ 52 <= Z.pos p * 2 ^ (ez + 1074) < 2 ^ 2097 ->
  exists m e,
    binary_round 53 1024 sx p ez = S754_finite sx m e
    /\ 2 ^ 52 <= Z.pos m < 2 ^ 53
    /\ -1074 <= e <= 971
    /\ 2 ^ 53 * Z.abs (Z.pos m * 2 ^ (e + 1074) - Z.pos p * 2 ^ (ez + 1074))
       <= Z.pos m * 2 ^ (e + 1074).
Proof.
  intros Hez [Hlo Hhi].
  pose proof (digits2_pos_bounds p) as [Hdl Hdh].
  set (D := Z.pos (digits2_pos p)) in *.
  assert (HD : 0 < D) by (unfold D; lia).
  assert (Hpe : 0 < 2 ^ (ez + 1074)) by (apply pow2_pos; lia).
  assert (Hk_lo : -1021 <= D + ez).
  { assert (H : 2 ^ 52 < 2 ^ (D + (ez + 1074))).
    { rewrite Z.pow_add_r by lia.
      apply Z.le_lt_trans with (1 := Hlo).
      apply Z.mul_lt_mono_pos_r; lia. }
    apply pow2_lt_inv in H; lia. }
  assert (Hk_hi : D + ez <= 1023).
  { assert (H : 2 ^ (D - 1 + (ez + 1074)) < 2 ^ 2097).
    { rewrite Z.pow_add_r by lia.
      apply Z.le_lt_trans with (2 := Hhi).
      apply Z.mul_le_mono_nonneg_r; lia. }
    apply pow2_lt_inv in H; lia. }
  unfold binary_round. fold D. rewrite fexp_normal by lia.
  destruct (Z_lt_le_dec D 53) as [Hsmall|Hbig].
  - (* fewer than 53 digits: the mantissa is padded first *)
    rewrite shl_align_fst by lia.
    set (k := ez - (D + ez - 53)).
    assert (Hk : 0 < k) by (unfold k; lia).
    assert (Hpk : 0 < 2 ^ k) by (apply pow2_pos; lia).
    assert (Hmz : Z.pos (Z.to_pos (Z.pos p * 2 ^ k)) = Z.pos p * 2 ^ k).
    { rewrite Z2Pos.id; [reflexivity | apply Z.mul_pos_pos; lia]. }
    assert (Hdig : Zdigits2 (Z.pos p * 2 ^ k) = 53).
    { apply Zdigits2_unique; [lia|].
      assert (Hb : 2 ^ (D - 1 + k) <= Z.pos p * 2 ^ k < 2 ^ (D + k)).
      { rewrite !Z.pow_add_r by lia. split.
        - apply Z.mul_le_mono_nonneg_r; lia.
        - apply Z.mul_lt_mono_pos_r; lia. }
      replace (D - 1 + k) with (53 - 1) in Hb by (unfold k; lia).
      replace (D + k) with 53 in Hb by (unfold k; lia).
      exact Hb. }
    destruct (binary_round_aux_normal sx (Z.pos p * 2 ^ k) (D + ez - 53) 0 1)
      as (m & e & Hres & Hm & He & Hde & Herr);
      try rewrite Hdig; try lia.
    exists m, e. rewrite Hmz. change (loc_frac 0 1) with loc_Exact in Hres.
    split; [exact Hres|]. split; [exact Hm|]. split; [lia|].
    rewrite !Z.mul_1_r, Z.add_0_r in Herr.
    apply (scale_error _ _ (2 ^ (D + ez - 53 + 1074))) in Herr;
      [|apply pow2_pos; lia].
    replace (Z.pos m * 2 ^ (e - (D + ez - 53)) * 2 ^ (D + ez - 53 + 1074))
      with (Z.pos m * 2 ^ (e + 1074)) in Herr.
    2:{ rewrite <- Z.mul_assoc, <- Z.pow_add_r by lia. f_equal. f_equal. lia. }
    replace (Z.pos p * 2 ^ k * 2 ^ (D + ez - 53 + 1074))
      with (Z.pos p * 2 ^ (ez + 1074)) in Herr.
    2:{ rewrite <- Z.mul_assoc, <- Z.pow_add_r by lia.
        f_equal. f_equal. unfold k. lia. }
    exact Herr.
  - rewrite shl_align_keep by lia.
    destruct (binary_round_aux_normal sx (Z.pos p) ez 0 1)
      as (m & e & Hres & Hm & He & Hde & Herr);
      try (cbn [Zdigits2]; fold D; lia); try lia.
    exists m, e. change (loc_frac 0 1) with loc_Exact in Hres.
    split; [exact Hres|]. split; [exact Hm|]. split; [lia|].
    rewrite !Z.mul_1_r, Z.add_0_r in Herr.
    apply (scale_error _ _ (2 ^ (ez + 1074))) in Herr; [|exact Hpe].
    replace (Z.pos m * 2 ^ (e - ez) * 2 ^ (ez + 1074))
      with (Z.pos m * 2 ^ (e + 1074)) in Herr.
    2:{ rewrite <- Z.mul_assoc, <- Z.pow_add_r by lia. f_equal. f_equal. lia. }
    exact Herr.
Qed.

End Rounding.

Import Rounding.

Module Arith.

Lemma normal_of_round (x : F64.float) (m : positive) (e : Z) :
  x = S754_finite false m e ->
  2 ^ 52 <= Z.pos m < 2 ^ 53 -> -1074 <= e <= 971 ->
  normal x (Z.pos m * 2 ^ (e + 1074)).
Proof. intros. exists m, e. repeat split; try assumption; lia. Qed.

Lemma normal_pos (x : F64.float) (v : Z) : normal x v -> 2 ^ 52 <= v.
Proof.
  intros (m & e & -> & Hm & He & ->).
  assert (1 <= 2 ^ (e + 1074)) by (pose proof (pow2_pos (e + 1074)); lia).
  nia.
Qed.

(** Aligned mantissas carry the values. *)
Lemma aligned_units (m : positive) (e ez : Z) :
  -1074 <= ez <= e ->
  Z.pos m * 2 ^ (e - ez) * 2 ^ (ez + 1074) = Z.pos m * 2 ^ (e + 1074).
Proof.
  intros H. rewrite <- Z.mul_assoc, <- Z.pow_add_r by lia.
  f_equal. f_equal. lia.
Qed.

Lemma aligned_fst (m : positive) (e ez : Z) :
  ez <= e ->
  Z.pos (fst (shl_align m e ez)) = Z.pos m * 2 ^ (e - ez).
Proof.
  intros H. rewrite shl_align_fst by assumption. cbn [fst].
  rewrite Z2Pos.id; [reflexivity|].
  apply Z.mul_pos_pos; [lia | apply pow2_pos; lia].
Qed.

(** Addition of two positive normal doubles. *)
Lemma add_normal (x y : F64.float) (vx vy : Z) :
  normal x vx -> normal y vy -> vx + vy < 2 ^ 2097 ->
  exists v, normal (F64.add x y) v
            /\ 2 ^ 53 * Z.abs (v - (vx + vy)) <= v.
Proof.
  intros Hx Hy Hsum.
  pose proof (normal_pos _ _ Hx). pose proof (normal_pos _ _ Hy).
  destruct Hx as (mx & ex & -> & Hmx & Hex & ->).
  destruct Hy as (my & ey & -> & Hmy & Hey & ->).
  set (top := 2 ^ 2097) in *.
  unfold F64.add, SFadd. cbn [cond_Zopp].
  set (ez := Z.min ex ey).
  rewrite !aligned_fst by (unfold ez; lia).
  set (X := Z.pos mx * 2 ^ (ex - ez)).
  set (Y := Z.pos my * 2 ^ (ey - ez)).
  assert (HX : X * 2 ^ (ez + 1074) = Z.pos mx * 2 ^ (ex + 1074))
    by (apply aligned_units; unfold ez; lia).
  assert (HY : Y * 2 ^ (ez + 1074) = Z.pos my * 2 ^ (ey + 1074))
    by (apply aligned_units; unfold ez; lia).
  assert (HXpos : 0 < X)
    by (apply Z.mul_pos_pos; [lia | apply pow2_pos; unfold ez; lia]).
  assert (HYpos : 0 < Y)
    by (apply Z.mul_pos_pos; [lia | apply pow2_pos; unfold ez; lia]).
  destruct (X + Y) as [|p|p] eqn:Hp; try lia.
  cbn [binary_normalize].
  destruct (binary_round_normal false p ez) as (m & e & Hres & Hm & He & Herr).
  - unfold ez; lia.
  - rewrite <- Hp, Z.mul_add_distr_r, HX, HY. fold top. lia.
  - exists (Z.pos m * 2 ^ (e + 1074)). split.
    + apply normal_of_round; assumption.
    + rewrite <- Hp, Z.mul_add_distr_r, HX, HY in Herr. exact Herr.
Qed.

(** Subtraction of two positive normal doubles, by the sign of the exact
    difference. *)
Lemma sub_normal (x y : F64.float) (vx vy : Z) :
  normal x vx -> normal y vy -> vx < 2 ^ 2097 -> vy < 2 ^ 2097 ->
  (2 ^ 52 <= vx - vy ->
   exists v, normal (F64.sub x y) v
             /\ 2 ^ 53 * Z.abs (v - (vx - vy)) <= v)
  /\ (vx = vy -> F64.sub x y = S754_zero false)
  /\ (2 ^ 52 <= vy - vx -> exists m e, F64.sub x y = S754_finite true m e).
Proof.
  intros Hx Hy Hbig Hbig'.
  destruct Hx as (mx & ex & -> & Hmx & Hex & ->).
  destruct Hy as (my & ey & -> & Hmy & Hey & ->).
  set (top := 2 ^ 2097) in *.
  unfold F64.sub, SFsub. cbn [cond_Zopp].
  set (ez := Z.min ex ey).
  rewrite !aligned_fst by (unfold ez; lia).
  set (X := Z.pos mx * 2 ^ (ex - ez)).
  set (Y := Z.pos my * 2 ^ (ey - ez)).
  assert (HX : X * 2 ^ (ez + 1074) = Z.pos mx * 2 ^ (ex + 1074))
    by (apply aligned_units; unfold ez; lia).
  assert (HY : Y * 2 ^ (ez + 1074) = Z.pos my * 2 ^ (ey + 1074))
    by (apply aligned_units; unfold ez; lia).
  assert (HP : 0 < 2 ^ (ez + 1074)) by (apply pow2_pos; unfold ez; lia).
  assert (HD : (X - Y) * 2 ^ (ez + 1074)
               = Z.pos mx * 2 ^ (ex + 1074) - Z.pos my * 2 ^ (ey + 1074))
    by (rewrite Z.mul_sub_distr_r, HX, HY; reflexivity).
  assert (Hpos_x : 0 < Z.pos mx * 2 ^ (ex + 1074))
    by (apply Z.mul_pos_pos; [lia | apply pow2_pos; lia]).
  assert (Hpos_y : 0 < Z.pos my * 2 ^ (ey + 1074))
    by (apply Z.mul_pos_pos; [lia | apply pow2_pos; lia]).
  split; [|split].
  - intros Hdiff.
    destruct (X - Y) as [|p|p] eqn:Hp.
    + rewrite Z.mul_0_l in HD. lia.
    + cbn [binary_normalize].
      destruct (binary_round_normal false p ez)
        as (m & e & Hres & Hm & He & Herr).
      * unfold ez; lia.
      * rewrite HD. fold top. lia.
      * exists (Z.pos m * 2 ^ (e + 1074)). split.
        -- apply normal_of_round; assumption.
        -- rewrite HD in Herr. exact Herr.
    + assert (Z.neg p * 2 ^ (ez + 1074) < 0)
        by (apply Z.mul_neg_pos; lia).
      lia.
  - intros Heq.
    assert (X - Y = 0).
    { assert (H0 : (X - Y) * 2 ^ (ez + 1074) = 0) by lia.
      apply Z.mul_eq_0 in H0. lia. }
    rewrite H. reflexivity.
  - intros Hdiff.
    destruct (X - Y) as [|p|p] eqn:Hp.
    + rewrite Z.mul_0_l in HD. lia.
    + assert (0 < Z.pos p * 2 ^ (ez + 1074))
        by (apply Z.mul_pos_pos; lia).
      lia.
    + cbn [binary_normalize].
      destruct (binary_round_normal true p ez)
        as (m & e & Hres & Hm & He & Herr).
      * unfold ez; lia.
      * replace (Z.pos p * 2 ^ (ez + 1074))
          with (- (Z.neg p * 2 ^ (ez + 1074)))
          by (rewrite <- Z.mul_opp_l; reflexivity).
        rewrite HD. fold top. lia.
      * exists m, e. exact Hres.
Qed.

End Arith.

Import Rounding Arith.

Module Division.

(** The location computed by the division is the position of the
    remainder in the divisor. *)
Lemma new_location_frac (b r : Z) :
  0 <= r < b -> new_location b r = loc_frac r b.
Proof.
  intros Hr. unfold new_location, new_location_even, new_location_odd, loc_frac.
  destruct (Z.even b) eqn:Heven; [reflexivity|].
  destruct (Z.eqb_spec r 0); [reflexivity|].
  f_equal.
  assert (Hne : 2 * r <> b).
  { intros <-. rewrite Z.even_mul in Heven. discriminate. }
  destruct (Z.compare_spec (2 * r + 1) b), (Z.compare_spec (2 * r) b);
    try reflexivity; lia.
Qed.

(** Division of a positive number [mx * 2 ^ ex] (any mantissa below
    [2 ^ 106]) by a positive normal double, within the normal range. *)
Lemma div_normal (sx : bool) (mx : positive) (ex : Z) (my : positive)
    (ey : Z) :
  Z.pos mx < 2 ^ 106 ->
  2 ^ 52 <= Z.pos my < 2 ^ 53 ->
  -1021 <= Z.pos (digits2_pos mx) + ex - (53 + ey) <= 1022 ->
  0 <= ex - ey + 1074 ->
  exists m e,
    F64.div (S754_finite sx mx ex) (S754_finite false my ey)
      = S754_finite sx m e
    /\ 2 ^ 52 <= Z.pos m < 2 ^ 53
    /\ -1074 <= e <= 971
    /\ 2 ^ 53 * Z.abs (Z.pos m * 2 ^ (e + 1074) * Z.pos my
                       - Z.pos mx * 2 ^ (ex - ey + 1074))
       <= Z.pos m * 2 ^ (e + 1074) * Z.pos my.
Proof.
  intros Hmx Hmy Hk Hscale.
  pose proof (digits2_pos_bounds mx) as [Hdl Hdh].
  set (D := Z.pos (digits2_pos mx)) in *.
  assert (HD : 0 < D) by (unfold D; lia).
  assert (HD106 : D <= 106).
  { assert (H : 2 ^ (D - 1) < 2 ^ 106) by lia.
    apply pow2_lt_inv in H; lia. }
  unfold F64.div, SFdiv, SFdiv_core_binary.
  rewrite xorb_false_r.
  change (Zdigits2 (Z.pos mx)) with D.
  rewrite (Zdigits2_unique (Z.pos my) 53) by (cbn; lia).
  change F64.prec with 53. change F64.emax with 1024.
  rewrite fexp_normal by lia.
  rewrite Z.min_l by lia.
  set (e' := D + ex - (53 + ey) - 53).
  set (s := ex - ey - e').
  assert (Hs : s = 106 - D) by (unfold s, e'; lia).
  assert (Hm' : match s with
                | 0 => Z.pos mx
                | Z.pos _ => Z.shiftl (Z.pos mx) s
                | Z.neg _ => 0
                end = Z.pos mx * 2 ^ s).
  { destruct s as [|ps|ps] eqn:Es.
    - rewrite Z.pow_0_r. lia.
    - apply Z.shiftl_mul_pow2. lia.
    - lia. }
  rewrite Hm'.
  set (M := Z.pos mx * 2 ^ s).
  assert (HM : 2 ^ 105 <= M < 2 ^ 106).
  { unfold M. split.
    - replace 105 with (D - 1 + s) by lia. rewrite Z.pow_add_r by lia.
      apply Z.mul_le_mono_nonneg_r; [apply Z.lt_le_incl, pow2_pos|]; lia.
    - replace 106 with (D + s) by lia. rewrite Z.pow_add_r by lia.
      apply Z.mul_lt_mono_pos_r; [apply pow2_pos|]; lia. }
  pose proof (Z_div_mod M (Z.pos my) ltac:(lia)) as Hdiv.
  destruct (Z.div_eucl M (Z.pos my)) as [q r].
  destruct Hdiv as [HMq Hr].
  assert (Hq : 2 ^ 52 <= q < 2 ^ 54).
  { split.
    - assert (2 ^ 52 < q + 1); [|lia].
      apply Z.mul_lt_mono_pos_l with (Z.pos my); [lia|].
      apply Z.le_lt_trans with (2 ^ 53 * 2 ^ 52); [|nia].
      apply Z.mul_le_mono_nonneg_r; lia.
    - apply Z.mul_lt_mono_pos_l with (Z.pos my); [lia|].
      apply Z.le_lt_trans with M; [lia|].
      apply Z.lt_le_trans with (2 ^ 52 * 2 ^ 54); [lia|].
      apply Z.mul_le_mono_nonneg_r; lia. }
  assert (Hdq : 53 <= Zdigits2 q <= 54).
  { destruct (Zdigits2_bounds q ltac:(lia)) as [[Hl Hh] Hpos].
    split.
    - destruct (Z_lt_le_dec (Zdigits2 q) 53); [|assumption].
      pose proof (pow2_le_mono (Zdigits2 q) 52). lia.
    - destruct (Z_lt_le_dec 54 (Zdigits2 q)); [|assumption].
      pose proof (pow2_le_mono 54 (Zdigits2 q - 1)). lia. }
  rewrite new_location_frac by assumption.
  destruct (binary_round_aux_normal sx q e' r (Z.pos my))
    as (m & e & Hres & Hm & He & Hde & Herr);
    try (unfold e'; lia); try lia.
  exists m, e. split; [exact Hres|]. split; [exact Hm|].
  split; [unfold e' in *; lia|].
  replace (q * Z.pos my + r) with M in Herr by lia.
  apply (scale_error _ _ (2 ^ (e' + 1074))) in Herr;
    [|apply pow2_pos; unfold e'; lia].
  replace (Z.pos m * 2 ^ (e - e') * Z.pos my * 2 ^ (e' + 1074))
    with (Z.pos m * 2 ^ (e + 1074) * Z.pos my) in Herr.
  2:{ replace (e + 1074) with (e - e' + (e' + 1074)) by lia.
      rewrite Z.pow_add_r by (unfold e' in *; lia). lia. }
  replace (M * 2 ^ (e' + 1074))
    with (Z.pos mx * 2 ^ (ex - ey + 1074)) in Herr.
  2:{ unfold M. replace (ex - ey + 1074) with (s + (e' + 1074))
        by (unfold s; lia).
      rewrite Z.pow_add_r by (unfold e' in *; lia). lia. }
  exact Herr.
Qed.

End Division.

Import Rounding Arith Division.
Import Order OrderFacts.

Module Values.

(** On normal doubles the order of the keys is the order of the values. *)
Lemma units_lt_of_exponent (m1 m2 : positive) (e1 e2 : Z) :
  Z.pos m1 < 2 ^ 53 -> 2 ^ 52 <= Z.pos m2 ->
  -1074 <= e1 -> e1 < e2 ->
  Z.pos m1 * 2 ^ (e1 + 1074) < Z.pos m2 * 2 ^ (e2 + 1074).
Proof.
  intros H1 H2 He Hlt.
  assert (Hp : 0 < 2 ^ (e1 + 1074)) by (apply pow2_pos; lia).
  apply Z.lt_le_trans with (2 ^ 53 * 2 ^ (e1 + 1074)).
  - apply Z.mul_lt_mono_pos_r; lia.
  - apply Z.le_trans with (2 ^ 52 * 2 ^ (e2 + 1074)).
    + replace (2 ^ 53) with (2 ^ 52 * 2 ^ 1) by reflexivity.
      rewrite <- Z.mul_assoc, <- Z.pow_add_r by lia.
      apply Z.mul_le_mono_nonneg_l; [lia|].
      apply pow2_le_mono; lia.
    + apply Z.mul_le_mono_nonneg_r; [|lia].
      apply Z.lt_le_incl, pow2_pos; lia.
Qed.

Lemma normal_number (x : F64.float) (v : Z) : normal x v -> number x.
Proof. intros (m & e & -> & _). reflexivity. Qed.

Lemma normal_ltb (x y : F64.float) (vx vy : Z) :
  normal x vx -> normal y vy -> F64.ltb x y = (vx <? vy).
Proof.
  intros Hx Hy.
  pose proof (normal_number _ _ Hx) as Nx.
  pose proof (normal_number _ _ Hy) as Ny.
  destruct Hx as (mx & ex & -> & Hmx & Hex & ->).
  destruct Hy as (my & ey & -> & Hmy & Hey & ->).
  assert (Hpx : 0 < 2 ^ (ex + 1074)) by (apply pow2_pos; lia).
  destruct (Z.ltb_spec (Z.pos mx * 2 ^ (ex + 1074))
                       (Z.pos my * 2 ^ (ey + 1074))) as [Hlt|Hge].
  - apply ltb_iff. split; [exact Nx|]. split; [exact Ny|].
    cbn [key lex_lt].
    destruct (Z.lt_trichotomy ex ey) as [H|[H|H]].
    + lia.
    + subst ey. right. split; [reflexivity|]. right. split; [reflexivity|].
      apply Z.mul_lt_mono_pos_r with (2 ^ (ex + 1074)); assumption.
    + pose proof (units_lt_of_exponent my mx ey ex). lia.
  - apply (ltb_false_iff _ _ Nx Ny). cbn [key lex_le].
    destruct (Z.lt_trichotomy ex ey) as [H|[H|H]].
    + pose proof (units_lt_of_exponent mx my ex ey). lia.
    + subst ey. right. split; [reflexivity|]. right. split; [reflexivity|].
      apply Z.mul_le_mono_pos_r with (2 ^ (ex + 1074)); assumption.
    + lia.
Qed.

Lemma normal_leb (x y : F64.float) (vx vy : Z) :
  normal x vx -> normal y vy -> F64.leb x y = (vx <=? vy).
Proof.
  intros Hx Hy.
  pose proof (normal_number _ _ Hx) as Nx.
  pose proof (normal_number _ _ Hy) as Ny.
  pose proof (normal_ltb y x vy vx Hy Hx) as Hlt.
  destruct (Z.leb_spec vx vy) as [Hle|Hgt].
  - apply leb_iff. split; [exact Nx|]. split; [exact Ny|].
    destruct (Z.ltb_spec vy vx); [lia|].
    apply (ltb_false_iff _ _ Ny Nx) in Hlt. exact Hlt.
  - apply (leb_false_iff _ _ Nx Ny).
    destruct (Z.ltb_spec vy vx); [|lia].
    apply ltb_iff in Hlt. tauto.
Qed.

(** A normal double has one value. *)
Lemma normal_value_unique (x : F64.float) (v w : Z) :
  normal x v -> normal x w -> v = w.
Proof.
  intros (m & e & -> & _ & _ & ->) (m' & e' & [= <- <-] & _ & _ & ->).
  reflexivity.
Qed.

(** Rounding a quotient to the nearest integer, ties to even. *)
Lemma div_half_even_error (n d : Z) :
  0 < d -> 2 * Z.abs (F64.div_half_even n d * d - n) <= d.
Proof.
  intros Hd. unfold F64.div_half_even.
  pose proof (Z.div_mod n d ltac:(lia)) as Heq.
  pose proof (Z.mod_pos_bound n d Hd) as Hr.
  destruct (Z.compare_spec (2 * (n mod d)) d).
  - destruct (Z.even (n / d)); lia.
  - lia.
  - lia.
Qed.

(** The hundredths of a normal double, against its value. *)
Lemma hundredths_error (m : positive) (e : Z) :
  -1074 <= e ->
  2 * Z.abs (F64.hundredths m e * 2 ^ 1074
             - 100 * (Z.pos m * 2 ^ (e + 1074)))
  <= 2 ^ 1074.
Proof.
  intros He. unfold F64.hundredths.
  destruct (Z.leb_spec 0 e) as [Hpos|Hneg].
  - rewrite Z.pow_add_r by lia.
    replace (Z.pos m * 2 ^ e * 100 * 2 ^ 1074
             - 100 * (Z.pos m * (2 ^ e * 2 ^ 1074))) with 0 by lia.
    cbn. lia.
  - pose proof (div_half_even_error (Z.pos m * 100) (2 ^ (- e))
                  ltac:(apply pow2_pos; lia)) as Herr.
    set (H := F64.div_half_even (Z.pos m * 100) (2 ^ (- e))) in *.
    assert (Hp : 0 < 2 ^ (e + 1074)) by (apply pow2_pos; lia).
    assert (Hsplit : 2 ^ 1074 = 2 ^ (- e) * 2 ^ (e + 1074)).
    { rewrite <- Z.pow_add_r by lia. f_equal. lia. }
    rewrite Hsplit.
    replace (H * (2 ^ (- e) * 2 ^ (e + 1074))
             - 100 * (Z.pos m * 2 ^ (e + 1074)))
      with ((H * 2 ^ (- e) - Z.pos m * 100) * 2 ^ (e + 1074)) by lia.
    rewrite Z.abs_mul, (Z.abs_eq (2 ^ (e + 1074))) by lia.
    rewrite Z.mul_assoc.
    apply Z.mul_le_mono_nonneg_r; lia.
Qed.

End Values.

Import Rounding Arith Division Values.
Import Order OrderFacts.

Module Enclosure.

Lemma is_normal_normal (x : F64.float) :
  is_normal x = true -> normal x (value_of x).
Proof.
  destruct x as [| | |[] m e]; cbn [is_normal]; try discriminate.
  intros H. apply andb_prop in H as [H H4]. apply andb_prop in H as [H H3].
  apply andb_prop in H as [H1 H2].
  apply Z.leb_le in H1, H3, H4. apply Z.ltb_lt in H2.
  exists m, e. repeat split; try assumption; reflexivity.
Qed.

(** One unit of [round2]: a half of a hundredth, [2 ^ 1074]. *)
Lemma round2_normal (y : F64.float) (vy : Z) :
  normal y vy -> 2 ^ 1074 < 200 * vy -> vy < 2 ^ 1134 ->
  exists v H,
    normal (F64.round2 y) v
    /\ 2 * Z.abs (H * 2 ^ 1074 - 100 * vy) <= 2 ^ 1074
    /\ 2 ^ 53 * Z.abs (100 * v - H * 2 ^ 1074) <= 100 * v
    /\ (H = 1 -> F64.round2 y = F64.dec 1 100).
Proof.
  intros (m & e & -> & Hm & He & ->) Hlow Hhigh.
  pose proof (hundredths_error m e ltac:(lia)) as Herr.
  unfold F64.round2.
  set (H := F64.hundredths m e) in *.
  set (vy := Z.pos m * 2 ^ (e + 1074)) in *.
  assert (HH : 0 < H < 2 ^ 70) by lia.
  destruct H as [|n|n] eqn:EH; try lia.
  replace (F64.of_Z 100) with (S754_finite false 7036874417766400 (-46))
    by (vm_compute; reflexivity).
  pose proof (digits2_pos_bounds n) as [Hdl Hdh].
  assert (HD : Z.pos (digits2_pos n) <= 71).
  { assert (Hlt : 2 ^ (Z.pos (digits2_pos n) - 1) < 2 ^ 70) by lia.
    apply pow2_lt_inv in Hlt; lia. }
  destruct (div_normal false n 0 7036874417766400 (-46))
    as (mr & er & Hres & Hmr & Her & Hrel); try lia.
  exists (Z.pos mr * 2 ^ (er + 1074)), (Z.pos n).
  split; [|split; [|split]].
  - rewrite Hres. apply normal_of_round; [reflexivity|assumption|assumption].
  - exact Herr.
  - set (v := Z.pos mr * 2 ^ (er + 1074)) in *.
    replace (0 - -46 + 1074) with (46 + 1074) in Hrel by lia.
    rewrite Z.pow_add_r in Hrel by lia.
    change (2 ^ 46) with 70368744177664 in Hrel.
    replace (v * Z.pos 7036874417766400
             - Z.pos n * (70368744177664 * 2 ^ 1074))
      with (70368744177664 * (100 * v - Z.pos n * 2 ^ 1074)) in Hrel by lia.
    rewrite Z.abs_mul in Hrel. change (Z.abs 70368744177664)
      with 70368744177664 in Hrel.
    lia.
  - intros [= ->]. vm_compute. reflexivity.
Qed.


(** The constants of the calculation, in units. *)
Lemma value_of_cent : value_of (F64.dec 1 100) = 5764607523034235 * 2 ^ 1015.
Proof. vm_compute. reflexivity. Qed.

Lemma value_of_million :
  value_of (F64.of_Z 1000000) = 8589934592000000 * 2 ^ 1041.
Proof. vm_compute. reflexivity. Qed.

Lemma normal_cent : normal (F64.dec 1 100) (value_of (F64.dec 1 100)).
Proof. apply is_normal_normal. vm_compute. reflexivity. Qed.

Lemma normal_million :
  normal (F64.of_Z 1000000) (value_of (F64.of_Z 1000000)).
Proof. apply is_normal_normal. vm_compute. reflexivity. Qed.

(** A normal double of at least [2 ^ -7] is a multiple of [2 ^ -59]. *)
Lemma normal_multiple (x : F64.float) (v : Z) :
  normal x v -> 2 ^ 1067 <= v -> exists k, v = k * 2 ^ 1015.
Proof.
  intros (m & e & -> & Hm & He & ->) Hv.
  destruct (Z_lt_le_dec (e + 1074) 1015) as [Hsmall|Hbig].
  - exfalso.
    assert (Z.pos m * 2 ^ (e + 1074) < 2 ^ 53 * 2 ^ 1014).
    { apply Z.lt_le_trans with (2 ^ 53 * 2 ^ (e + 1074)).
      - apply Z.mul_lt_mono_pos_r; [apply pow2_pos|]; lia.
      - apply Z.mul_le_mono_nonneg_l; [lia|]. apply pow2_le_mono; lia. }
    change (2 ^ 53 * 2 ^ 1014) with (2 ^ 1067) in H. lia.
  - exists (Z.pos m * 2 ^ (e + 1074 - 1015)).
    rewrite <- Z.mul_assoc, <- Z.pow_add_r by lia.
    f_equal. f_equal. lia.
Qed.

(** Arithmetic goals that need nothing from the context. *)
Ltac bare := repeat match goal with H : _ |- _ => clear H end; lia.

Lemma grain_pos : 0 < 2 ^ 1015.
Proof. apply pow2_pos. bare. Qed.

(** Linear arithmetic on values within the limits, counted in units of
    [2 ^ 1015] without evaluating the power. *)
Ltac units_lia :=
  change (2 ^ 1074) with (2 ^ 59 * 2 ^ 1015) in *;
  change (2 ^ 1041) with (2 ^ 26 * 2 ^ 1015) in *;
  change (2 ^ 1134) with (2 ^ 119 * 2 ^ 1015) in *;
  repeat match goal with
         | H : context [2 ^ 1015] |- _ => revert H
         end;
  generalize grain_pos; generalize (2 ^ 1015); intros; lia.

(** A value within the limits is far below the largest double. *)
Lemma million_below (v : Z) :
  v <= 8589934592000000 * 2 ^ 1041 -> v < 2 ^ 2096.
Proof.
  intros H. apply Z.le_lt_trans with (8589934592000000 * 2 ^ 1041);
    [exact H|].
  apply Z.lt_trans with (2 ^ 53 * 2 ^ 1041).
  - apply Z.mul_lt_mono_pos_r; [apply pow2_pos; bare|bare].
  - rewrite <- Z.pow_add_r by bare. apply pow2_lt_mono; bare.
Qed.

Lemma sum_below (va vb : Z) :
  va < 2 ^ 2096 -> vb < 2 ^ 2096 -> va + vb < 2 ^ 2097.
Proof.
  replace (2 ^ 2097) with (2 * 2 ^ 2096)
    by (rewrite <- Z.pow_succ_r by bare; reflexivity).
  generalize (2 ^ 2096). intros T Ha Hb. lia.
Qed.

Lemma single_below (v : Z) : v < 2 ^ 2096 -> v < 2 ^ 2097.
Proof.
  intros H. apply Z.lt_trans with (2 ^ 2096); [exact H|].
  apply pow2_lt_mono; bare.
Qed.

Lemma cent_above (v : Z) :
  5764607523034235 * 2 ^ 1015 <= v -> 2 ^ 1067 <= v.
Proof.
  intros H. apply Z.le_trans with (5764607523034235 * 2 ^ 1015); [|exact H].
  replace (2 ^ 1067) with (2 ^ 52 * 2 ^ 1015)
    by (rewrite <- Z.pow_add_r by bare; reflexivity).
  apply Z.mul_le_mono_nonneg_r; [apply Z.lt_le_incl, grain_pos|bare].
Qed.

(** Two multiples of [2 ^ 1015] differ by a normal value. *)
Lemma multiple_gap (ka kb : Z) :
  ka < kb -> 2 ^ 52 <= kb * 2 ^ 1015 - ka * 2 ^ 1015.
Proof.
  intros H. rewrite <- Z.mul_sub_distr_r.
  apply Z.le_trans with (1 * 2 ^ 1015).
  - rewrite Z.mul_1_l. apply pow2_le_mono; bare.
  - apply Z.mul_le_mono_nonneg_r; [apply Z.lt_le_incl, grain_pos|lia].
Qed.

(** The upper bound is at least the price. *)
Lemma upper_bound_ge (x f : F64.float) (vx vf : Z) :
  normal x vx -> normal f vf ->
  5764607523034235 * 2 ^ 1015 <= vx <= 8589934592000000 * 2 ^ 1041 ->
  5764607523034235 * 2 ^ 1015 <= vf <= 8589934592000000 * 2 ^ 1041 ->
  F64.leb x (F64.round2 (F64.add x f)) = true.
Proof.
  intros Hx Hf Hvx Hvf.
  destruct (add_normal x f vx vf Hx Hf) as (vs & Hs & Herr);
    [apply sum_below; apply million_below; [apply Hvx|apply Hvf]|].
  destruct (round2_normal _ vs Hs) as (vh & H & Hh & Hrnd & Hdiv & _);
    [units_lia|units_lia|].
  rewrite (normal_leb _ _ vx vh Hx Hh). apply Z.leb_le. units_lia.
Qed.

(** The lower bound is at most the price. *)
Lemma lower_bound_le (x d : F64.float) (vx vd : Z) :
  normal x vx -> normal d vd ->
  5764607523034235 * 2 ^ 1015 <= vx <= 8589934592000000 * 2 ^ 1041 ->
  5764607523034235 * 2 ^ 1015 <= vd <= 8589934592000000 * 2 ^ 1041 ->
  F64.leb
    (F64.round2 (F64.min (F64.max (F64.sub x d) (F64.dec 1 100)) x)) x
  = true.
Proof.
  intros Hx Hd Hvx Hvd.
  pose proof normal_cent as Hc. rewrite value_of_cent in Hc.
  destruct (normal_multiple x vx Hx (cent_above vx (proj1 Hvx)))
    as (kx & Hkx).
  destruct (normal_multiple d vd Hd (cent_above vd (proj1 Hvd)))
    as (kd & Hkd).
  assert (Hfloor :
            F64.leb (F64.round2 (F64.min (F64.dec 1 100) x)) x = true).
  { unfold F64.min.
    rewrite (normal_ltb _ _ _ _ Hx Hc).
    replace (vx <? 5764607523034235 * 2 ^ 1015) with false
      by (symmetry; apply Z.ltb_ge, Hvx).
    replace (F64.round2 (F64.dec 1 100)) with (F64.dec 1 100)
      by (vm_compute; reflexivity).
    rewrite (normal_leb _ _ _ _ Hc Hx). apply Z.leb_le. apply Hvx. }
  destruct (sub_normal x d vx vd Hx Hd
              (single_below _ (million_below _ (proj2 Hvx)))
              (single_below _ (million_below _ (proj2 Hvd))))
    as (Hpos & Hzero & Hneg).
  destruct (Z.lt_trichotomy kx kd) as [Hlt|[Heq|Hgt]].
  - (* the difference is negative *)
    destruct Hneg as (m & e & Hsub);
      [rewrite Hkx, Hkd; apply multiple_gap; exact Hlt|].
    rewrite Hsub. unfold F64.max, F64.gtb.
    replace (F64.ltb (S754_finite true m e) (F64.dec 1 100)) with true
      by (vm_compute; reflexivity).
    exact Hfloor.
  - rewrite Hzero by (rewrite Hkx, Hkd, Heq; reflexivity).
    unfold F64.max, F64.gtb.
    replace (F64.ltb (S754_zero false) (F64.dec 1 100)) with true
      by (vm_compute; reflexivity).
    exact Hfloor.
  - destruct Hpos as (vy & Hy & Herr);
      [rewrite Hkx, Hkd; apply multiple_gap; exact Hgt|].
    clear Hkx Hkd Hgt kx kd Hzero Hneg.
    unfold F64.max, F64.gtb.
    rewrite (normal_ltb _ _ _ _ Hy Hc).
    destruct (Z.ltb_spec vy (5764607523034235 * 2 ^ 1015)) as [Hsmall|Hbig];
      [exact Hfloor|].
    unfold F64.min. rewrite (normal_ltb _ _ _ _ Hx Hy).
    destruct (Z.ltb_spec vx vy) as [Habove|Hbelow]; [exfalso; units_lia|].
    destruct (round2_normal _ vy Hy) as (vl & H & Hl & Hrnd & Hdiv & _);
      [units_lia|units_lia|].
    rewrite (normal_leb _ _ vl vx Hl Hx). apply Z.leb_le. units_lia.
Qed.

(** The lower bound is at least 0.01. *)
Lemma lower_bound_floor (x d : F64.float) (vx vd : Z) :
  normal x vx -> normal d vd ->
  5764607523034235 * 2 ^ 1015 <= vx <= 8589934592000000 * 2 ^ 1041 ->
  5764607523034235 * 2 ^ 1015 <= vd <= 8589934592000000 * 2 ^ 1041 ->
  F64.leb (F64.dec 1 100)
    (F64.round2 (F64.min (F64.max (F64.sub x d) (F64.dec 1 100)) x))
  = true.
Proof.
  intros Hx Hd Hvx Hvd.
  pose proof normal_cent as Hc. rewrite value_of_cent in Hc.
  destruct (normal_multiple x vx Hx (cent_above vx (proj1 Hvx)))
    as (kx & Hkx).
  destruct (normal_multiple d vd Hd (cent_above vd (proj1 Hvd)))
    as (kd & Hkd).
  assert (Hfloor :
            F64.leb (F64.dec 1 100)
              (F64.round2 (F64.min (F64.dec 1 100) x)) = true).
  { unfold F64.min.
    rewrite (normal_ltb _ _ _ _ Hx Hc).
    replace (vx <? 5764607523034235 * 2 ^ 1015) with false
      by (symmetry; apply Z.ltb_ge, Hvx).
    vm_compute. reflexivity. }
  destruct (sub_normal x d vx vd Hx Hd
              (single_below _ (million_below _ (proj2 Hvx)))
              (single_below _ (million_below _ (proj2 Hvd))))
    as (Hpos & Hzero & Hneg).
  destruct (Z.lt_trichotomy kx kd) as [Hlt|[Heq|Hgt]].
  - destruct Hneg as (m & e & Hsub);
      [rewrite Hkx, Hkd; apply multiple_gap; exact Hlt|].
    rewrite Hsub. unfold F64.max, F64.gtb.
    replace (F64.ltb (S754_finite true m e) (F64.dec 1 100)) with true
      by (vm_compute; reflexivity).
    exact Hfloor.
  - rewrite Hzero by (rewrite Hkx, Hkd, Heq; reflexivity).
    unfold F64.max, F64.gtb.
    replace (F64.ltb (S754_zero false) (F64.dec 1 100)) with true
      by (vm_compute; reflexivity).
    exact Hfloor.
  - destruct Hpos as (vy & Hy & Herr);
      [rewrite Hkx, Hkd; apply multiple_gap; exact Hgt|].
    clear Hkx Hkd Hgt kx kd Hzero Hneg.
    unfold F64.max, F64.gtb.
    rewrite (normal_ltb _ _ _ _ Hy Hc).
    destruct (Z.ltb_spec vy (5764607523034235 * 2 ^ 1015)) as [Hsmall|Hbig];
      [exact Hfloor|].
    unfold F64.min. rewrite (normal_ltb _ _ _ _ Hx Hy).
    destruct (Z.ltb_spec vx vy) as [Habove|Hbelow]; [exfalso; units_lia|].
    destruct (round2_normal _ vy Hy) as (vl & H & Hl & Hrnd & Hdiv & Hone);
      [units_lia|units_lia|].
    destruct (Z.eq_dec H 1) as [H1|H1].
    + rewrite (Hone H1). vm_compute. reflexivity.
    + rewrite (normal_leb _ _ _ vl Hc Hl). apply Z.leb_le.
      assert (HH : 0 < H * 2 ^ 1015) by units_lia.
      apply Z.mul_pos_cancel_r in HH; [|exact grain_pos].
      assert (H2 : 2 * 2 ^ 1015 <= H * 2 ^ 1015).
      { apply Z.mul_le_mono_nonneg_r; [apply Z.lt_le_incl, grain_pos|].
        clear - H1 HH. lia. }
      clear Hone H1 HH. units_lia.
Qed.

End Enclosure.

(** ** The bounds enclose the price *)

Import Rounding Arith Division Values Enclosure.
Import Order OrderFacts.

Section Enclose.
Variable float_of_str : string -> option F64.float.

(** A double between 0.01 and 1000000 is positive and normal. *)
Lemma in_range_normal (x : F64.float) :
  F64.valid x = true ->
  F64.leb (F64.dec 1 100) x = true ->
  F64.leb x (F64.of_Z 1000000) = true ->
  normal x (value_of x)
  /\ 5764607523034235 * 2 ^ 1015 <= value_of x
     <= 8589934592000000 * 2 ^ 1041.
Proof.
  intros Hvalid Hlo Hhi.
  assert (Hn : normal x (value_of x)).
  { apply leb_iff in Hlo as (_ & Nx & Hlo).
    apply leb_iff in Hhi as (_ & _ & Hhi).
    let k := eval vm_compute in (key (F64.dec 1 100)) in
    change (key (F64.dec 1 100)) with k in Hlo.
    let k := eval vm_compute in (key (F64.of_Z 1000000)) in
    change (key (F64.of_Z 1000000)) with k in Hhi.
    destruct x as [s|[]| |[] m e]; cbn [key lex_le] in Hlo, Hhi; try lia;
      try discriminate.
    unfold F64.valid, valid_binary, bounded, canonical_mantissa in Hvalid.
    apply andb_prop in Hvalid as [Hcanon Htop].
    apply Z.eqb_eq in Hcanon. apply Z.leb_le in Htop.
    unfold fexp, emin in Hcanon. change F64.prec with 53 in *.
    change F64.emax with 1024 in *.
    pose proof (digits2_pos_bounds m) as Hdig.
    assert (Hd : Z.pos (digits2_pos m) = 53) by lia.
    rewrite Hd in Hdig.
    exists m, e. repeat split; try lia; apply Hdig. }
  split; [exact Hn|].
  pose proof normal_cent as Hc. pose proof normal_million as Hm.
  rewrite (normal_leb _ _ _ _ Hc Hn), value_of_cent in Hlo.
  rewrite (normal_leb _ _ _ _ Hn Hm), value_of_million in Hhi.
  apply Z.leb_le in Hlo, Hhi. lia.
Qed.

Lemma py_getitem_In {A : Type} (l : list A) (i : Z) (a : A) :
  py_getitem l i = Some a -> In a l.
Proof.
  unfold py_getitem.
  destruct (_ && _); [|discriminate].
  apply nth_error_In.
Qed.

(** Every fluctuation of the standard table is a normal double between
    0.01 and 5. *)
Lemma table_fluctuation_normal (b : band) :
  In b create_price_table ->
  normal (fluctuation b) (value_of (fluctuation b))
  /\ 5764607523034235 * 2 ^ 1015 <= value_of (fluctuation b)
     <= 8589934592000000 * 2 ^ 1041.
Proof.
  unfold create_price_table. cbn [In].
  intros H.
  repeat (destruct H as [<- | H];
          [ split;
            [ apply is_normal_normal; vm_compute; reflexivity
            | split; apply Z.leb_le; vm_compute; reflexivity ]
          | ]).
  contradiction.
Qed.

(** On the standard table, for every double p between 0.01 and 1000000 on
    which the call returns, the pair returned satisfies
    lower <= p <= upper. *)
Lemma bounds_enclose_price (x lo hi : F64.float) :
  F64.valid x = true ->
  F64.leb (F64.dec 1 100) x = true ->
  F64.leb x (F64.of_Z 1000000) = true ->
  get_price_range float_of_str (PyFloat x) create_price_table
    = Return lo hi ->
  F64.leb lo x = true /\ F64.leb x hi = true.
Proof.
  intros Hvalid Hlo Hhi Hret.
  destruct (in_range_normal x Hvalid Hlo Hhi) as [Hx Hvx].
  cbn [get_price_range py_float] in Hret.
  apply get_price_range_float_returns in Hret.
  destruct Hret as (b & d & _ & _ & _ & Hb & _ & Hd & -> & ->).
  apply py_getitem_In in Hb.
  assert (Hdown : exists b', In b' create_price_table /\ d = fluctuation b').
  { unfold down_fluctuation_of in Hd.
    destruct (_ && _).
    - destruct (py_getitem create_price_table _) as [prev|] eqn:Hprev;
        [|discriminate].
      injection Hd as <-. exists prev. split; [|reflexivity].
      eapply py_getitem_In. exact Hprev.
    - injection Hd as <-. exists b. split; [assumption|reflexivity]. }
  destruct Hdown as (b' & Hb' & ->).
  destruct (table_fluctuation_normal b Hb) as [Hf Hvf].
  destruct (table_fluctuation_normal b' Hb') as [Hd' Hvd].
  split.
  - apply (lower_bound_le x _ _ _ Hx Hd' Hvx Hvd).
  - apply (upper_bound_ge x _ _ _ Hx Hf Hvx Hvf).
Qed.


(** Whenever the price is a number, a call that returns gives a lower
    bound of at least 0.01. *)
Lemma lower_bound_at_least_cent (x lo hi : F64.float) :
  F64.valid x = true ->
  F64.is_nan x = false ->
  get_price_range float_of_str (PyFloat x) create_price_table
    = Return lo hi ->
  F64.geb lo (F64.dec 1 100) = true.
Proof.
  intros Hvalid Hnum Hret.
  change (F64.is_nan x = false) with (number x) in Hnum.
  cbn [get_price_range py_float] in Hret.
  apply get_price_range_float_returns in Hret.
  destruct Hret as (b & d & Hpos & Hmin & Hmax & Hb & _ & Hd & -> & _).
  assert (Hlo : F64.leb (F64.dec 1 100) x = true) by float_order.
  assert (Hhi : F64.leb x (F64.of_Z 1000000) = true) by float_order.
  destruct (in_range_normal x Hvalid Hlo Hhi) as [Hx Hvx].
  apply py_getitem_In in Hb.
  assert (Hdown : exists b', In b' create_price_table /\ d = fluctuation b').
  { unfold down_fluctuation_of in Hd.
    destruct (_ && _).
    - destruct (py_getitem create_price_table _) as [prev|] eqn:Hprev;
        [|discriminate].
      injection Hd as <-. exists prev. split; [|reflexivity].
      eapply py_getitem_In. exact Hprev.
    - injection Hd as <-. exists b. split; [assumption|reflexivity]. }
  destruct Hdown as (b' & Hb' & ->).
  destruct (table_fluctuation_normal b' Hb') as [Hd' Hvd].
  unfold F64.geb.
  apply (lower_bound_floor x _ _ _ Hx Hd' Hvx Hvd).
Qed.

End Enclose.

(** The bounds of the price 5 enclose it. *)
Lemma bounds_enclose_price_example :
  F64.leb (F64.dec 499 100) (F64.of_Z 5) = true
  /\ F64.leb (F64.of_Z 5) (F64.dec 501 100) = true.
Proof.
  apply (bounds_enclose_price (fun _ => None) (F64.of_Z 5));
    vm_compute; reflexivity.
Defined.

(** * Further properties

    What the code does beyond the standard scenarios: the binary search on
    any table, the edges of the lookup, the exceptions a call can end in,
    and every price on the tick grids. *)

(** ** The binary search *)

Module Bisect.
Import Order OrderFacts.

(** The order on doubles, between arbitrary values. *)
Lemma ltb_leb_trans (x a b : F64.float) :
  F64.ltb x a = true -> F64.leb a b = true -> F64.ltb x b = true.
Proof.
  intros H1 H2. apply ltb_iff in H1 as (Nx & Na & H1).
  apply leb_iff in H2 as (_ & Nb & H2).
  apply ltb_iff. split; [exact Nx|]. split; [exact Nb|].
  destruct (key x) as [[x1 x2] x3], (key a) as [[a1 a2] a3],
    (key b) as [[b1 b2] b3].
  unfold lex_lt, lex_le in *. lia.
Qed.

Lemma not_ltb_leb_trans (x a b : F64.float) :
  number x ->
  F64.leb a b = true -> F64.ltb x b = false -> F64.ltb x a = false.
Proof.
  intros Nx H1 H2. apply leb_iff in H1 as (Na & Nb & H1).
  apply (ltb_false_iff _ _ Nx Nb) in H2.
  apply (ltb_false_iff _ _ Nx Na).
  destruct (key x) as [[x1 x2] x3], (key a) as [[a1 a2] a3],
    (key b) as [[b1 b2] b3].
  unfold lex_lt, lex_le in *. lia.
Qed.

Lemma not_ltb_leb (x a : F64.float) :
  number x -> number a -> F64.ltb x a = false -> F64.leb a x = true.
Proof.
  intros Nx Na H. apply (ltb_false_iff _ _ Nx Na) in H.
  apply leb_iff. split; [exact Na|]. split; [exact Nx|]. exact H.
Qed.

Lemma midpoint_between (lo hi : nat) :
  (lo < hi)%nat -> (lo <= (lo + hi) / 2 < hi)%nat.
Proof.
  intros H. split.
  - apply Nat.div_le_lower_bound; lia.
  - apply Nat.Div0.div_lt_upper_bound; lia.
Qed.

(** The search stays between its two ends. *)
Lemma bisect_loop_between (a : list F64.float) (x : F64.float) :
  forall fuel lo hi,
    (lo <= hi)%nat ->
    (lo <= bisect_loop fuel a x lo hi <= hi)%nat.
Proof.
  induction fuel as [|fuel IH]; intros lo hi Hle; cbn [bisect_loop].
  - lia.
  - destruct (Nat.ltb_spec lo hi) as [Hlt|]; [|lia].
    pose proof (midpoint_between lo hi Hlt) as Hmid.
    destruct (F64.ltb x (nth ((lo + hi) / 2) a F64.nan)).
    + specialize (IH lo ((lo + hi) / 2)%nat ltac:(lia)). lia.
    + specialize (IH (S ((lo + hi) / 2)) hi ltac:(lia)). lia.
Qed.

(** With enough fuel the loop ends on the insertion point: what is left of
    it is at most [x], what is right of it is above [x]. *)
Lemma bisect_loop_partition (a : list F64.float) (x : F64.float) :
  ascending a -> number x ->
  forall fuel lo hi,
    (lo <= hi <= List.length a)%nat -> (hi - lo <= fuel)%nat ->
    (forall i, (i < lo)%nat -> F64.ltb x (nth i a F64.nan) = false) ->
    (forall i, (hi <= i < List.length a)%nat ->
               F64.ltb x (nth i a F64.nan) = true) ->
    let r := bisect_loop fuel a x lo hi in
    (forall i, (i < r)%nat -> F64.ltb x (nth i a F64.nan) = false)
    /\ (forall i, (r <= i < List.length a)%nat ->
                  F64.ltb x (nth i a F64.nan) = true).
Proof.
  intros Hasc Nx.
  induction fuel as [|fuel IH]; intros lo hi Hle Hfuel Hleft Hright;
    cbn [bisect_loop].
  - assert (lo = hi) by lia. subst hi. split; assumption.
  - destruct (Nat.ltb_spec lo hi) as [Hlt|Hge].
    + pose proof (midpoint_between lo hi Hlt) as Hmid.
      set (mid := ((lo + hi) / 2)%nat) in *.
      destruct (F64.ltb x (nth mid a F64.nan)) eqn:Hcmp.
      * apply IH; try lia; try assumption.
        intros i Hi. apply ltb_leb_trans with (nth mid a F64.nan);
          [exact Hcmp|]. apply Hasc. lia.
      * apply IH; try lia; try assumption.
        intros i Hi.
        apply not_ltb_leb_trans with (nth mid a F64.nan);
          [exact Nx| |exact Hcmp].
        apply Hasc. lia.
    + assert (lo = hi) by lia. subst hi. split; assumption.
Qed.

(** On a list in ascending order [bisect_right] returns the insertion
    point to the right of [x]. *)
Lemma bisect_right_sorted (a : list F64.float) (x : F64.float) :
  ascending a -> F64.is_nan x = false ->
  (bisect_right a x <= List.length a)%nat
  /\ (forall i, (i < bisect_right a x)%nat ->
        F64.leb (nth i a F64.nan) x = true)
  /\ (forall i, (bisect_right a x <= i < List.length a)%nat ->
        F64.ltb x (nth i a F64.nan) = true).
Proof.
  intros Hasc Nx. change (F64.is_nan x = false) with (number x) in Nx.
  unfold bisect_right.
  pose proof (bisect_loop_between a x (List.length a) 0 (List.length a)
                ltac:(lia)) as Hb.
  destruct (bisect_loop_partition a x Hasc Nx (List.length a) 0
              (List.length a) ltac:(lia) ltac:(lia)) as [Hleft Hright].
  - intros i Hi. lia.
  - intros i Hi. lia.
  - split; [lia|]. split; [|exact Hright].
    intros i Hi. apply not_ltb_leb; [exact Nx| |apply Hleft; exact Hi].
    assert (Hin : (i <= i < List.length a)%nat) by lia.
    apply Hasc in Hin. apply leb_iff in Hin. tauto.
Qed.

(** The starts of the standard table are in ascending order. *)
Lemma ascending_table : ascending (map start create_price_table).
Proof.
  intros i j [Hij Hj]. cbn [create_price_table map List.length] in Hj.
  do 7 (destruct j as [|j];
        [do 7 (destruct i as [|i];
               [first [exfalso; lia | vm_compute; reflexivity]|]);
         exfalso; lia|]).
  exfalso. lia.
Qed.

End Bisect.

(** X1: on a list of doubles in ascending order and a price that is not
    NaN, [bisect.bisect_right] returns a position within the list such that
    every element before it is at most the price and every element from it
    on is greater than the price. *)
Theorem bisect_right_insertion_point (a : list F64.float) (x : F64.float) :
  ascending a -> F64.is_nan x = false ->
  (bisect_right a x <= List.length a)%nat
  /\ (forall i, (i < bisect_right a x)%nat ->
        F64.leb (nth i a F64.nan) x = true)
  /\ (forall i, (bisect_right a x <= i < List.length a)%nat ->
        F64.ltb x (nth i a F64.nan) = true).
Proof. apply Bisect.bisect_right_sorted. Qed.

Lemma bisect_right_insertion_point_witness :
  (bisect_right (map start create_price_table) (F64.of_Z 5)
   <= List.length (map start create_price_table))%nat
  /\ (forall i,
        (i < bisect_right (map start create_price_table) (F64.of_Z 5))%nat ->
        F64.leb (nth i (map start create_price_table) F64.nan) (F64.of_Z 5)
        = true)
  /\ (forall i,
        (bisect_right (map start create_price_table) (F64.of_Z 5) <= i
         < List.length (map start create_price_table))%nat ->
        F64.ltb (F64.of_Z 5) (nth i (map start create_price_table) F64.nan)
        = true).
Proof.
  apply (bisect_right_insertion_point (map start create_price_table)
           (F64.of_Z 5)).
  - exact Bisect.ascending_table.
  - reflexivity.
Defined.

(** ** Indexing and exceptions *)

Module Edges.
Import Order OrderFacts Bisect.

Lemma py_getitem_in_range {A : Type} (l : list A) (i : Z) :
  l <> [] -> -1 <= i < Z.of_nat (List.length l) ->
  exists a, py_getitem l i = Some a.
Proof.
  intros Hne Hi. unfold py_getitem.
  assert (Hlen : (0 < List.length l)%nat) by (destruct l; [congruence|cbn; lia]).
  set (n := Z.of_nat (List.length l)) in *.
  set (j := if i <? 0 then i + n else i).
  assert (Hj : 0 <= j < n) by (unfold j; destruct (Z.ltb_spec i 0); lia).
  replace ((0 <=? j) && (j <? n)) with true
    by (symmetry; apply andb_true_intro; split;
        [apply Z.leb_le | apply Z.ltb_lt]; lia).
  destruct (nth_error l (Z.to_nat j)) as [a|] eqn:Hnth; [exists a; reflexivity|].
  apply nth_error_None in Hnth. unfold n in Hj. lia.
Qed.

Lemma py_getitem_nonneg {A : Type} (l : list A) (i : nat) :
  (i < List.length l)%nat ->
  py_getitem l (Z.of_nat i) = nth_error l i.
Proof.
  intros Hi. unfold py_getitem.
  destruct (Z.ltb_spec (Z.of_nat i) 0); [lia|].
  replace ((0 <=? Z.of_nat i) && (Z.of_nat i <? Z.of_nat (List.length l)))
    with true
    by (symmetry; apply andb_true_intro; split;
        [apply Z.leb_le | apply Z.ltb_lt]; lia).
  rewrite Nat2Z.id. reflexivity.
Qed.

Lemma py_getitem_last {A : Type} (front : list A) (a : A) :
  py_getitem (front ++ [a]) (-1) = Some a.
Proof.
  unfold py_getitem. rewrite length_app. cbn [List.length].
  change (-1 <? 0) with true. cbv iota.
  replace ((0 <=? -1 + Z.of_nat (List.length front + 1))
           && (-1 + Z.of_nat (List.length front + 1)
               <? Z.of_nat (List.length front + 1)))
    with true
    by (symmetry; apply andb_true_intro; split;
        [apply Z.leb_le | apply Z.ltb_lt]; lia).
  replace (Z.to_nat (-1 + Z.of_nat (List.length front + 1)))
    with (List.length front) by lia.
  rewrite nth_error_app2 by lia. rewrite Nat.sub_diag. reflexivity.
Qed.

Lemma lookup_index_range (ranges : list band) (x : F64.float) :
  -1 <= lookup_index ranges x < Z.of_nat (List.length ranges).
Proof.
  unfold lookup_index, bisect_right. rewrite length_map.
  pose proof (bisect_loop_between (map start ranges) x (List.length ranges)
                0 (List.length ranges) ltac:(lia)).
  lia.
Qed.

(** The remainder by 5 is always defined. *)
Lemma multiple_of_5_defined (x : F64.float) : multiple_of_5 x <> None.
Proof.
  unfold multiple_of_5, F64.rem.
  replace (F64.eqb (F64.of_Z 5) (S754_zero false)) with false
    by (vm_compute; reflexivity).
  destruct (negb _ && negb _).
  - destruct (xorb _ _); discriminate.
  - destruct (F64.is_nan _); discriminate.
Qed.

Lemma tick_check_defined (s x : F64.float) : tick_check s x <> None.
Proof.
  unfold tick_check.
  repeat match goal with
         | |- (if ?c then _ else _) <> None => destruct c; try discriminate
         end.
  pose proof (multiple_of_5_defined x).
  destruct (multiple_of_5 x); [discriminate|congruence].
Qed.

(** A call on a float and a table that is not empty ends in a return or
    an [InvalidPriceError]. *)
Lemma float_outcome_kind (x : F64.float) (ranges : list band) :
  ranges <> [] ->
  match get_price_range_float x ranges with
  | Raise OverflowError | Raise IndexError | Raise ZeroDivisionError => False
  | _ => True
  end.
Proof.
  intros Hne. unfold get_price_range_float.
  destruct (F64.leb x (F64.of_Z 0)); [exact I|].
  destruct (F64.ltb x (F64.dec 1 100)); [exact I|].
  destruct (F64.gtb x (F64.of_Z 1000000)); [exact I|].
  fold (lookup_index ranges x).
  pose proof (lookup_index_range ranges x) as Hidx.
  destruct (py_getitem_in_range ranges _ Hne Hidx) as (b & ->).
  pose proof (tick_check_defined (start b) x) as Htick.
  destruct (tick_check (start b) x) as [[r|]|]; [exact I| |congruence].
  unfold down_fluctuation_of.
  destruct (F64.eqb x (start b)); cbn [andb]; [|exact I].
  destruct (Z.ltb_spec 0 (lookup_index ranges x)); [|exact I].
  destruct (py_getitem_in_range ranges (lookup_index ranges x - 1) Hne
              ltac:(lia)) as (prev & ->).
  exact I.
Qed.

End Edges.

Section EdgeTheorems.
Import Order OrderFacts Edges.
Variable float_of_str : string -> option F64.float.

(** X2: on the empty table, a price that converts to a float within
    [0.01, 1000000] passes the three range checks and the call then raises
    [IndexError], at [ranges[index]] with index -1. *)
Theorem empty_table_index_error (price : py_value) (x : F64.float) :
  py_float float_of_str price = Converted x ->
  F64.leb (F64.dec 1 100) x = true ->
  F64.leb x (F64.of_Z 1000000) = true ->
  get_price_range float_of_str price [] = Raise IndexError.
Proof.
  intros Hconv Hlo Hhi. unfold get_price_range. rewrite Hconv.
  unfold get_price_range_float.
  replace (F64.leb x (F64.of_Z 0)) with false by (symmetry; float_order).
  replace (F64.ltb x (F64.dec 1 100)) with false by (symmetry; float_order).
  replace (F64.gtb x (F64.of_Z 1000000)) with false
    by (symmetry; float_order).
  reflexivity.
Qed.

(** X3: on a table that is not empty a call never raises [IndexError] or
    [ZeroDivisionError]: it returns or raises [InvalidPriceError], or, only
    when the price is an [int], [OverflowError]. *)
Theorem only_invalid_price_errors (price : py_value) (ranges : list band) :
  ranges <> [] ->
  match get_price_range float_of_str price ranges with
  | Return _ _ => True
  | Raise (InvalidPriceError _) => True
  | Raise OverflowError => exists n, price = PyInt n
  | Raise IndexError => False
  | Raise ZeroDivisionError => False
  end.
Proof.
  intros Hne. unfold get_price_range.
  destruct price as [x|n|s]; cbn [py_float].
  - pose proof (float_outcome_kind x ranges Hne) as H.
    destruct (get_price_range_float x ranges) as [|[]]; tauto.
  - destruct (F64.is_finite (F64.of_Z n)); [|exists n; reflexivity].
    pose proof (float_outcome_kind (F64.of_Z n) ranges Hne) as H.
    destruct (get_price_range_float (F64.of_Z n) ranges) as [|[]]; tauto.
  - destruct (float_of_str s) as [x|]; [|exact I].
    pose proof (float_outcome_kind x ranges Hne) as H.
    destruct (get_price_range_float x ranges) as [|[]]; tauto.
Qed.

End EdgeTheorems.

Lemma empty_table_index_error_witness :
  get_price_range (fun _ => None) (PyFloat (F64.of_Z 5)) [] = Raise IndexError.
Proof.
  apply (empty_table_index_error (fun _ => None) (PyFloat (F64.of_Z 5))
           (F64.of_Z 5)); vm_compute; reflexivity.
Defined.

Lemma only_invalid_price_errors_witness :
  match
    get_price_range (fun _ => None) (PyFloat (F64.of_Z 5)) create_price_table
  with
  | Return _ _ => True
  | Raise (InvalidPriceError _) => True
  | Raise OverflowError => exists n, PyFloat (F64.of_Z 5) = PyInt n
  | Raise IndexError => False
  | Raise ZeroDivisionError => False
  end.
Proof.
  apply (only_invalid_price_errors (fun _ => None) (PyFloat (F64.of_Z 5))
           create_price_table).
  discriminate.
Defined.

(** ** The lookup on any table *)

Module Rows.
Import Order OrderFacts Bisect Edges.

Lemma nth_start (ranges : list band) (i : nat) (b : band) :
  nth_error ranges i = Some b ->
  nth i (map start ranges) F64.nan = start b.
Proof.
  intros H.
  rewrite (nth_indep _ F64.nan (start b)).
  - rewrite map_nth. f_equal. apply nth_error_nth. exact H.
  - rewrite length_map. apply nth_error_Some. congruence.
Qed.

(** When every comparison [x < a[i]] holds the search returns 0; when none
    does it returns the length. *)
Lemma bisect_loop_all_above (a : list F64.float) (x : F64.float) :
  (forall i, (i < List.length a)%nat -> F64.ltb x (nth i a F64.nan) = true) ->
  forall fuel lo hi,
    (lo <= hi <= List.length a)%nat -> (hi - lo <= fuel)%nat ->
    bisect_loop fuel a x lo hi = lo.
Proof.
  intros Hall. induction fuel as [|fuel IH]; intros lo hi Hle Hfuel;
    cbn [bisect_loop]; [reflexivity|].
  destruct (Nat.ltb_spec lo hi) as [Hlt|]; [|reflexivity].
  pose proof (midpoint_between lo hi Hlt) as Hmid.
  rewrite Hall by lia. apply IH; lia.
Qed.

Lemma bisect_loop_none_above (a : list F64.float) (x : F64.float) :
  (forall i, (i < List.length a)%nat -> F64.ltb x (nth i a F64.nan) = false) ->
  forall fuel lo hi,
    (lo <= hi <= List.length a)%nat -> (hi - lo <= fuel)%nat ->
    bisect_loop fuel a x lo hi = hi.
Proof.
  intros Hall. induction fuel as [|fuel IH]; intros lo hi Hle Hfuel;
    cbn [bisect_loop]; [lia|].
  destruct (Nat.ltb_spec lo hi) as [Hlt|]; [|lia].
  pose proof (midpoint_between lo hi Hlt) as Hmid.
  rewrite Hall by lia. apply IH; lia.
Qed.

Lemma lookup_below_every_start (ranges : list band) (x : F64.float) :
  (forall b, In b ranges -> F64.ltb x (start b) = true) ->
  lookup_index ranges x = -1.
Proof.
  intros Hall. unfold lookup_index, bisect_right.
  rewrite bisect_loop_all_above; try lia.
  intros i Hi. rewrite length_map in Hi.
  destruct (nth_error ranges i) as [b|] eqn:Hb.
  - rewrite (nth_start _ _ _ Hb). apply Hall. eapply nth_error_In. exact Hb.
  - apply nth_error_None in Hb. lia.
Qed.

Lemma lookup_nan (ranges : list band) :
  lookup_index ranges F64.nan = Z.of_nat (List.length ranges) - 1.
Proof.
  unfold lookup_index, bisect_right.
  rewrite bisect_loop_none_above; try lia.
  - rewrite length_map. reflexivity.
  - intros i _. reflexivity.
Qed.

End Rows.

Section RowTheorems.
Import Order OrderFacts Bisect Edges Rows.
Variable float_of_str : string -> option F64.float.

(** X4: on any table whose starts are in ascending order, for a price at
    or above the first start, [bisect_right(...) - 1] is the index of the
    last row whose start is at most the price: the rows up to it are
    exactly those whose start is at most the price. *)
Theorem lookup_rightmost_start (first : band) (rest : list band)
    (x : F64.float) :
  ascending (map start (first :: rest)) ->
  F64.leb (start first) x = true ->
  exists (i : nat) (b : band),
    lookup_index (first :: rest) x = Z.of_nat i
    /\ py_getitem (first :: rest) (lookup_index (first :: rest) x) = Some b
    /\ nth_error (first :: rest) i = Some b
    /\ F64.leb (start b) x = true
    /\ (forall j b', nth_error (first :: rest) j = Some b' ->
          (F64.leb (start b') x = true <-> (j <= i)%nat)).
Proof.
  intros Hasc Hfirst.
  set (ranges := first :: rest) in *.
  assert (Nx : F64.is_nan x = false) by (apply leb_iff in Hfirst; tauto).
  destruct (bisect_right_sorted (map start ranges) x Hasc Nx)
    as (Hlen & Hleft & Hright).
  rewrite length_map in Hlen, Hright.
  set (r := bisect_right (map start ranges) x) in *.
  assert (Hr : (0 < r)%nat).
  { destruct r as [|r']; [|lia]. exfalso.
    specialize (Hright 0%nat ltac:(cbn; lia)). cbn in Hright.
    apply ltb_iff in Hright as (_ & _ & Hlt).
    apply leb_iff in Hfirst as (_ & _ & Hle).
    destruct (key x) as [[x1 x2] x3], (key (start first)) as [[a1 a2] a3].
    unfold lex_lt, lex_le in *. lia. }
  exists (r - 1)%nat.
  destruct (nth_error ranges (r - 1)) as [b|] eqn:Hb.
  2:{ apply nth_error_None in Hb. lia. }
  exists b.
  assert (Hidx : lookup_index ranges x = Z.of_nat (r - 1))
    by (unfold lookup_index; fold r; lia).
  split; [exact Hidx|].
  split. { rewrite Hidx, py_getitem_nonneg by lia. exact Hb. }
  split; [reflexivity|].
  split. { rewrite <- (nth_start _ _ _ Hb). apply Hleft. lia. }
  intros j b' Hj.
  assert (Hjlen : (j < List.length ranges)%nat)
    by (apply nth_error_Some; congruence).
  rewrite <- (nth_start _ _ _ Hj). split.
  - intros Hle.
    destruct (Nat.le_gt_cases j (r - 1)) as [|Hgt]; [assumption|exfalso].
    specialize (Hright j ltac:(lia)).
    apply ltb_iff in Hright as (_ & _ & Hlt).
    apply leb_iff in Hle as (_ & _ & Hle).
    destruct (key x) as [[x1 x2] x3],
      (key (nth j (map start ranges) F64.nan)) as [[a1 a2] a3].
    unfold lex_lt, lex_le in *. lia.
  - intros Hle. apply Hleft. lia.
Qed.

(** X5: when the price is below the start of every row, the index is -1
    and [ranges[-1]] is the last row: for a price in [0.01, 10) no tick
    rule applies and the bounds are computed with the last row's
    fluctuation in both directions. *)
Theorem below_every_start_takes_last_row (front : list band) (b : band)
    (x : F64.float) :
  (forall r, In r (front ++ [b]) -> F64.ltb x (start r) = true) ->
  F64.leb (F64.dec 1 100) x = true ->
  F64.ltb x (F64.of_Z 10) = true ->
  get_price_range float_of_str (PyFloat x) (front ++ [b])
  = Return
      (F64.round2
         (F64.min (F64.max (F64.sub x (fluctuation b)) (F64.dec 1 100)) x))
      (F64.round2 (F64.add x (fluctuation b))).
Proof.
  intros Hall Hlo Hten.
  pose proof (Hall b ltac:(apply in_or_app; right; left; reflexivity)) as Hb.
  cbn [get_price_range py_float]. unfold get_price_range_float.
  fold (lookup_index (front ++ [b]) x).
  rewrite (lookup_below_every_start _ _ Hall), py_getitem_last.
  replace (F64.leb x (F64.of_Z 0)) with false by (symmetry; float_order).
  replace (F64.ltb x (F64.dec 1 100)) with false by (symmetry; float_order).
  replace (F64.gtb x (F64.of_Z 1000000)) with false
    by (symmetry; float_order).
  assert (Hstart : F64.leb (start b) x = false /\ F64.eqb x (start b) = false).
  { revert Hb. generalize (start b). intros s Hs.
    apply ltb_iff in Hs as (Nx & Ns & Hs).
    split; [apply (leb_false_iff _ _ Ns Nx) | apply (eqb_false_iff _ _ Nx Ns)];
      destruct (key x) as [[x1 x2] x3], (key s) as [[s1 s2] s3];
      unfold lex_lt, lex_eq in *; lia. }
  destruct Hstart as [Hle Heq].
  unfold tick_check. rewrite Hle. cbn [andb].
  replace (F64.leb (F64.of_Z 10) x) with false by (symmetry; float_order).
  replace (F64.leb (F64.of_Z 50) x) with false by (symmetry; float_order).
  replace (F64.leb (F64.of_Z 100) x) with false by (symmetry; float_order).
  replace (F64.leb (F64.of_Z 500) x) with false by (symmetry; float_order).
  replace (F64.geb x (F64.of_Z 1000)) with false by (symmetry; float_order).
  cbn [andb]. unfold down_fluctuation_of. rewrite Heq. cbn [andb].
  reflexivity.
Qed.

(** X6: a call on a float returns only when the price is within
    [0.01, 1000000], or is NaN, in which case both bounds are NaN. *)
Theorem returns_only_in_range (x lo hi : F64.float) (ranges : list band) :
  get_price_range float_of_str (PyFloat x) ranges = Return lo hi ->
  (F64.leb (F64.dec 1 100) x = true /\ F64.leb x (F64.of_Z 1000000) = true)
  \/ (F64.is_nan x = true /\ lo = F64.nan /\ hi = F64.nan).
Proof.
  intros Hret. cbn [get_price_range py_float] in Hret.
  apply get_price_range_float_returns in Hret.
  destruct Hret as (b & d & Hpos & Hmin & Hmax & Hb & _ & Hd & -> & ->).
  destruct (F64.is_nan x) eqn:Hnan.
  - right. destruct x; try discriminate. repeat split.
  - left. change (F64.is_nan x = false) with (number x) in Hnan.
    split; float_order.
Qed.

End RowTheorems.

Lemma lookup_rightmost_start_witness :
  exists (i : nat) (b : band),
    lookup_index create_price_table (F64.of_Z 5) = Z.of_nat i
    /\ py_getitem create_price_table
         (lookup_index create_price_table (F64.of_Z 5)) = Some b
    /\ nth_error create_price_table i = Some b
    /\ F64.leb (start b) (F64.of_Z 5) = true
    /\ (forall j b', nth_error create_price_table j = Some b' ->
          (F64.leb (start b') (F64.of_Z 5) = true <-> (j <= i)%nat)).
Proof.
  apply (lookup_rightmost_start
           (Band (F64.dec 1 100) (F64.of_Z 10) (F64.dec 1 100))
           (tl create_price_table) (F64.of_Z 5)).
  - exact Bisect.ascending_table.
  - vm_compute. reflexivity.
Defined.

Lemma below_every_start_takes_last_row_witness :
  get_price_range (fun _ => None) (PyFloat (F64.of_Z 5))
    ([Band (F64.of_Z 10) (F64.of_Z 50) (F64.dec 5 100)]
       ++ [Band (F64.of_Z 50) (F64.of_Z 100) (F64.dec 1 10)])
  = Return
      (F64.round2
         (F64.min
            (F64.max (F64.sub (F64.of_Z 5) (F64.dec 1 10)) (F64.dec 1 100))
            (F64.of_Z 5)))
      (F64.round2 (F64.add (F64.of_Z 5) (F64.dec 1 10))).
Proof.
  apply (below_every_start_takes_last_row (fun _ => None)
           [Band (F64.of_Z 10) (F64.of_Z 50) (F64.dec 5 100)]
           (Band (F64.of_Z 50) (F64.of_Z 100) (F64.dec 1 10)) (F64.of_Z 5)).
  - intros r [<-|[<-|[]]]; vm_compute; reflexivity.
  - vm_compute. reflexivity.
  - vm_compute. reflexivity.
Defined.

Lemma returns_only_in_range_witness :
  (F64.leb (F64.dec 1 100) (F64.of_Z 5) = true
   /\ F64.leb (F64.of_Z 5) (F64.of_Z 1000000) = true)
  \/ (F64.is_nan (F64.of_Z 5) = true
      /\ F64.dec 499 100 = F64.nan /\ F64.dec 501 100 = F64.nan).
Proof.
  apply (returns_only_in_range (fun _ => None) (F64.of_Z 5)
           (F64.dec 499 100) (F64.dec 501 100) create_price_table).
  vm_compute. reflexivity.
Defined.

(** ** Bounds strictly around the price *)

Module Strict.
Import Rounding Arith Division Values Enclosure.
Import Order OrderFacts.

(** The upper bound is above the price. *)
Lemma upper_bound_gt (x f : F64.float) (vx vf : Z) :
  normal x vx -> normal f vf ->
  5764607523034235 * 2 ^ 1015 <= vx <= 8589934592000000 * 2 ^ 1041 ->
  5764607523034235 * 2 ^ 1015 <= vf <= 8589934592000000 * 2 ^ 1041 ->
  F64.ltb x (F64.round2 (F64.add x f)) = true.
Proof.
  intros Hx Hf Hvx Hvf.
  destruct (add_normal x f vx vf Hx Hf) as (vs & Hs & Herr);
    [apply sum_below; apply million_below; [apply Hvx|apply Hvf]|].
  destruct (round2_normal _ vs Hs) as (vh & H & Hh & Hrnd & Hdiv & _);
    [units_lia|units_lia|].
  rewrite (normal_ltb _ _ vx vh Hx Hh). apply Z.ltb_lt. units_lia.
Qed.

(** The lower bound is below every price above 0.01. *)
Lemma lower_bound_lt (x d : F64.float) (vx vd : Z) :
  normal x vx -> normal d vd ->
  5764607523034235 * 2 ^ 1015 < vx <= 8589934592000000 * 2 ^ 1041 ->
  5764607523034235 * 2 ^ 1015 <= vd <= 8589934592000000 * 2 ^ 1041 ->
  F64.ltb
    (F64.round2 (F64.min (F64.max (F64.sub x d) (F64.dec 1 100)) x)) x
  = true.
Proof.
  intros Hx Hd Hvx Hvd.
  pose proof normal_cent as Hc. rewrite value_of_cent in Hc.
  destruct (normal_multiple x vx Hx
              (cent_above vx (Z.lt_le_incl _ _ (proj1 Hvx)))) as (kx & Hkx).
  destruct (normal_multiple d vd Hd (cent_above vd (proj1 Hvd)))
    as (kd & Hkd).
  assert (Hfloor :
            F64.ltb (F64.round2 (F64.min (F64.dec 1 100) x)) x = true).
  { unfold F64.min.
    rewrite (normal_ltb _ _ _ _ Hx Hc).
    replace (vx <? 5764607523034235 * 2 ^ 1015) with false
      by (symmetry; apply Z.ltb_ge, Z.lt_le_incl, Hvx).
    replace (F64.round2 (F64.dec 1 100)) with (F64.dec 1 100)
      by (vm_compute; reflexivity).
    rewrite (normal_ltb _ _ _ _ Hc Hx). apply Z.ltb_lt. apply Hvx. }
  destruct (sub_normal x d vx vd Hx Hd
              (single_below _ (million_below _ (proj2 Hvx)))
              (single_below _ (million_below _ (proj2 Hvd))))
    as (Hpos & Hzero & Hneg).
  destruct (Z.lt_trichotomy kx kd) as [Hlt|[Heq|Hgt]].
  - destruct Hneg as (m & e & Hsub);
      [rewrite Hkx, Hkd; apply multiple_gap; exact Hlt|].
    rewrite Hsub. unfold F64.max, F64.gtb.
    replace (F64.ltb (S754_finite true m e) (F64.dec 1 100)) with true
      by (vm_compute; reflexivity).
    exact Hfloor.
  - rewrite Hzero by (rewrite Hkx, Hkd, Heq; reflexivity).
    unfold F64.max, F64.gtb.
    replace (F64.ltb (S754_zero false) (F64.dec 1 100)) with true
      by (vm_compute; reflexivity).
    exact Hfloor.
  - destruct Hpos as (vy & Hy & Herr);
      [rewrite Hkx, Hkd; apply multiple_gap; exact Hgt|].
    clear Hkx Hkd Hgt kx kd Hzero Hneg.
    unfold F64.max, F64.gtb.
    rewrite (normal_ltb _ _ _ _ Hy Hc).
    destruct (Z.ltb_spec vy (5764607523034235 * 2 ^ 1015)) as [Hsmall|Hbig];
      [exact Hfloor|].
    unfold F64.min. rewrite (normal_ltb _ _ _ _ Hx Hy).
    destruct (Z.ltb_spec vx vy) as [Habove|Hbelow]; [exfalso; units_lia|].
    destruct (round2_normal _ vy Hy) as (vl & H & Hl & Hrnd & Hdiv & _);
      [units_lia|units_lia|].
    rewrite (normal_ltb _ _ vl vx Hl Hx). apply Z.ltb_lt. units_lia.
Qed.

End Strict.

Section StrictTheorems.
Import Rounding Arith Division Values Enclosure.
Import Order OrderFacts Strict.
Variable float_of_str : string -> option F64.float.

(** X7: on the standard table, when a call on a double within
    [0.01, 1000000] returns, the upper bound is strictly above the price
    and, unless the price is 0.01 itself, the lower bound is strictly
    below it. *)
Theorem bounds_strictly_enclose (x lo hi : F64.float) :
  F64.valid x = true ->
  F64.leb (F64.dec 1 100) x = true ->
  F64.leb x (F64.of_Z 1000000) = true ->
  get_price_range float_of_str (PyFloat x) create_price_table
    = Return lo hi ->
  F64.ltb x hi = true
  /\ (F64.ltb (F64.dec 1 100) x = true -> F64.ltb lo x = true).
Proof.
  intros Hvalid Hlo Hhi Hret.
  destruct (in_range_normal x Hvalid Hlo Hhi) as [Hx Hvx].
  cbn [get_price_range py_float] in Hret.
  apply get_price_range_float_returns in Hret.
  destruct Hret as (b & d & _ & _ & _ & Hb & _ & Hd & -> & ->).
  apply py_getitem_In in Hb.
  assert (Hdown : exists b', In b' create_price_table /\ d = fluctuation b').
  { unfold down_fluctuation_of in Hd.
    destruct (_ && _).
    - destruct (py_getitem create_price_table _) as [prev|] eqn:Hprev;
        [|discriminate].
      injection Hd as <-. exists prev. split; [|reflexivity].
      eapply py_getitem_In. exact Hprev.
    - injection Hd as <-. exists b. split; [assumption|reflexivity]. }
  destruct Hdown as (b' & Hb' & ->).
  destruct (table_fluctuation_normal b Hb) as [Hf Hvf].
  destruct (table_fluctuation_normal b' Hb') as [Hd' Hvd].
  split.
  - apply (upper_bound_gt x _ _ _ Hx Hf Hvx Hvf).
  - intros Habove.
    pose proof normal_cent as Hc.
    rewrite (normal_ltb _ _ _ _ Hc Hx), value_of_cent in Habove.
    apply Z.ltb_lt in Habove.
    apply (lower_bound_lt x _ _ _ Hx Hd'); [lia|exact Hvd].
Qed.

End StrictTheorems.

Lemma bounds_strictly_enclose_witness :
  F64.ltb (F64.of_Z 5) (F64.dec 501 100) = true
  /\ (F64.ltb (F64.dec 1 100) (F64.of_Z 5) = true ->
      F64.ltb (F64.dec 499 100) (F64.of_Z 5) = true).
Proof.
  apply (bounds_strictly_enclose (fun _ => None) (F64.of_Z 5));
    vm_compute; reflexivity.
Defined.

(** ** Integers too large for a double *)

Module Overflow.
Import Rounding.

(** [binary_round_aux] on a value of at least [2 ^ 1024]: infinity. *)
Lemma binary_round_aux_overflow (sx : bool) (mx ex a b : Z) :
  0 < mx -> 0 <= a < b ->
  53 <= Zdigits2 mx -> -1074 <= ex -> 1025 <= Zdigits2 mx + ex ->
  binary_round_aux 53 1024 sx mx ex (loc_frac a b) = S754_infinity sx.
Proof.
  intros Hmx Hab Hd Hex Htop.
  pose proof (Zdigits2_bounds mx Hmx) as [Hbr _].
  set (d := Zdigits2 mx) in *.
  set (n := d - 53).
  unfold binary_round_aux, shr_fexp. fold d.
  rewrite fexp_normal by lia.
  replace (d + ex - 53 - ex) with n by (unfold n; lia).
  destruct (shr_frac mx ex n a b ltac:(lia) ltac:(unfold n; lia) Hab)
    as (mrs & a' & Hshr & Ha' & Hloc & Hq & Heq).
  rewrite Hshr, Hloc.
  set (q := shr_m mrs) in *.
  set (B := 2 ^ n * b) in *.
  assert (Hqb : 2 ^ 52 <= q < 2 ^ 53).
  { apply (shifted_mantissa_bounds mx q n a a' b); try assumption.
    - unfold n; lia.
    - replace (52 + n) with (d - 1) by (unfold n; lia).
      replace (53 + n) with d by (unfold n; lia). exact Hbr. }
  pose proof (round_nearest_even_frac q a' B Ha') as [Hm1 _].
  set (m1 := round_nearest_even q (loc_frac a' B)) in *.
  destruct (Z.eq_dec m1 (2 ^ 53)) as [Htop1|Hlow].
  - rewrite Htop1 in *.
    change (Zdigits2 (2 ^ 53)) with 54.
    rewrite fexp_normal by lia.
    replace (54 + (ex + n) - 53 - (ex + n)) with 1 by lia.
    cbn [shr shr_record_of_loc iter_pos].
    change (shr_1 {| shr_m := 2 ^ 53; shr_r := false; shr_s := false |})
      with {| shr_m := 2 ^ 52; shr_r := false; shr_s := false |}.
    cbn [shr_m]. change (2 ^ 52) with (Z.pos 4503599627370496) at 1.
    cbn iota.
    replace (ex + n + 1 <=? 1024 - 53) with false
      by (symmetry; apply Z.leb_gt; unfold n; lia).
    reflexivity.
  - assert (Hm1b : 2 ^ 52 <= m1 < 2 ^ 53) by lia.
    rewrite (Zdigits2_unique m1 53) by (cbn; lia).
    rewrite fexp_normal by lia.
    replace (53 + (ex + n) - 53 - (ex + n)) with 0 by lia.
    cbn [shr shr_record_of_loc shr_m].
    destruct m1 as [|pm|pm]; try (cbn in Hm1b; lia).
    replace (ex + n <=? 1024 - 53) with false
      by (symmetry; apply Z.leb_gt; unfold n; lia).
    reflexivity.
Qed.

(** An integer of magnitude at least [2 ^ 1024] has no double. *)
Lemma of_Z_overflow (n : Z) :
  2 ^ 1024 <= Z.abs n -> F64.is_finite (F64.of_Z n) = false.
Proof.
  intros Hn. unfold F64.of_Z.
  assert (Hround : forall sx p, 2 ^ 1024 <= Z.pos p ->
            binary_round 53 1024 sx p 0 = S754_infinity sx).
  { intros sx p Hp.
    pose proof (digits2_pos_bounds p) as [_ Hdh].
    set (D := Z.pos (digits2_pos p)) in *.
    assert (HD : 1025 <= D).
    { assert (H : 2 ^ 1024 < 2 ^ D) by lia.
      apply pow2_lt_inv in H; unfold D in *; lia. }
    unfold binary_round. fold D. rewrite fexp_normal by lia.
    rewrite shl_align_keep by lia.
    change loc_Exact with (loc_frac 0 1).
    apply binary_round_aux_overflow; try lia; cbn [Zdigits2]; fold D; lia. }
  destruct n as [|p|p]; cbn [Z.abs] in Hn.
  - pose proof (pow2_pos 1024). lia.
  - cbn [binary_normalize]. change F64.prec with 53.
    change F64.emax with 1024. rewrite Hround by exact Hn. reflexivity.
  - cbn [binary_normalize]. change F64.prec with 53.
    change F64.emax with 1024. rewrite Hround by exact Hn. reflexivity.
Qed.

End Overflow.

Section OverflowTheorems.
Import Overflow.
Variable float_of_str : string -> option F64.float.

(** X8: an [int] price of magnitude [2 ^ 1024] or more, of either sign,
    makes [float(price)] raise [OverflowError], which the [except
    ValueError] clause does not catch: the call raises [OverflowError] on
    any table, not [InvalidPriceError]. *)
Theorem huge_int_overflow_error (n : Z) (ranges : list band) :
  2 ^ 1024 <= Z.abs n ->
  get_price_range float_of_str (PyInt n) ranges = Raise OverflowError.
Proof.
  intros Hn. unfold get_price_range. cbn [py_float].
  rewrite (of_Z_overflow n Hn). reflexivity.
Qed.

End OverflowTheorems.

Lemma huge_int_overflow_error_witness :
  get_price_range (fun _ => None) (PyInt (2 ^ 1024)) create_price_table
  = Raise OverflowError.
Proof.
  apply (huge_int_overflow_error (fun _ => None) (2 ^ 1024)).
  vm_compute. discriminate.
Defined.

(** ** The tick grids, price by price *)

Module Grid.

Lemma same_float_eq (x y : F64.float) : same_float x y = true -> x = y.
Proof.
  destruct x as [s|s| |s m e], y as [t|t| |t n f]; cbn [same_float];
    try discriminate; try reflexivity.
  - intros H. apply eqb_prop in H. congruence.
  - intros H. apply eqb_prop in H. congruence.
  - intros H. apply andb_prop in H as [H He]. apply andb_prop in H as [Hs Hm].
    apply eqb_prop in Hs. apply Pos.eqb_eq in Hm. apply Z.eqb_eq in He.
    congruence.
Qed.

Lemma returned_eq (o : outcome) (lo hi : F64.float) :
  returned o lo hi = true -> o = Return lo hi.
Proof.
  destruct o as [l h|e]; cbn [returned]; [|discriminate].
  intros H. apply andb_prop in H as [Hl Hh].
  apply same_float_eq in Hl, Hh. congruence.
Qed.

Lemma raised_tick_eq (o : outcome) (r : tick_rule) :
  raised_tick o r = true -> o = Raise (InvalidPriceError (TickViolation r)).
Proof.
  destruct o as [l h|[[| | | |[]]| | |]], r; cbn [raised_tick];
    try discriminate; reflexivity.
Qed.

Lemma all_from_spec (f : Z -> bool) (n : nat) :
  forall start,
    all_from f start n = true ->
    forall k, start <= k < start + Z.of_nat n -> f k = true.
Proof.
  induction n as [|n IH]; intros start Hall k Hk; [lia|].
  cbn [all_from] in Hall. apply andb_prop in Hall as [Hhere Hrest].
  destruct (Z.eq_dec k start) as [->|Hne]; [exact Hhere|].
  apply (IH (start + 1) Hrest). lia.
Qed.

Lemma on_grid_eq (float_of_str : string -> option F64.float)
    (den first : Z) (low : F64.float) (n : Z) :
  on_grid den first low n = true ->
  get_price_range float_of_str (PyFloat (F64.dec n den)) create_price_table
  = Return (if n =? first then low else F64.dec (n - 1) den)
      (F64.dec (n + 1) den).
Proof. intros H. apply returned_eq in H. exact H. Qed.

(** The grids of the five ranges below 1000, price by price. *)
Lemma grid_below_10 : all_from cent_checked 1 999 = true.
Proof. vm_compute. reflexivity. Qed.

Lemma grid_10_to_50 :
  all_from (on_grid 20 200 (F64.dec 999 100)) 200 800 = true.
Proof. vm_compute. reflexivity. Qed.

Lemma grid_50_to_100 :
  all_from (on_grid 10 500 (F64.dec 4995 100)) 500 500 = true.
Proof. vm_compute. reflexivity. Qed.

Lemma grid_100_to_500 :
  all_from (on_grid 2 200 (F64.dec 999 10)) 200 800 = true.
Proof. vm_compute. reflexivity. Qed.

Lemma grid_500_to_1000 :
  all_from (on_grid 1 500 (F64.dec 4995 10)) 500 500 = true.
Proof. vm_compute. reflexivity. Qed.

End Grid.

Section GridTheorems.
Import Grid.
Variable float_of_str : string -> option F64.float.

(** X9: on the standard table every price of 1 to 999 cents (0.01 to
    9.99) is either refused with the two-decimals rule or returns the
    bounds exactly one cent below and above it, the lower bound being 0.01
    for the price 0.01. *)
Theorem cents_below_10 (n : Z) :
  1 <= n <= 999 ->
  outcome_of_cents n = Raise (InvalidPriceError (TickViolation TwoDecimals))
  \/ outcome_of_cents n
     = Return (F64.dec (Z.max (n - 1) 1) 100) (F64.dec (n + 1) 100).
Proof.
  intros Hn.
  pose proof (all_from_spec _ _ _ grid_below_10 n ltac:(lia)) as H.
  unfold cent_checked in H. cbv zeta in H. apply orb_prop in H as [H|H].
  - left. apply raised_tick_eq. exact H.
  - right. apply returned_eq. exact H.
Qed.

(** X10: on the standard table every multiple [n / 20] of 0.05 from 10.00
    to 49.95 is accepted and the bounds are the next multiples of 0.05
    below and above it, except that the lower bound of 10.00 is 9.99. *)
Theorem ticks_10_to_50 (n : Z) :
  200 <= n <= 999 ->
  get_price_range float_of_str (PyFloat (F64.dec n 20)) create_price_table
  = Return (if n =? 200 then F64.dec 999 100 else F64.dec (n - 1) 20)
      (F64.dec (n + 1) 20).
Proof.
  intros Hn. apply on_grid_eq.
  apply (all_from_spec _ _ _ grid_10_to_50). lia.
Qed.

(** X11: on the standard table every multiple [n / 10] of 0.1 from 50.0 to
    99.9 is accepted and the bounds are the next multiples of 0.1 below
    and above it, except that the lower bound of 50.0 is 49.95. *)
Theorem ticks_50_to_100 (n : Z) :
  500 <= n <= 999 ->
  get_price_range float_of_str (PyFloat (F64.dec n 10)) create_price_table
  = Return (if n =? 500 then F64.dec 4995 100 else F64.dec (n - 1) 10)
      (F64.dec (n + 1) 10).
Proof.
  intros Hn. apply on_grid_eq.
  apply (all_from_spec _ _ _ grid_50_to_100). lia.
Qed.

(** X12: on the standard table every multiple [n / 2] of 0.5 from 100.0
    to 499.5 is accepted and the bounds are the next multiples of 0.5
    below and above it, except that the lower bound of 100.0 is 99.9. *)
Theorem ticks_100_to_500 (n : Z) :
  200 <= n <= 999 ->
  get_price_range float_of_str (PyFloat (F64.dec n 2)) create_price_table
  = Return (if n =? 200 then F64.dec 999 10 else F64.dec (n - 1) 2)
      (F64.dec (n + 1) 2).
Proof.
  intros Hn. apply on_grid_eq.
  apply (all_from_spec _ _ _ grid_100_to_500). lia.
Qed.

(** X13: on the standard table every whole price [n] from 500 to 999,
    passed as a float, is accepted and the bounds are [n - 1] and [n + 1],
    except that the lower bound of 500 is 499.5. *)
Theorem ticks_500_to_1000 (n : Z) :
  500 <= n <= 999 ->
  get_price_range float_of_str (PyFloat (F64.dec n 1)) create_price_table
  = Return (if n =? 500 then F64.dec 4995 10 else F64.dec (n - 1) 1)
      (F64.dec (n + 1) 1).
Proof.
  intros Hn. apply on_grid_eq.
  apply (all_from_spec _ _ _ grid_500_to_1000). lia.
Qed.

End GridTheorems.

Lemma cents_below_10_witness :
  outcome_of_cents 500
  = Raise (InvalidPriceError (TickViolation TwoDecimals))
  \/ outcome_of_cents 500
     = Return (F64.dec (Z.max (500 - 1) 1) 100) (F64.dec (500 + 1) 100).
Proof. apply (cents_below_10 500). lia. Defined.

Lemma ticks_10_to_50_witness :
  get_price_range (fun _ => None) (PyFloat (F64.dec 201 20))
    create_price_table
  = Return (if 201 =? 200 then F64.dec 999 100 else F64.dec (201 - 1) 20)
      (F64.dec (201 + 1) 20).
Proof. apply (ticks_10_to_50 (fun _ => None) 201). lia. Defined.

Lemma ticks_50_to_100_witness :
  get_price_range (fun _ => None) (PyFloat (F64.dec 500 10))
    create_price_table
  = Return (if 500 =? 500 then F64.dec 4995 100 else F64.dec (500 - 1) 10)
      (F64.dec (500 + 1) 10).
Proof. apply (ticks_50_to_100 (fun _ => None) 500). lia. Defined.

Lemma ticks_100_to_500_witness :
  get_price_range (fun _ => None) (PyFloat (F64.dec 301 2))
    create_price_table
  = Return (if 301 =? 200 then F64.dec 999 10 else F64.dec (301 - 1) 2)
      (F64.dec (301 + 1) 2).
Proof. apply (ticks_100_to_500 (fun _ => None) 301). lia. Defined.

Lemma ticks_500_to_1000_witness :
  get_price_range (fun _ => None) (PyFloat (F64.dec 999 1))
    create_price_table
  = Return (if 999 =? 500 then F64.dec 4995 10 else F64.dec (999 - 1) 1)
      (F64.dec (999 + 1) 1).
Proof. apply (ticks_500_to_1000 (fun _ => None) 999). lia. Defined.

(** ** Prices with a fractional part, from 500 *)

Module Fractions.
Import Order OrderFacts Edges.

Lemma multiple_of_5_fraction (x : F64.float) :
  F64.is_integer x = false -> multiple_of_5 x = Some false.
Proof.
  intros Hfrac. pose proof (multiple_of_5_defined x) as Hdef.
  unfold multiple_of_5 in *. rewrite Hfrac in *.
  destruct (F64.rem x (F64.of_Z 5)) as [r|]; [|congruence].
  rewrite andb_false_r. reflexivity.
Qed.

End Fractions.

Section FractionTheorems.
Import Order OrderFacts Fractions.
Variable float_of_str : string -> option F64.float.

(** X14: on the standard table every float from 500 to 1000000 that is not
    a whole number is refused: with the whole-number rule below 1000, with
    the multiple-of-5 rule from 1000 on. *)
Theorem fraction_from_500_refused (x : F64.float) :
  F64.leb (F64.of_Z 500) x = true ->
  F64.leb x (F64.of_Z 1000000) = true ->
  F64.is_integer x = false ->
  get_price_range float_of_str (PyFloat x) create_price_table
  = Raise (InvalidPriceError
             (TickViolation
                (if F64.ltb x (F64.of_Z 1000) then WholeNumber
                 else MultipleOf5))).
Proof.
  intros Hlo Hhi Hfrac.
  cbn [get_price_range py_float]. unfold get_price_range_float.
  replace (F64.leb x (F64.of_Z 0)) with false by (symmetry; float_order).
  replace (F64.ltb x (F64.dec 1 100)) with false by (symmetry; float_order).
  replace (F64.gtb x (F64.of_Z 1000000)) with false
    by (symmetry; float_order).
  rewrite bisect_right_table.
  replace (F64.ltb x (F64.of_Z 100)) with false by (symmetry; float_order).
  replace (F64.ltb x (F64.of_Z 500)) with false by (symmetry; float_order).
  destruct (F64.ltb x (F64.of_Z 1000)) eqn:Hk.
  - change (py_getitem create_price_table (Z.of_nat 6 - 1))
      with (Some (Band (F64.of_Z 500) (F64.of_Z 1000) (F64.of_Z 1))).
    cbn [start]. unfold tick_check. rewrite Hfrac, Hlo, Hk.
    replace (F64.ltb x (F64.of_Z 10)) with false by (symmetry; float_order).
    replace (F64.ltb x (F64.of_Z 50)) with false by (symmetry; float_order).
    replace (F64.ltb x (F64.of_Z 100)) with false by (symmetry; float_order).
    replace (F64.ltb x (F64.of_Z 500)) with false by (symmetry; float_order).
    rewrite !andb_false_r. reflexivity.
  - change (py_getitem create_price_table (Z.of_nat 7 - 1))
      with (Some (Band (F64.of_Z 1000) F64.inf (F64.of_Z 5))).
    cbn [start]. unfold tick_check. rewrite Hk.
    replace (F64.ltb x (F64.of_Z 10)) with false by (symmetry; float_order).
    replace (F64.ltb x (F64.of_Z 50)) with false by (symmetry; float_order).
    replace (F64.ltb x (F64.of_Z 100)) with false by (symmetry; float_order).
    replace (F64.ltb x (F64.of_Z 500)) with false by (symmetry; float_order).
    rewrite !andb_false_r. cbn [andb].
    replace (F64.geb x (F64.of_Z 1000)) with true by (symmetry; float_order).
    rewrite (multiple_of_5_fraction x Hfrac). reflexivity.
Qed.

End FractionTheorems.

Lemma fraction_from_500_refused_witness :
  get_price_range (fun _ => None) (PyFloat (F64.dec 10005 10))
    create_price_table
  = Raise (InvalidPriceError
             (TickViolation
                (if F64.ltb (F64.dec 10005 10) (F64.of_Z 1000)
                 then WholeNumber else MultipleOf5))).
Proof.
  apply (fraction_from_500_refused (fun _ => None) (F64.dec 10005 10));
    vm_compute; reflexivity.
Defined.

(** ** Whole prices from 1000 *)

Module Exact.
Import Rounding Arith Division Values Enclosure.
Import Order OrderFacts.

(** A result that the format can hold is returned as it is: a normal
    double within half a unit in the last place of a multiple of [2 ^ g]
    that is below [2 ^ (g + 53)] equals it. *)
Lemma exact_when_representable (x : F64.float) (v E g : Z) :
  normal x v -> 2 ^ 53 * Z.abs (v - E) <= v ->
  0 <= g -> (exists t, E = t * 2 ^ g) -> v < 2 ^ (g + 53) ->
  v = E.
Proof.
  intros (m & e & -> & Hm & He & ->) Herr Hg (t & ->) Hsmall.
  set (P := 2 ^ (e + 1074)) in *.
  assert (HP : 0 < P) by (apply pow2_pos; lia).
  assert (Hle : e + 1074 <= g).
  { assert (H : 2 ^ (52 + (e + 1074)) < 2 ^ (g + 53)).
    { rewrite Z.pow_add_r by lia. fold P.
      apply Z.le_lt_trans with (Z.pos m * P); [|exact Hsmall].
      apply Z.mul_le_mono_nonneg_r; lia. }
    apply pow2_lt_inv in H; lia. }
  assert (Hsplit : 2 ^ g = 2 ^ (g - (e + 1074)) * P).
  { unfold P. rewrite <- Z.pow_add_r by lia. f_equal. lia. }
  rewrite Hsplit in *.
  set (t' := t * 2 ^ (g - (e + 1074))).
  replace (t * (2 ^ (g - (e + 1074)) * P)) with (t' * P) in * by
    (unfold t'; lia).
  replace (Z.pos m * P - t' * P) with ((Z.pos m - t') * P) in Herr by lia.
  rewrite Z.abs_mul, (Z.abs_eq P) in Herr by lia.
  assert (Hk : 2 ^ 53 * Z.abs (Z.pos m - t') <= Z.pos m).
  { apply Z.mul_le_mono_pos_r with P; [exact HP|]. lia. }
  assert (Z.pos m = t') by lia.
  congruence.
Qed.

(** A normal double is determined by its value. *)
Lemma normal_injective (x y : F64.float) (v : Z) :
  normal x v -> normal y v -> x = y.
Proof.
  intros (m & e & -> & Hm & He & ->) (m' & e' & -> & Hm' & He' & Hv).
  destruct (Z.lt_trichotomy e e') as [H|[H|H]].
  - pose proof (units_lt_of_exponent m m' e e'). lia.
  - subst e'.
    assert (HP : 0 < 2 ^ (e + 1074)) by (apply pow2_pos; lia).
    apply Z.mul_cancel_r in Hv; [|lia]. congruence.
  - pose proof (units_lt_of_exponent m' m e' e). lia.
Qed.

(** Arithmetic on values counted in a unit [U], whatever the unit. *)
Section Units.
Variable U : Z.
Hypothesis HU : 0 < U.

Lemma below_top (n v : Z) :
  0 <= n < 2 ^ 52 -> 2 ^ 53 * Z.abs (v - n * U) <= v -> v < 2 ^ 53 * U.
Proof.
  intros Hn Herr.
  assert (n * U < 2 ^ 52 * U) by (apply Z.mul_lt_mono_pos_r; lia).
  lia.
Qed.

Lemma whole_units (a b : Z) : Z.abs (a * U - b * U) < U -> a = b.
Proof.
  intros H. replace (a * U - b * U) with ((a - b) * U) in H by ring.
  rewrite Z.abs_mul, (Z.abs_eq U) in H by lia.
  assert (Z.abs (a - b) < 1); [|lia].
  apply Z.mul_lt_mono_pos_r with U; lia.
Qed.

Lemma at_least_unit (n : Z) : 0 < n -> U <= n * U.
Proof.
  intros Hn. rewrite <- (Z.mul_1_l U) at 1.
  apply Z.mul_le_mono_nonneg_r; lia.
Qed.

Lemma hundredth_exact (k v H : Z) :
  2 * Z.abs (H * U - 100 * (k * U)) <= U ->
  2 ^ 53 * Z.abs (100 * v - H * U) <= 100 * v ->
  2 ^ 53 * Z.abs (v - k * U) <= v.
Proof.
  intros Hrnd Hdiv.
  assert (HH : H = 100 * k) by (apply whole_units; lia).
  subst H. lia.
Qed.

End Units.

Lemma units_pos : 0 < 2 ^ 1074.
Proof. apply pow2_pos. bare. Qed.

(** The value of a positive integer below [2 ^ 52]. *)
Lemma units_range (n : Z) :
  0 < n < 2 ^ 52 -> 2 ^ 1074 <= n * 2 ^ 1074 < 2 ^ 1126.
Proof.
  intros Hn. split.
  - apply at_least_unit; [exact units_pos|apply Hn].
  - replace (2 ^ 1126) with (2 ^ 52 * 2 ^ 1074)
      by (rewrite <- Z.pow_add_r by bare; reflexivity).
    apply Z.mul_lt_mono_pos_r; [exact units_pos|apply Hn].
Qed.

Lemma units_normal (n : Z) :
  0 < n < 2 ^ 52 -> 2 ^ 52 <= n * 2 ^ 1074 < 2 ^ 2097.
Proof.
  intros Hn. destruct (units_range n Hn) as [Hlo Hhi]. split.
  - apply Z.le_trans with (2 ^ 1074); [apply pow2_le_mono; bare|exact Hlo].
  - apply Z.lt_trans with (2 ^ 1126); [exact Hhi|apply pow2_lt_mono; bare].
Qed.

Lemma units_sum (va vb : Z) :
  va < 2 ^ 1126 -> vb < 2 ^ 1126 -> va + vb < 2 ^ 2097.
Proof.
  intros Ha Hb.
  apply Z.lt_trans with (2 ^ 1127); [|apply pow2_lt_mono; bare].
  replace (2 ^ 1127) with (2 * 2 ^ 1126)
    by (rewrite <- Z.pow_succ_r by bare; reflexivity).
  revert Ha Hb. generalize (2 ^ 1126). intros T Ha Hb. lia.
Qed.

(** A normal double within half a unit in the last place of an integer
    below [2 ^ 52] is that integer. *)
Lemma exact_units (x : F64.float) (v n : Z) :
  normal x v -> 2 ^ 53 * Z.abs (v - n * 2 ^ 1074) <= v ->
  0 < n < 2 ^ 52 -> v = n * 2 ^ 1074.
Proof.
  intros Nx Herr Hn.
  apply (exact_when_representable x v _ 1074 Nx Herr);
    [bare|exists n; reflexivity|].
  rewrite Z.pow_add_r by bare. rewrite Z.mul_comm.
  apply (below_top _ units_pos n v); [|exact Herr].
  clear - Hn. lia.
Qed.

(** The double of a positive integer below [2 ^ 52] is that integer. *)
Lemma of_Z_normal (n : Z) :
  0 < n < 2 ^ 52 -> normal (F64.of_Z n) (n * 2 ^ 1074).
Proof.
  intros Hn. pose proof (units_normal n Hn) as Hrange.
  destruct n as [|p|p]; try (exfalso; clear - Hn; lia).
  unfold F64.of_Z. cbn [binary_normalize].
  destruct (binary_round_normal false p 0) as (m & e & Hres & Hm & He & Herr);
    [bare|change (0 + 1074) with 1074; exact Hrange|].
  change F64.prec with 53. change F64.emax with 1024. rewrite Hres.
  change (0 + 1074) with 1074 in Herr.
  assert (Hn' : normal (S754_finite false m e) (Z.pos m * 2 ^ (e + 1074)))
    by (apply normal_of_round; [reflexivity|assumption|assumption]).
  rewrite <- (exact_units _ _ (Z.pos p) Hn' Herr Hn). exact Hn'.
Qed.

(** Sums and differences of integers are exact. *)
Lemma add_of_Z (a b : Z) :
  0 < a -> 0 < b -> a + b < 2 ^ 52 ->
  F64.add (F64.of_Z a) (F64.of_Z b) = F64.of_Z (a + b).
Proof.
  intros Ha Hb Hsum.
  assert (Ha' : 0 < a < 2 ^ 52) by lia.
  assert (Hb' : 0 < b < 2 ^ 52) by lia.
  assert (Hs' : 0 < a + b < 2 ^ 52) by lia.
  pose proof (of_Z_normal a Ha') as Na.
  pose proof (of_Z_normal b Hb') as Nb.
  pose proof (of_Z_normal (a + b) Hs') as Ns.
  destruct (add_normal _ _ _ _ Na Nb) as (v & Nv & Herr).
  - apply units_sum; apply units_range; assumption.
  - rewrite <- Z.mul_add_distr_r in Herr.
    apply normal_injective with (v := (a + b) * 2 ^ 1074); [|exact Ns].
    rewrite <- (exact_units _ _ (a + b) Nv Herr Hs'). exact Nv.
Qed.

Lemma sub_of_Z (a b : Z) :
  0 < b -> b < a -> a < 2 ^ 52 ->
  F64.sub (F64.of_Z a) (F64.of_Z b) = F64.of_Z (a - b).
Proof.
  intros Hb Hlt Ha.
  assert (Ha' : 0 < a < 2 ^ 52) by lia.
  assert (Hb' : 0 < b < 2 ^ 52) by lia.
  assert (Hd' : 0 < a - b < 2 ^ 52) by lia.
  pose proof (of_Z_normal a Ha') as Na.
  pose proof (of_Z_normal b Hb') as Nb.
  pose proof (of_Z_normal (a - b) Hd') as Ns.
  destruct (sub_normal _ _ _ _ Na Nb) as (Hpos & _ & _);
    [apply units_normal; assumption ..|].
  destruct Hpos as (v & Nv & Herr).
  - rewrite <- Z.mul_sub_distr_r. apply units_normal. exact Hd'.
  - rewrite <- Z.mul_sub_distr_r in Herr.
    apply normal_injective with (v := (a - b) * 2 ^ 1074); [|exact Ns].
    rewrite <- (exact_units _ _ (a - b) Nv Herr Hd'). exact Nv.
Qed.

(** [round(x, 2)] leaves an integer as it is. *)
Lemma round2_of_Z (k : Z) :
  0 < k < 2 ^ 52 -> F64.round2 (F64.of_Z k) = F64.of_Z k.
Proof.
  intros Hk.
  pose proof (of_Z_normal k Hk) as Nk.
  destruct (units_range k Hk) as [Hlo Hhi].
  destruct (round2_normal _ _ Nk) as (v & H & Nv & Hrnd & Hdiv & _).
  - revert Hlo. generalize units_pos. generalize (2 ^ 1074).
    intros U HU Hlo. clear - HU Hlo. lia.
  - apply Z.lt_trans with (2 ^ 1126); [exact Hhi|apply pow2_lt_mono; bare].
  - apply normal_injective with (v := k * 2 ^ 1074); [|exact Nk].
    rewrite <- (exact_units _ _ k Nv); [exact Nv| |exact Hk].
    apply (hundredth_exact _ units_pos k v H Hrnd Hdiv).
Qed.

(** The exponent of the double of a small positive integer. *)
Lemma small_exponent (n : Z) (m : positive) (e : Z) :
  0 < n < 2 ^ 52 -> 2 ^ 52 <= Z.pos m < 2 ^ 53 -> -1074 <= e ->
  n * 2 ^ 1074 = Z.pos m * 2 ^ (e + 1074) -> -53 < e < 0.
Proof.
  intros Hn Hm He.
  assert (He' : 0 <= e + 1074) by lia.
  assert (HP : 0 < 2 ^ (e + 1074)) by (apply pow2_pos; exact He').
  intros Hv.
  destruct (units_range n Hn) as [Hlo Hhi]. rewrite Hv in Hlo, Hhi.
  split.
  - assert (H : 2 ^ 1074 < 2 ^ (53 + (e + 1074))).
    { rewrite Z.pow_add_r by (bare || exact He').
      apply Z.le_lt_trans with (Z.pos m * 2 ^ (e + 1074)); [exact Hlo|].
      apply Z.mul_lt_mono_pos_r; [exact HP|apply Hm]. }
    apply pow2_lt_inv in H; [|clear - He'; lia]. clear - H. lia.
  - assert (H : 2 ^ (52 + (e + 1074)) < 2 ^ 1126).
    { rewrite Z.pow_add_r by (bare || exact He').
      apply Z.le_lt_trans with (Z.pos m * 2 ^ (e + 1074)); [|exact Hhi].
      apply Z.mul_le_mono_nonneg_r; [apply Z.lt_le_incl, HP|apply Hm]. }
    apply pow2_lt_inv in H; [|bare]. clear - H. lia.
Qed.

(** The mantissa of an integer's double, when its exponent is negative. *)
Lemma of_Z_mantissa (n : Z) (m : positive) (e : Z) :
  -1074 <= e < 0 -> n * 2 ^ 1074 = Z.pos m * 2 ^ (e + 1074) ->
  Z.pos m = n * 2 ^ (- e).
Proof.
  intros He.
  assert (HP : 2 ^ (e + 1074) <> 0)
    by (apply Z.neq_sym, Z.lt_neq, pow2_pos; lia).
  assert (Hsplit : 2 ^ 1074 = 2 ^ (- e) * 2 ^ (e + 1074))
    by (rewrite <- Z.pow_add_r by lia; f_equal; lia).
  intros Hv. rewrite Hsplit, Z.mul_assoc in Hv.
  apply Z.mul_cancel_r in Hv; [symmetry; exact Hv|exact HP].
Qed.

(** [float(n).is_integer()]. *)
Lemma is_integer_of_Z (n : Z) :
  0 < n < 2 ^ 52 -> F64.is_integer (F64.of_Z n) = true.
Proof.
  intros Hn.
  destruct (of_Z_normal n Hn) as (m & e & -> & Hm & He & Hv).
  cbn [F64.is_integer].
  destruct (Z.leb_spec 0 e) as [_|Hneg]; [reflexivity|].
  rewrite (of_Z_mantissa n m e ltac:(clear - He Hneg; lia) Hv).
  rewrite Z_mod_mult. reflexivity.
Qed.

Lemma of_Z_5 : F64.of_Z 5 = S754_finite false 5629499534213120 (-50).
Proof. vm_compute. reflexivity. Qed.

(** [float(n) % 5 == 0 and float(n).is_integer()] is [n % 5 == 0]. *)
Lemma multiple_of_5_of_Z (n : Z) :
  0 < n < 2 ^ 52 -> multiple_of_5 (F64.of_Z n) = Some (n mod 5 =? 0).
Proof.
  intros Hn. unfold multiple_of_5.
  rewrite (is_integer_of_Z n Hn).
  destruct (of_Z_normal n Hn) as (m & e & -> & Hm & He & Hv).
  pose proof (small_exponent n m e Hn Hm ltac:(clear - He; lia) Hv) as Hneg.
  pose proof (of_Z_mantissa n m e ltac:(clear - Hneg; lia) Hv) as Hman.
  clear Hv.
  rewrite of_Z_5. unfold F64.rem.
  change (F64.eqb (S754_finite false 5629499534213120 (-50))
            (S754_zero false)) with false.
  cbn iota. cbn [F64.fmod cond_Zopp].
  set (ez := Z.min e (-50)).
  assert (Hez : -1074 <= ez <= -50) by (unfold ez; lia).
  set (Q := 2 ^ (- ez)).
  assert (HQ : 0 < Q) by (apply pow2_pos; lia).
  assert (HX : Z.pos m * 2 ^ (e - ez) = n * Q).
  { rewrite Hman.
    rewrite <- Z.mul_assoc, <- Z.pow_add_r by lia.
    unfold Q. do 2 f_equal. lia. }
  assert (HY : 5629499534213120 * 2 ^ (-50 - ez) = 5 * Q).
  { change 5629499534213120 with (5 * 2 ^ 50).
    rewrite <- Z.mul_assoc, <- Z.pow_add_r by lia.
    unfold Q. do 2 f_equal. lia. }
  rewrite HX, HY, Z.mul_mod_distr_r by lia.
  pose proof (Z.mod_pos_bound n 5 ltac:(lia)) as Hr.
  destruct (Z.eqb_spec (n mod 5) 0) as [H0|Hne].
  - rewrite H0. reflexivity.
  - assert (Hr' : 0 < n mod 5 < 2 ^ 52) by lia.
    assert (HR : 0 < n mod 5 * Q) by (apply Z.mul_pos_pos; lia).
    assert (Hval : n mod 5 * Q * 2 ^ (ez + 1074) = n mod 5 * 2 ^ 1074).
    { rewrite <- Z.mul_assoc. f_equal. unfold Q.
      rewrite <- Z.pow_add_r by lia. f_equal. lia. }
    destruct (n mod 5 * Q) as [|p|p]; try (exfalso; clear - HR; lia).
    cbn [binary_normalize].
    destruct (binary_round_normal false p ez) as (m' & e' & Hres & _);
      [clear - Hez; lia|rewrite Hval; apply units_normal; exact Hr'|].
    change F64.prec with 53. change F64.emax with 1024.
    rewrite Hres. reflexivity.
Qed.

Lemma of_Z_ltb (a b : Z) :
  0 < a < 2 ^ 52 -> 0 < b < 2 ^ 52 ->
  F64.ltb (F64.of_Z a) (F64.of_Z b) = (a <? b).
Proof.
  intros Ha Hb.
  rewrite (normal_ltb _ _ _ _ (of_Z_normal a Ha) (of_Z_normal b Hb)).
  destruct (Z.ltb_spec a b); [apply Z.ltb_lt|apply Z.ltb_ge].
  - apply Z.mul_lt_mono_pos_r; [exact units_pos|assumption].
  - apply Z.mul_le_mono_nonneg_r;
      [apply Z.lt_le_incl, units_pos|assumption].
Qed.

Lemma of_Z_leb (a b : Z) :
  0 < a < 2 ^ 52 -> 0 < b < 2 ^ 52 ->
  F64.leb (F64.of_Z a) (F64.of_Z b) = (a <=? b).
Proof.
  intros Ha Hb.
  rewrite (normal_leb _ _ _ _ (of_Z_normal a Ha) (of_Z_normal b Hb)).
  destruct (Z.leb_spec a b); [apply Z.leb_le|apply Z.leb_gt].
  - apply Z.mul_le_mono_nonneg_r;
      [apply Z.lt_le_incl, units_pos|assumption].
  - apply Z.mul_lt_mono_pos_r; [exact units_pos|assumption].
Qed.

Lemma normal_eqb_false (x y : F64.float) (vx vy : Z) :
  normal x vx -> normal y vy -> vx <> vy -> F64.eqb x y = false.
Proof.
  intros Hx Hy Hne.
  pose proof (normal_number _ _ Hx) as Nx.
  pose proof (normal_number _ _ Hy) as Ny.
  apply (eqb_false_iff _ _ Nx Ny).
  destruct Hx as (mx & ex & -> & _ & _ & ->).
  destruct Hy as (my & ey & -> & _ & _ & ->).
  cbn [key lex_eq]. intros (_ & He & Hm). apply Hne. congruence.
Qed.

Lemma of_Z_eqb_false (a b : Z) :
  0 < a < 2 ^ 52 -> 0 < b < 2 ^ 52 -> a <> b ->
  F64.eqb (F64.of_Z a) (F64.of_Z b) = false.
Proof.
  intros Ha Hb Hne.
  apply (normal_eqb_false _ _ _ _ (of_Z_normal a Ha) (of_Z_normal b Hb)).
  intros H. apply Hne.
  apply Z.mul_cancel_r in H; [exact H|].
  apply Z.neq_sym, Z.lt_neq, units_pos.
Qed.

Lemma normal_not_le_zero (x : F64.float) (v : Z) :
  normal x v -> F64.leb x (F64.of_Z 0) = false.
Proof. intros (m & e & -> & _). reflexivity. Qed.

(** 0.01 is below every positive integer. *)
Lemma cent_below_of_Z (n : Z) :
  0 < n < 2 ^ 52 -> F64.ltb (F64.of_Z n) (F64.dec 1 100) = false.
Proof.
  intros Hn.
  rewrite (normal_ltb _ _ _ _ (of_Z_normal n Hn) normal_cent), value_of_cent.
  apply Z.ltb_ge.
  apply Z.le_trans with (2 ^ 1074); [|apply units_range; exact Hn].
  vm_compute. discriminate.
Qed.

End Exact.

Section WholePrices.
Import Rounding Arith Division Values Enclosure.
Import Order OrderFacts Exact.
Variable float_of_str : string -> option F64.float.

(** X15: on the standard table a price whose float value is a whole
    number [n] from 1000 to 1000000 (the [int] itself, the float, or a
    string converted to it) is accepted exactly when [n] is a multiple of
    5; the bounds are then [n - 5] and [n + 5], except that the lower
    bound of 1000 is 999; any other whole number in that range is refused
    with the multiple-of-5 rule. *)
Theorem whole_prices_from_1000 (price : py_value) (n : Z) :
  1000 <= n <= 1000000 ->
  py_float float_of_str price = Converted (F64.of_Z n) ->
  get_price_range float_of_str price create_price_table =
    if n mod 5 =? 0
    then Return (F64.of_Z (if n =? 1000 then 999 else n - 5))
                (F64.of_Z (n + 5))
    else Raise (InvalidPriceError (TickViolation MultipleOf5)).
Proof.
  intros Hn Hconv. unfold get_price_range. rewrite Hconv.
  destruct (Z.eq_dec n 1000) as [->|Hne]; [vm_compute; reflexivity|].
  assert (Hn' : 0 < n < 2 ^ 52) by lia.
  pose proof (of_Z_normal n Hn') as N.
  unfold get_price_range_float.
  rewrite (normal_not_le_zero _ _ N).
  rewrite (cent_below_of_Z n Hn').
  unfold F64.gtb at 1. rewrite of_Z_ltb by lia.
  replace (1000000 <? n) with false by (symmetry; apply Z.ltb_ge; lia).
  rewrite bisect_right_table, !of_Z_ltb by lia.
  replace (n <? 100) with false by (symmetry; apply Z.ltb_ge; lia).
  replace (n <? 500) with false by (symmetry; apply Z.ltb_ge; lia).
  replace (n <? 1000) with false by (symmetry; apply Z.ltb_ge; lia).
  change (py_getitem create_price_table (Z.of_nat 7 - 1))
    with (Some (Band (F64.of_Z 1000) F64.inf (F64.of_Z 5))).
  cbn [start fluctuation]. unfold tick_check.
  rewrite !of_Z_ltb by lia.
  replace (n <? 10) with false by (symmetry; apply Z.ltb_ge; lia).
  replace (n <? 50) with false by (symmetry; apply Z.ltb_ge; lia).
  replace (n <? 100) with false by (symmetry; apply Z.ltb_ge; lia).
  replace (n <? 500) with false by (symmetry; apply Z.ltb_ge; lia).
  replace (n <? 1000) with false by (symmetry; apply Z.ltb_ge; lia).
  rewrite !andb_false_r. cbn [andb].
  unfold F64.geb. rewrite of_Z_leb by lia.
  replace (1000 <=? n) with true by (symmetry; apply Z.leb_le; lia).
  rewrite (multiple_of_5_of_Z n Hn').
  destruct (n mod 5 =? 0); [|reflexivity].
  unfold down_fluctuation_of. cbn [start fluctuation].
  rewrite (of_Z_eqb_false n 1000) by lia.
  cbn [andb]. unfold bounds.
  rewrite sub_of_Z, add_of_Z by lia.
  unfold F64.max, F64.gtb.
  rewrite (cent_below_of_Z (n - 5)) by lia.
  unfold F64.min. rewrite of_Z_ltb by lia.
  replace (n <? n - 5) with false by (symmetry; apply Z.ltb_ge; lia).
  rewrite !round2_of_Z by lia.
  apply Z.eqb_neq in Hne. rewrite Hne. reflexivity.
Qed.

End WholePrices.

Lemma whole_prices_from_1000_witness :
  get_price_range (fun _ => None) (PyInt 1005) create_price_table
  = (if 1005 mod 5 =? 0
     then Return (F64.of_Z (if 1005 =? 1000 then 999 else 1005 - 5))
            (F64.of_Z (1005 + 5))
     else Raise (InvalidPriceError (TickViolation MultipleOf5))).
Proof.
  apply (whole_prices_from_1000 (fun _ => None) (PyInt 1005) 1005);
    [lia|vm_compute; reflexivity].
Defined.

(** ** Prices off the tick grid *)

Module Products.
Import Rounding Arith Division Values Enclosure.
Import Order OrderFacts Edges Exact.

(** Arithmetic on values counted in a unit [U], whatever the unit. *)
Section Units.
Variable U : Z.
Hypothesis HU : 0 < U.

Lemma cancel_error (A B : Z) :
  2 ^ 53 * Z.abs (A * U - B * U) <= A * U -> 2 ^ 53 * Z.abs (A - B) <= A.
Proof.
  intros H. replace (A * U - B * U) with ((A - B) * U) in H by ring.
  rewrite Z.abs_mul, (Z.abs_eq U) in H by lia.
  apply Z.mul_le_mono_pos_r with U; [exact HU|]. lia.
Qed.

(** The value of the literal [n / den], between whole numbers. *)
Lemma quotient_between (den lo hi n vx : Z) :
  den = 10 \/ den = 100 ->
  0 < lo -> hi <= 1000000 -> lo * den < n < hi * den ->
  2 ^ 53 * Z.abs (vx * den - n * U) <= vx * den ->
  lo * U <= vx < hi * U.
Proof.
  intros Hden Hlo Hhi Hn Herr.
  assert (H1 : lo * U <= 1000000 * U)
    by (apply Z.mul_le_mono_nonneg_r; lia).
  assert (H2 : 0 < lo * U) by (apply Z.mul_pos_pos; lia).
  assert (H3 : hi * U <= 1000000 * U)
    by (apply Z.mul_le_mono_nonneg_r; lia).
  destruct Hden as [-> | ->].
  - assert (H4 : (lo * 10 + 1) * U <= n * U)
      by (apply Z.mul_le_mono_nonneg_r; lia).
    assert (H5 : n * U <= (hi * 10 - 1) * U)
      by (apply Z.mul_le_mono_nonneg_r; lia).
    lia.
  - assert (H4 : (lo * 100 + 1) * U <= n * U)
      by (apply Z.mul_le_mono_nonneg_r; lia).
    assert (H5 : n * U <= (hi * 100 - 1) * U)
      by (apply Z.mul_le_mono_nonneg_r; lia).
    lia.
Qed.

(** A product within half a unit in the last place of [n * k / den]
    is not a whole number when [n * k / den] is not. *)
Lemma product_not_whole (den k n vx j : Z) :
  (den = 100 /\ k = 20) \/ (den = 100 /\ k = 10) \/ (den = 10 /\ k = 2) ->
  2 * den <= n < 100000 -> (k * n) mod den <> 0 ->
  2 ^ 53 * Z.abs (vx * den - n * U) <= vx * den ->
  2 ^ 53 * Z.abs (j * U - vx * k) <= j * U ->
  False.
Proof.
  intros Hcase Hn Hoff Hx Hv.
  assert (H1 : n * U < 100000 * U) by (apply Z.mul_lt_mono_pos_r; lia).
  assert (H2 : 0 < n * U) by (apply Z.mul_pos_pos; lia).
  assert (Heq : den * j = k * n).
  { apply whole_units with U; [exact HU|].
    destruct Hcase as [[-> ->]|[[-> ->]|[-> ->]]]; lia. }
  apply Hoff. rewrite <- Heq, Z.mul_comm. apply Z_mod_mult.
Qed.

End Units.

(** The literal [n / d]: the double within half a unit in the last place
    of the quotient. *)
Lemma dec_normal (n d : Z) :
  0 < n < 2 ^ 52 -> 0 < d < 2 ^ 52 ->
  exists v, normal (F64.dec n d) v
            /\ 2 ^ 53 * Z.abs (v * d - n * 2 ^ 1074) <= v * d.
Proof.
  intros Hn Hd.
  destruct (of_Z_normal n Hn) as (mx & ex & Hx & Hmx & Hex & Hvx).
  destruct (of_Z_normal d Hd) as (my & ey & Hy & Hmy & Hey & Hvy).
  pose proof (small_exponent n mx ex Hn Hmx ltac:(clear - Hex; lia) Hvx)
    as Hex'.
  pose proof (small_exponent d my ey Hd Hmy ltac:(clear - Hey; lia) Hvy)
    as Hey'.
  unfold F64.dec. rewrite Hx, Hy.
  assert (Hdig : Z.pos (digits2_pos mx) = 53).
  { change (Z.pos (digits2_pos mx)) with (Zdigits2 (Z.pos mx)).
    apply Zdigits2_unique; [bare|]. exact Hmx. }
  destruct (div_normal false mx ex my ey) as (m & e & Hres & Hm & He & Herr).
  - clear - Hmx. lia.
  - exact Hmy.
  - rewrite Hdig. clear - Hex' Hey'. lia.
  - clear - Hex' Hey'. lia.
  - rewrite Hres. exists (Z.pos m * 2 ^ (e + 1074)).
    split; [apply normal_of_round; [reflexivity|assumption|assumption]|].
    set (V := Z.pos m * 2 ^ (e + 1074)) in *.
    assert (HQ : 0 < 2 ^ (ey + 1074))
      by (apply pow2_pos; clear - Hey'; lia).
    apply (scale_error _ _ _ HQ) in Herr.
    replace (V * Z.pos my * 2 ^ (ey + 1074)) with (V * d * 2 ^ 1074) in Herr
      by (rewrite <- !Z.mul_assoc; f_equal; exact Hvy).
    replace (Z.pos mx * 2 ^ (ex - ey + 1074) * 2 ^ (ey + 1074))
      with (n * 2 ^ 1074 * 2 ^ 1074) in Herr.
    2:{ rewrite Hvx, <- !Z.mul_assoc. f_equal.
        rewrite <- !Z.pow_add_r by (clear - Hex' Hey'; lia).
        f_equal. clear. lia. }
    apply (cancel_error _ units_pos). exact Herr.
Qed.

(** The exponent of a normal double, from the size of its value. *)
Lemma exponent_between (m : positive) (e lo hi : Z) :
  2 ^ 52 <= Z.pos m < 2 ^ 53 -> -1074 <= e -> 0 <= lo -> 0 <= hi ->
  2 ^ lo <= Z.pos m * 2 ^ (e + 1074) < 2 ^ hi ->
  lo - 1127 < e < hi - 1126.
Proof.
  intros Hm He Hlo Hhi.
  assert (He' : 0 <= e + 1074) by lia.
  assert (HP : 0 < 2 ^ (e + 1074)) by (apply pow2_pos; exact He').
  intros [Hl Hh]. split.
  - assert (H : 2 ^ lo < 2 ^ (53 + (e + 1074))).
    { rewrite Z.pow_add_r by (bare || exact He').
      apply Z.le_lt_trans with (Z.pos m * 2 ^ (e + 1074)); [exact Hl|].
      apply Z.mul_lt_mono_pos_r; [exact HP|apply Hm]. }
    apply pow2_lt_inv in H; [|clear - He'; lia]. clear - H. lia.
  - assert (H : 2 ^ (52 + (e + 1074)) < 2 ^ hi).
    { rewrite Z.pow_add_r by (bare || exact He').
      apply Z.le_lt_trans with (Z.pos m * 2 ^ (e + 1074)); [|exact Hh].
      apply Z.mul_le_mono_nonneg_r; [apply Z.lt_le_incl, HP|apply Hm]. }
    apply pow2_lt_inv in H; [|exact Hhi]. clear - H. lia.
Qed.

(** The product of two doubles from 1 up: the double within half a unit in
    the last place of the exact product. *)
Lemma mul_normal (x y : F64.float) (vx vy : Z) :
  normal x vx -> normal y vy ->
  2 ^ 1074 <= vx < 2 ^ 1574 -> 2 ^ 1074 <= vy < 2 ^ 1574 ->
  exists v, normal (F64.mul x y) v
            /\ 2 ^ 53 * Z.abs (v * 2 ^ 1074 - vx * vy) <= v * 2 ^ 1074.
Proof.
  intros (mx & ex & -> & Hmx & Hex & ->) (my & ey & -> & Hmy & Hey & ->)
    Hx Hy.
  pose proof (exponent_between mx ex 1074 1574 Hmx ltac:(clear - Hex; lia)
                ltac:(bare) ltac:(bare) Hx) as Hbx.
  pose proof (exponent_between my ey 1074 1574 Hmy ltac:(clear - Hey; lia)
                ltac:(bare) ltac:(bare) Hy) as Hby.
  clear Hx Hy.
  unfold F64.mul, SFmul. cbn [xorb].
  rewrite Pos2Z.inj_mul.
  set (M := Z.pos mx * Z.pos my).
  assert (HM : 2 ^ 104 <= M < 2 ^ 106).
  { unfold M. change (2 ^ 104) with (2 ^ 52 * 2 ^ 52).
    change (2 ^ 106) with (2 ^ 53 * 2 ^ 53). split.
    - apply Z.mul_le_mono_nonneg; lia.
    - apply Z.mul_lt_mono_nonneg; lia. }
  pose proof (Zdigits2_bounds M ltac:(lia)) as [[Hdl Hdh] Hdpos].
  assert (HD : 105 <= Zdigits2 M <= 106).
  { split.
    - assert (H : 2 ^ 104 < 2 ^ Zdigits2 M) by lia.
      apply pow2_lt_inv in H; lia.
    - assert (H : 2 ^ (Zdigits2 M - 1) < 2 ^ 106) by lia.
      apply pow2_lt_inv in H; lia. }
  change loc_Exact with (loc_frac 0 1).
  change F64.prec with 53. change F64.emax with 1024.
  destruct (binary_round_aux_normal false M (ex + ey) 0 1)
    as (m & e & Hres & Hm & He & _ & Herr); try lia.
  rewrite Hres. exists (Z.pos m * 2 ^ (e + 1074)).
  split; [apply normal_of_round; [reflexivity|assumption|lia]|].
  rewrite !Z.mul_1_r, Z.add_0_r in Herr.
  assert (HP : 0 < 2 ^ (ex + ey + 2148)) by (apply pow2_pos; lia).
  apply (scale_error _ _ _ HP) in Herr.
  replace (Z.pos m * 2 ^ (e - (ex + ey)) * 2 ^ (ex + ey + 2148))
    with (Z.pos m * 2 ^ (e + 1074) * 2 ^ 1074) in Herr.
  2:{ rewrite <- !Z.mul_assoc. f_equal.
      rewrite <- !Z.pow_add_r by (clear - He Hbx Hby; lia).
      f_equal. clear. lia. }
  replace (M * 2 ^ (ex + ey + 2148))
    with (Z.pos mx * 2 ^ (ex + 1074) * (Z.pos my * 2 ^ (ey + 1074)))
    in Herr.
  2:{ unfold M.
      replace (ex + ey + 2148) with ((ex + 1074) + (ey + 1074))
        by (clear; lia).
      rewrite (Z.pow_add_r 2 (ex + 1074) (ey + 1074))
        by (clear - Hbx Hby; lia).
      ring. }
  exact Herr.
Qed.

(** The value of a double that [is_integer] accepts. *)
Lemma is_integer_value (x : F64.float) (v : Z) :
  normal x v -> F64.is_integer x = true -> exists k, v = k * 2 ^ 1074.
Proof.
  intros (m & e & -> & Hm & He & ->). cbn [F64.is_integer].
  destruct (Z.leb_spec 0 e) as [Hpos|Hneg]; intros H.
  - exists (Z.pos m * 2 ^ e).
    rewrite Z.pow_add_r by (bare || exact Hpos). ring.
  - apply Z.eqb_eq in H.
    assert (HQ : 0 < 2 ^ (- e)) by (apply pow2_pos; lia).
    exists (Z.pos m / 2 ^ (- e)).
    rewrite (Z_div_exact_full_2 (Z.pos m) (2 ^ (- e))) at 1 by lia.
    replace (2 ^ 1074) with (2 ^ (- e) * 2 ^ (e + 1074))
      by (rewrite <- Z.pow_add_r by lia; f_equal; clear; lia).
    ring.
Qed.

(** [(n / den * k).is_integer()] fails when [n * k / den] is not an
    integer, for the three scalings the tick rules use on prices from
    10. *)
Lemma scaled_not_integer (n den k : Z) :
  (den = 100 /\ k = 20) \/ (den = 100 /\ k = 10) \/ (den = 10 /\ k = 2) ->
  2 * den <= n < 100000 -> (k * n) mod den <> 0 ->
  F64.is_integer (F64.mul (F64.dec n den) (F64.of_Z k)) = false.
Proof.
  intros Hcase Hn Hoff.
  assert (Hden : (den = 10 \/ den = 100) /\ 0 < k < 2 ^ 52)
    by (destruct Hcase as [[-> ->]|[[-> ->]|[-> ->]]]; lia).
  destruct Hden as [Hden Hk].
  assert (Hd' : 0 < den < 2 ^ 52) by (destruct Hden as [-> | ->]; lia).
  assert (Hn' : 0 < n < 2 ^ 52) by lia.
  assert (Hnd : 1 * den < n < 100000 * den) by lia.
  destruct (dec_normal n den Hn' Hd') as (vx & Nx & Hx).
  pose proof (of_Z_normal k Hk) as Nk.
  pose proof (quotient_between _ units_pos den 1 100000 n vx Hden
                ltac:(bare) ltac:(bare) Hnd Hx) as [Hlo Hhi].
  destruct (mul_normal _ _ _ _ Nx Nk) as (v & Nv & Hv).
  - split; [rewrite Z.mul_1_l in Hlo; exact Hlo|].
    apply Z.lt_trans with (2 ^ 1126); [|apply pow2_lt_mono; bare].
    apply Z.lt_trans with (100000 * 2 ^ 1074); [exact Hhi|].
    apply units_range. bare.
  - destruct (units_range k Hk) as [Hkl Hkh]. split; [exact Hkl|].
    apply Z.lt_trans with (2 ^ 1126); [exact Hkh|apply pow2_lt_mono; bare].
  - destruct (F64.is_integer (F64.mul (F64.dec n den) (F64.of_Z k)))
      eqn:Hint; [exfalso|reflexivity].
    destruct (is_integer_value _ _ Nv Hint) as (j & ->).
    rewrite (Z.mul_assoc vx k) in Hv.
    apply (cancel_error _ units_pos (j * 2 ^ 1074) (vx * k)) in Hv.
    apply (product_not_whole _ units_pos den k n vx j Hcase Hn Hoff Hx).
    exact Hv.
Qed.

Lemma scaled_mod (n k den step : Z) :
  den = k * step -> 0 < k -> 0 < step ->
  n mod step <> 0 -> (k * n) mod den <> 0.
Proof.
  intros -> Hk Hs Hoff H. apply Hoff.
  rewrite Z.mul_mod_distr_l in H by lia.
  apply Z.mul_eq_0 in H. lia.
Qed.

(** A price within the limits whose tick check fails, whatever row the
    lookup selects, is refused with that rule. *)
Lemma tick_violation_raised (float_of_str : string -> option F64.float)
    (x : F64.float) (r : tick_rule) :
  F64.leb (F64.dec 1 100) x = true ->
  F64.leb x (F64.of_Z 1000000) = true ->
  (forall s, tick_check s x = Some (Some r)) ->
  get_price_range float_of_str (PyFloat x) create_price_table
  = Raise (InvalidPriceError (TickViolation r)).
Proof.
  intros Hlo Hhi Htick.
  cbn [get_price_range py_float]. unfold get_price_range_float.
  replace (F64.leb x (F64.of_Z 0)) with false by (symmetry; float_order).
  replace (F64.ltb x (F64.dec 1 100)) with false by (symmetry; float_order).
  replace (F64.gtb x (F64.of_Z 1000000)) with false
    by (symmetry; float_order).
  fold (lookup_index create_price_table x).
  destruct (py_getitem_in_range create_price_table
              (lookup_index create_price_table x) ltac:(discriminate)
              (lookup_index_range create_price_table x)) as (b & ->).
  rewrite Htick. reflexivity.
Qed.

(** The tick checks of the three ranges from 10 to 500, whatever the start
    of the row. *)
Lemma tick_check_10_50 (s x : F64.float) :
  F64.leb (F64.of_Z 10) x = true -> F64.ltb x (F64.of_Z 50) = true ->
  F64.is_integer (F64.mul x (F64.of_Z 20)) = false ->
  tick_check s x = Some (Some MultipleOf005).
Proof.
  intros Hlo Hhi Hint. unfold tick_check.
  replace (F64.ltb x (F64.of_Z 10)) with false by (symmetry; float_order).
  rewrite andb_false_r, Hlo, Hhi, Hint. reflexivity.
Qed.

Lemma tick_check_50_100 (s x : F64.float) :
  F64.leb (F64.of_Z 50) x = true -> F64.ltb x (F64.of_Z 100) = true ->
  F64.is_integer (F64.mul x (F64.of_Z 10)) = false ->
  tick_check s x = Some (Some MultipleOf01).
Proof.
  intros Hlo Hhi Hint. unfold tick_check.
  replace (F64.ltb x (F64.of_Z 10)) with false by (symmetry; float_order).
  replace (F64.ltb x (F64.of_Z 50)) with false by (symmetry; float_order).
  rewrite !andb_false_r, Hlo, Hhi, Hint. reflexivity.
Qed.

Lemma tick_check_100_500 (s x : F64.float) :
  F64.leb (F64.of_Z 100) x = true -> F64.ltb x (F64.of_Z 500) = true ->
  F64.is_integer (F64.mul x (F64.of_Z 2)) = false ->
  tick_check s x = Some (Some MultipleOf05).
Proof.
  intros Hlo Hhi Hint. unfold tick_check.
  replace (F64.ltb x (F64.of_Z 10)) with false by (symmetry; float_order).
  replace (F64.ltb x (F64.of_Z 50)) with false by (symmetry; float_order).
  replace (F64.ltb x (F64.of_Z 100)) with false by (symmetry; float_order).
  rewrite !andb_false_r, Hlo, Hhi, Hint. reflexivity.
Qed.

(** Where the literal [n / den] lies among the whole numbers. *)
Lemma dec_between (n den lo hi : Z) :
  den = 10 \/ den = 100 ->
  0 < lo -> hi <= 1000000 -> lo * den < n < hi * den ->
  F64.leb (F64.of_Z lo) (F64.dec n den) = true
  /\ F64.ltb (F64.dec n den) (F64.of_Z hi) = true.
Proof.
  intros Hden Hlo Hhi Hn.
  assert (Hn' : 0 < n < 2 ^ 52) by (destruct Hden as [-> | ->]; lia).
  assert (Hd' : 0 < den < 2 ^ 52) by (destruct Hden as [-> | ->]; lia).
  assert (Hlo' : 0 < lo < 2 ^ 52) by (destruct Hden as [-> | ->]; lia).
  assert (Hhi' : 0 < hi < 2 ^ 52) by (destruct Hden as [-> | ->]; lia).
  destruct (dec_normal n den Hn' Hd') as (vx & Nx & Hx).
  rewrite (normal_leb _ _ _ _ (of_Z_normal lo Hlo') Nx).
  rewrite (normal_ltb _ _ _ _ Nx (of_Z_normal hi Hhi')).
  destruct (quotient_between _ units_pos den lo hi n vx Hden Hlo Hhi Hn Hx)
    as [H1 H2].
  split; [apply Z.leb_le|apply Z.ltb_lt]; assumption.
Qed.

End Products.

Section OffGridTheorems.
Import Order OrderFacts Products.
Variable float_of_str : string -> option F64.float.

(** X16: on the standard table every price of [n] cents from 10.00 to
    49.99 that is not a multiple of 0.05 is refused with the
    multiple-of-0.05 rule. *)
Theorem off_grid_10_to_50 (n : Z) :
  1000 <= n <= 4999 -> n mod 5 <> 0 ->
  get_price_range float_of_str (PyFloat (F64.dec n 100)) create_price_table
  = Raise (InvalidPriceError (TickViolation MultipleOf005)).
Proof.
  intros Hn Hoff.
  assert (Hstart : n <> 1000) by (intros ->; apply Hoff; reflexivity).
  assert (Hmod : (20 * n) mod 100 <> 0)
    by (apply (scaled_mod n 20 100 5); [reflexivity|lia|lia|exact Hoff]).
  pose proof (scaled_not_integer n 100 20 ltac:(lia) ltac:(lia) Hmod)
    as Hint.
  destruct (dec_between n 100 10 50) as [Hlo Hhi]; try lia.
  revert Hint Hlo Hhi. generalize (F64.dec n 100). intros x Hint Hlo Hhi.
  apply tick_violation_raised; [float_order|float_order|].
  intros s. apply tick_check_10_50; assumption.
Qed.

(** X17: on the standard table every price of [n] cents from 50.00 to
    99.99 that is not a multiple of 0.1 is refused with the
    multiple-of-0.1 rule. *)
Theorem off_grid_50_to_100 (n : Z) :
  5000 <= n <= 9999 -> n mod 10 <> 0 ->
  get_price_range float_of_str (PyFloat (F64.dec n 100)) create_price_table
  = Raise (InvalidPriceError (TickViolation MultipleOf01)).
Proof.
  intros Hn Hoff.
  assert (Hstart : n <> 5000) by (intros ->; apply Hoff; reflexivity).
  assert (Hmod : (10 * n) mod 100 <> 0)
    by (apply (scaled_mod n 10 100 10); [reflexivity|lia|lia|exact Hoff]).
  pose proof (scaled_not_integer n 100 10 ltac:(lia) ltac:(lia) Hmod)
    as Hint.
  destruct (dec_between n 100 50 100) as [Hlo Hhi]; try lia.
  revert Hint Hlo Hhi. generalize (F64.dec n 100). intros x Hint Hlo Hhi.
  apply tick_violation_raised; [float_order|float_order|].
  intros s. apply tick_check_50_100; assumption.
Qed.

(** X18: on the standard table every price of [n] tenths from 100.0 to
    499.9 that is not a multiple of 0.5 is refused with the
    multiple-of-0.5 rule. *)
Theorem off_grid_100_to_500 (n : Z) :
  1000 <= n <= 4999 -> n mod 5 <> 0 ->
  get_price_range float_of_str (PyFloat (F64.dec n 10)) create_price_table
  = Raise (InvalidPriceError (TickViolation MultipleOf05)).
Proof.
  intros Hn Hoff.
  assert (Hstart : n <> 1000) by (intros ->; apply Hoff; reflexivity).
  assert (Hmod : (2 * n) mod 10 <> 0)
    by (apply (scaled_mod n 2 10 5); [reflexivity|lia|lia|exact Hoff]).
  pose proof (scaled_not_integer n 10 2 ltac:(lia) ltac:(lia) Hmod)
    as Hint.
  destruct (dec_between n 10 100 500) as [Hlo Hhi]; try lia.
  revert Hint Hlo Hhi. generalize (F64.dec n 10). intros x Hint Hlo Hhi.
  apply tick_violation_raised; [float_order|float_order|].
  intros s. apply tick_check_100_500; assumption.
Qed.

End OffGridTheorems.

Lemma off_grid_10_to_50_witness :
  get_price_range (fun _ => None) (PyFloat (F64.dec 1003 100))
    create_price_table
  = Raise (InvalidPriceError (TickViolation MultipleOf005)).
Proof.
  apply (off_grid_10_to_50 (fun _ => None) 1003); [lia|].
  vm_compute. discriminate.
Defined.

Lemma off_grid_50_to_100_witness :
  get_price_range (fun _ => None) (PyFloat (F64.dec 5005 100))
    create_price_table
  = Raise (InvalidPriceError (TickViolation MultipleOf01)).
Proof.
  apply (off_grid_50_to_100 (fun _ => None) 5005); [lia|].
  vm_compute. discriminate.
Defined.

Lemma off_grid_100_to_500_witness :
  get_price_range (fun _ => None) (PyFloat (F64.dec 1003 10))
    create_price_table
  = Raise (InvalidPriceError (TickViolation MultipleOf05)).
Proof.
  apply (off_grid_100_to_500 (fun _ => None) 1003); [lia|].
  vm_compute. discriminate.
Defined.

(** ** The bounds as prices *)

Module Chain.
Import Grid.

Lemma on_a_grid_cases (den n : Z) :
  on_a_grid den n = true ->
  (den = 20 /\ 200 <= n <= 999) \/ (den = 10 /\ 500 <= n <= 999)
  \/ (den = 2 /\ 200 <= n <= 999) \/ (den = 1 /\ 500 <= n <= 999).
Proof.
  unfold on_a_grid. intros H.
  repeat (apply orb_prop in H as [H|H]);
    apply andb_prop in H as [H H3]; apply andb_prop in H as [H1 H2];
    apply Z.eqb_eq in H1; apply Z.leb_le in H2, H3; lia.
Qed.

(** Within one grid: the neighbours of a price are prices of the grid, and
    the two ends are settled by evaluation. *)
Lemma neighbours_accepted (float_of_str : string -> option F64.float)
    (den first : Z) (low : F64.float) (len : nat) (n : Z) :
  all_from (on_grid den first low) first len = true ->
  first + Z.of_nat len = 1000 ->
  is_return (get_price_range float_of_str (PyFloat low) create_price_table)
  = true ->
  is_return
    (get_price_range float_of_str (PyFloat (F64.dec 1000 den))
       create_price_table) = true ->
  first <= n <= 999 ->
  forall lo hi,
    get_price_range float_of_str (PyFloat (F64.dec n den)) create_price_table
    = Return lo hi ->
    is_return (get_price_range float_of_str (PyFloat lo) create_price_table)
    = true
    /\ is_return (get_price_range float_of_str (PyFloat hi) create_price_table)
       = true.
Proof.
  intros Hgrid Hlen Hlow Hend Hn lo hi Hret.
  assert (Hat : forall k, first <= k <= 999 ->
            get_price_range float_of_str (PyFloat (F64.dec k den))
              create_price_table
            = Return (if k =? first then low else F64.dec (k - 1) den)
                (F64.dec (k + 1) den)).
  { intros k Hk. apply on_grid_eq.
    apply (all_from_spec _ _ _ Hgrid). lia. }
  rewrite (Hat n Hn) in Hret. injection Hret as <- <-. split.
  - destruct (Z.eqb_spec n first) as [_|Hne]; [exact Hlow|].
    rewrite (Hat (n - 1)) by lia. reflexivity.
  - destruct (Z.eq_dec n 999) as [->|Hne]; [exact Hend|].
    rewrite (Hat (n + 1)) by lia. reflexivity.
Qed.

End Chain.

Section ChainTheorems.
Import Grid Chain.
Variable float_of_str : string -> option F64.float.

(** X19: on the standard table, the two bounds returned for a price on one
    of the tick grids from 10.00 to 999 are themselves accepted as prices:
    calling [get_price_range] on either of them returns. *)
Theorem bounds_of_grid_prices_accepted (den n : Z) (lo hi : F64.float) :
  on_a_grid den n = true ->
  get_price_range float_of_str (PyFloat (F64.dec n den)) create_price_table
  = Return lo hi ->
  is_return (get_price_range float_of_str (PyFloat lo) create_price_table)
  = true
  /\ is_return (get_price_range float_of_str (PyFloat hi) create_price_table)
     = true.
Proof.
  intros Hgrid.
  destruct (on_a_grid_cases den n Hgrid)
    as [[-> Hn]|[[-> Hn]|[[-> Hn]|[-> Hn]]]].
  - apply (neighbours_accepted _ 20 200 (F64.dec 999 100) 800);
      [exact grid_10_to_50|reflexivity| | |exact Hn];
      cbn [get_price_range py_float]; vm_compute; reflexivity.
  - apply (neighbours_accepted _ 10 500 (F64.dec 4995 100) 500);
      [exact grid_50_to_100|reflexivity| | |exact Hn];
      cbn [get_price_range py_float]; vm_compute; reflexivity.
  - apply (neighbours_accepted _ 2 200 (F64.dec 999 10) 800);
      [exact grid_100_to_500|reflexivity| | |exact Hn];
      cbn [get_price_range py_float]; vm_compute; reflexivity.
  - apply (neighbours_accepted _ 1 500 (F64.dec 4995 10) 500);
      [exact grid_500_to_1000|reflexivity| | |exact Hn];
      cbn [get_price_range py_float]; vm_compute; reflexivity.
Qed.

End ChainTheorems.

Lemma bounds_of_grid_prices_accepted_witness :
  is_return
    (get_price_range (fun _ => None) (PyFloat (F64.dec 999 100))
       create_price_table) = true
  /\ is_return
       (get_price_range (fun _ => None) (PyFloat (F64.dec 201 20))
          create_price_table) = true.
Proof.
  apply (bounds_of_grid_prices_accepted (fun _ => None) 20 200);
    vm_compute; reflexivity.
Defined.
